(** * plugin-gateway-ghost: the model-type dispatch and normalization layer

    A shallow embedding of the adapters of the plugin (TypeScript) and the
    properties its specification states about them.

    Conventions of the embedding.
    - An [async] function that may reject is a function into [Completion]:
      [Return v] for a fulfilled promise, [Throw e] for a rejected one.
    - Module-level [let]/[const] caches are explicit state records threaded
      through the calls.
    - Calls that leave the process (the AI SDK, [fetch], the FAL client,
      js-tiktoken) are parameters: either a Section variable or the outcome
      of the awaited call passed as an argument.
    - Texts whose characters are inspected ([trim]) are sequences of UTF-16
      code units; settings, model identifiers and messages, which are only
      compared and concatenated, are [string]s. *)

From stdpp Require Import base option list strings gmap.
From Stdlib Require Import ZArith NArith QArith Lia DecimalString.

#[local] Set Warnings "-register-all".
#[local] Open Scope string_scope.
#[local] Close Scope Q_scope.

(** ** Values thrown and values received from outside *)

Module Js.

(** A JavaScript string as its UTF-16 code units. *)
Abbreviation jsstring := (list N).

(** The code units of an ASCII literal. *)
Definition lit (s : string) : jsstring :=
  (λ a, N.of_nat (Ascii.nat_of_ascii a)) <$> String.list_ascii_of_string s.

(** The values an untyped parameter or an upstream JSON body can be.
    [JNum z] is a finite number of integer value [z]; no modelled path
    looks at a number beyond its truthiness. *)
Inductive value : Type :=
| JUndefined
| JNull
| JBool (b : bool)
| JNum (z : Z)
| JStr (s : jsstring)
| JArr (items : list value)
| JObj (fields : list (string * value)).

(** ToBoolean. *)
Definition truthy (v : value) : bool :=
  match v with
  | JUndefined | JNull => false
  | JBool b => b
  | JNum z => negb (z =? 0)%Z
  | JStr s => match s with [] => false | _ => true end
  | JArr _ | JObj _ => true
  end.

(** The fields of an object are listed with each key once. *)
Fixpoint lookup_field (k : string) (fs : list (string * value)) : option value :=
  match fs with
  | [] => None
  | (k', v) :: rest => if String.eqb k k' then Some v else lookup_field k rest
  end.

(** [v.k] for a data property [k] that no prototype defines ([text],
    [url], [images]): [None] is the TypeError raised on [undefined] and
    [null]; primitives and arrays have no such property. *)
Definition get (v : value) (k : string) : option value :=
  match v with
  | JUndefined | JNull => None
  | JObj fs => Some (default JUndefined (lookup_field k fs))
  | _ => Some JUndefined
  end.

(** ECMAScript WhiteSpace and LineTerminator code points, all of which
    are single code units: what [String.prototype.trim] removes. *)
Definition is_whitespace (c : N) : bool :=
  ((9 <=? c) && (c <=? 13) || (c =? 32) || (c =? 160) || (c =? 5760)
   || (8192 <=? c) && (c <=? 8202) || (c =? 8232) || (c =? 8233)
   || (c =? 8239) || (c =? 8287) || (c =? 12288) || (c =? 65279))%N.

Fixpoint trimStart (s : jsstring) : jsstring :=
  match s with
  | [] => []
  | c :: rest => if is_whitespace c then trimStart rest else s
  end.

Definition trimEnd (s : jsstring) : jsstring := rev (trimStart (rev s)).

Definition trim (s : jsstring) : jsstring := trimEnd (trimStart s).

Definition blank (s : jsstring) : bool := forallb is_whitespace s.

End Js.

(** Outcome of awaiting a call. *)
Inductive Completion (E A : Type) : Type :=
| Return (v : A)
| Throw (e : E).
Arguments Return {E A} v.
Arguments Throw {E A} e.

(** ** utils/error-handler.ts *)

Module ErrorHandler.

(** Instances of [Error]: a plain [Error] (or a subclass other than
    [AIGatewayError]) with its [name] and [message], or an
    [AIGatewayError] with its public fields. *)
Inductive ErrorObj : Type :=
| PlainError (name message : string)
| AIGatewayError (message code : string) (statusCode : option Z)
                 (cause : option ErrorObj).

(** What a [catch (error: unknown)] can receive: an [Error] instance or
    any other value; of the latter only [String(error)] is observed. *)
Inductive Thrown : Type :=
| ThrownError (e : ErrorObj)
| ThrownValue (rendered : string).

Definition error_message (e : ErrorObj) : string :=
  match e with
  | PlainError _ m => m
  | AIGatewayError m _ _ _ => m
  end.

(** [error instanceof AIGatewayError] *)
Definition instanceof_AIGatewayError (t : Thrown) : bool :=
  match t with
  | ThrownError (AIGatewayError _ _ _ _) => true
  | _ => false
  end.

(** [wrapHandlerError(modelType, error): never]; the result is the value
    it throws. *)
Definition wrapHandlerError (modelType : string) (error : Thrown) : Thrown :=
  if instanceof_AIGatewayError error then error
  else
    (* [error instanceof Error ? error.message : String(error)] *)
    let message :=
      match error with
      | ThrownError e => error_message e
      | ThrownValue rendered => rendered
      end in
    (* [error instanceof Error ? error : undefined] *)
    let cause :=
      match error with
      | ThrownError e => Some e
      | ThrownValue _ => None
      end in
    ThrownError
      (AIGatewayError (modelType +:+ " handler failed: " +:+ message)
                      "HANDLER_ERROR" None cause).

(** The [code] of a thrown [AIGatewayError]. *)
Definition thrown_code (t : Thrown) : option string :=
  match t with
  | ThrownError (AIGatewayError _ c _ _) => Some c
  | _ => None
  end.

(** The [cause] of a thrown [AIGatewayError], as a thrown value. *)
Definition thrown_cause (t : Thrown) : option Thrown :=
  match t with
  | ThrownError (AIGatewayError _ _ _ (Some c)) => Some (ThrownError c)
  | _ => None
  end.

(** [s.includes(search)] *)
Fixpoint includes (s search : string) : bool :=
  String.prefix search s
  || match s with
     | EmptyString => false
     | String _ rest => includes rest search
     end.

(** [isRateLimitError(error)] *)
Definition isRateLimitError (error : Thrown) : bool :=
  match error with
  | ThrownError e =>
      includes (error_message e) "rate limit" || includes (error_message e) "429"
  | ThrownValue _ => false
  end.

(** [isAuthError(error)] *)
Definition isAuthError (error : Thrown) : bool :=
  match error with
  | ThrownError e =>
      includes (error_message e) "401" || includes (error_message e) "unauthorized"
  | ThrownValue _ => false
  end.

End ErrorHandler.

(** ** config.ts *)

Module Config.

(** The validated configuration, [z.infer<typeof aiGatewayConfigSchema>]. *)
Record AIGatewayConfig : Type := {
  AI_GATEWAY_API_KEY : string;
  AI_GATEWAY_BASE_URL : string;
  AI_GATEWAY_TEXT_SMALL_MODEL : string;
  AI_GATEWAY_TEXT_LARGE_MODEL : string;
  AI_GATEWAY_EMBEDDING_MODEL : string;
  AI_GATEWAY_IMAGE_MODEL : string;
  AI_GATEWAY_VISION_MODEL : string;
  AI_GATEWAY_TRANSCRIPTION_MODEL : string;
  AI_GATEWAY_TTS_MODEL : string;
  AI_GATEWAY_TTS_VOICE : string
}.

(** Modelled from the spec: the alternative-provider settings that the
    handlers and the dispatch table read from the configuration
    ([FAL_API_KEY], [FAL_IMAGE_MODEL], [FAL_VIDEO_MODEL],
    [FAL_PREFER_FOR_IMAGES]); their schema entries are not part of the
    sources.  The credential is optional, the preference is a boolean
    flag. *)
Record FalSettings : Type := {
  FAL_API_KEY : option string;
  FAL_IMAGE_MODEL : string;
  FAL_VIDEO_MODEL : string;
  FAL_PREFER_FOR_IMAGES : bool
}.

Record PluginConfig : Type := {
  gateway : AIGatewayConfig;
  fal : FalSettings
}.

(** Truthiness of an optional string setting ([config.FAL_API_KEY] in a
    condition): defined and not the empty string. *)
Definition truthy_setting (o : option string) : bool :=
  match o with
  | Some s => negb (String.eqb s "")
  | None => false
  end.

(** The issues a failed [parse] reports. *)
Inductive IssueCode : Type :=
| invalid_type          (* "Required": the value is undefined *)
| too_small             (* [min(1, ...)] *)
| invalid_string_url    (* [url()] *)
| invalid_enum_value.   (* [enum([...])] *)

(** An issue names the field and the check that failed; [issue_message]
    is the message the schema itself supplies for the check, if any. *)
Record ZodIssue : Type := {
  issue_path : string;
  issue_code : IssueCode;
  issue_message : option string
}.

Definition tts_voices : list string :=
  ["alloy"; "echo"; "fable"; "onyx"; "nova"; "shimmer"].

Definition string_in (s : string) (l : list string) : bool :=
  existsb (String.eqb s) l.

Section Schema.

(** [z.string().url()] accepts what the URL parser accepts. *)
Variable is_url : string -> bool.

(** Each field schema maps the raw value to the parsed value or to its
    issues. *)
Definition FieldSchema : Type := string -> option string -> list ZodIssue + string.

(** [z.string().min(1, message)] *)
Definition string_min1 (message : string) : FieldSchema :=
  fun path raw =>
    match raw with
    | None => inl [ {| issue_path := path; issue_code := invalid_type;
                       issue_message := None |} ]
    | Some s =>
        if (String.length s <? 1)%nat
        then inl [ {| issue_path := path; issue_code := too_small;
                      issue_message := Some message |} ]
        else inr s
    end.

(** [z.string()] *)
Definition string_any : FieldSchema :=
  fun path raw =>
    match raw with
    | None => inl [ {| issue_path := path; issue_code := invalid_type;
                       issue_message := None |} ]
    | Some s => inr s
    end.

(** [z.string().url()] *)
Definition string_url : FieldSchema :=
  fun path raw =>
    match raw with
    | None => inl [ {| issue_path := path; issue_code := invalid_type;
                       issue_message := None |} ]
    | Some s =>
        if is_url s then inr s
        else inl [ {| issue_path := path; issue_code := invalid_string_url;
                      issue_message := None |} ]
    end.

(** [z.enum(values)] *)
Definition string_enum (values : list string) : FieldSchema :=
  fun path raw =>
    match raw with
    | None => inl [ {| issue_path := path; issue_code := invalid_type;
                       issue_message := None |} ]
    | Some s =>
        if string_in s values then inr s
        else inl [ {| issue_path := path; issue_code := invalid_enum_value;
                      issue_message := None |} ]
    end.

(** [inner.default(d)]: an undefined input is replaced by [d], which
    the inner schema then parses. *)
Definition with_default (inner : FieldSchema) (d : string) : FieldSchema :=
  fun path raw =>
    match raw with
    | None => inner path (Some d)
    | Some s => inner path (Some s)
    end.

Definition issues_of (r : list ZodIssue + string) : list ZodIssue :=
  match r with inl l => l | inr _ => [] end.

(** The object handed to [aiGatewayConfigSchema.parse]. *)
Record RawConfig : Type := {
  raw_API_KEY : option string;
  raw_BASE_URL : option string;
  raw_TEXT_SMALL_MODEL : option string;
  raw_TEXT_LARGE_MODEL : option string;
  raw_EMBEDDING_MODEL : option string;
  raw_IMAGE_MODEL : option string;
  raw_VISION_MODEL : option string;
  raw_TRANSCRIPTION_MODEL : option string;
  raw_TTS_MODEL : option string;
  raw_TTS_VOICE : option string
}.

(** [aiGatewayConfigSchema.parse]: every field is parsed, the issues of
    all fields are collected in schema order, and the parse throws a
    [ZodError] with them unless there is none. *)
Definition aiGatewayConfigSchema_parse (raw : RawConfig)
  : Completion (list ZodIssue) AIGatewayConfig :=
  let f1 := string_min1 "AI_GATEWAY_API_KEY is required"
              "AI_GATEWAY_API_KEY" (raw_API_KEY raw) in
  let f2 := with_default string_url "https://ai-gateway.vercel.sh/v1"
              "AI_GATEWAY_BASE_URL" (raw_BASE_URL raw) in
  let f3 := with_default string_any "anthropic/claude-haiku-4.5"
              "AI_GATEWAY_TEXT_SMALL_MODEL" (raw_TEXT_SMALL_MODEL raw) in
  let f4 := with_default string_any "anthropic/claude-opus-4.5"
              "AI_GATEWAY_TEXT_LARGE_MODEL" (raw_TEXT_LARGE_MODEL raw) in
  let f5 := with_default string_any "openai/text-embedding-3-large"
              "AI_GATEWAY_EMBEDDING_MODEL" (raw_EMBEDDING_MODEL raw) in
  let f6 := with_default string_any "bfl/flux-2-pro"
              "AI_GATEWAY_IMAGE_MODEL" (raw_IMAGE_MODEL raw) in
  let f7 := with_default string_any "xai/grok-2-vision"
              "AI_GATEWAY_VISION_MODEL" (raw_VISION_MODEL raw) in
  let f8 := with_default string_any "openai/whisper-1"
              "AI_GATEWAY_TRANSCRIPTION_MODEL" (raw_TRANSCRIPTION_MODEL raw) in
  let f9 := with_default string_any "openai/tts-1-hd"
              "AI_GATEWAY_TTS_MODEL" (raw_TTS_MODEL raw) in
  let f10 := with_default (string_enum tts_voices) "alloy"
              "AI_GATEWAY_TTS_VOICE" (raw_TTS_VOICE raw) in
  match f1, f2, f3, f4, f5, f6, f7, f8, f9, f10 with
  | inr v1, inr v2, inr v3, inr v4, inr v5, inr v6, inr v7, inr v8, inr v9, inr v10 =>
      Return {| AI_GATEWAY_API_KEY := v1;
                AI_GATEWAY_BASE_URL := v2;
                AI_GATEWAY_TEXT_SMALL_MODEL := v3;
                AI_GATEWAY_TEXT_LARGE_MODEL := v4;
                AI_GATEWAY_EMBEDDING_MODEL := v5;
                AI_GATEWAY_IMAGE_MODEL := v6;
                AI_GATEWAY_VISION_MODEL := v7;
                AI_GATEWAY_TRANSCRIPTION_MODEL := v8;
                AI_GATEWAY_TTS_MODEL := v9;
                AI_GATEWAY_TTS_VOICE := v10 |}
  | _, _, _, _, _, _, _, _, _, _ =>
      Throw (issues_of f1 ++ issues_of f2 ++ issues_of f3 ++ issues_of f4
             ++ issues_of f5 ++ issues_of f6 ++ issues_of f7 ++ issues_of f8
             ++ issues_of f9 ++ issues_of f10)%list
  end.

(** [parseConfig(env)]: [env] is a [Record<string, string | undefined>];
    the ten settings are read from it by name. *)
Definition parseConfig (env : gmap string string)
  : Completion (list ZodIssue) AIGatewayConfig :=
  aiGatewayConfigSchema_parse
    {| raw_API_KEY := env !! "AI_GATEWAY_API_KEY";
       raw_BASE_URL := env !! "AI_GATEWAY_BASE_URL";
       raw_TEXT_SMALL_MODEL := env !! "AI_GATEWAY_TEXT_SMALL_MODEL";
       raw_TEXT_LARGE_MODEL := env !! "AI_GATEWAY_TEXT_LARGE_MODEL";
       raw_EMBEDDING_MODEL := env !! "AI_GATEWAY_EMBEDDING_MODEL";
       raw_IMAGE_MODEL := env !! "AI_GATEWAY_IMAGE_MODEL";
       raw_VISION_MODEL := env !! "AI_GATEWAY_VISION_MODEL";
       raw_TRANSCRIPTION_MODEL := env !! "AI_GATEWAY_TRANSCRIPTION_MODEL";
       raw_TTS_MODEL := env !! "AI_GATEWAY_TTS_MODEL";
       raw_TTS_VOICE := env !! "AI_GATEWAY_TTS_VOICE" |}.

End Schema.

(** The names of the settings other than the API key. *)
Definition optional_settings : list string :=
  ["AI_GATEWAY_BASE_URL"; "AI_GATEWAY_TEXT_SMALL_MODEL";
   "AI_GATEWAY_TEXT_LARGE_MODEL"; "AI_GATEWAY_EMBEDDING_MODEL";
   "AI_GATEWAY_IMAGE_MODEL"; "AI_GATEWAY_VISION_MODEL";
   "AI_GATEWAY_TRANSCRIPTION_MODEL"; "AI_GATEWAY_TTS_MODEL";
   "AI_GATEWAY_TTS_VOICE"].

(** [getConfigWithDefaults(partial)]: the same schema, applied to a
    partial configuration. *)
Definition getConfigWithDefaults (is_url : string -> bool) (partial : RawConfig)
    : Completion (list ZodIssue) AIGatewayConfig :=
  aiGatewayConfigSchema_parse is_url partial.

(** A validated configuration handed back as a (complete) partial one. *)
Definition as_partial (c : AIGatewayConfig) : RawConfig :=
  {| raw_API_KEY := Some (AI_GATEWAY_API_KEY c);
     raw_BASE_URL := Some (AI_GATEWAY_BASE_URL c);
     raw_TEXT_SMALL_MODEL := Some (AI_GATEWAY_TEXT_SMALL_MODEL c);
     raw_TEXT_LARGE_MODEL := Some (AI_GATEWAY_TEXT_LARGE_MODEL c);
     raw_EMBEDDING_MODEL := Some (AI_GATEWAY_EMBEDDING_MODEL c);
     raw_IMAGE_MODEL := Some (AI_GATEWAY_IMAGE_MODEL c);
     raw_VISION_MODEL := Some (AI_GATEWAY_VISION_MODEL c);
     raw_TRANSCRIPTION_MODEL := Some (AI_GATEWAY_TRANSCRIPTION_MODEL c);
     raw_TTS_MODEL := Some (AI_GATEWAY_TTS_MODEL c);
     raw_TTS_VOICE := Some (AI_GATEWAY_TTS_VOICE c) |}.

(** The setting a raw value resolves to: itself, or the default [d]. *)
Definition or_default (d : string) (raw : option string) : string :=
  match raw with Some s => s | None => d end.

(** The configuration a raw one resolves to when it is valid. *)
Definition resolved (key : string) (raw : RawConfig) : AIGatewayConfig :=
  {| AI_GATEWAY_API_KEY := key;
     AI_GATEWAY_BASE_URL := or_default "https://ai-gateway.vercel.sh/v1" (raw_BASE_URL raw);
     AI_GATEWAY_TEXT_SMALL_MODEL :=
       or_default "anthropic/claude-haiku-4.5" (raw_TEXT_SMALL_MODEL raw);
     AI_GATEWAY_TEXT_LARGE_MODEL :=
       or_default "anthropic/claude-opus-4.5" (raw_TEXT_LARGE_MODEL raw);
     AI_GATEWAY_EMBEDDING_MODEL :=
       or_default "openai/text-embedding-3-large" (raw_EMBEDDING_MODEL raw);
     AI_GATEWAY_IMAGE_MODEL := or_default "bfl/flux-2-pro" (raw_IMAGE_MODEL raw);
     AI_GATEWAY_VISION_MODEL := or_default "xai/grok-2-vision" (raw_VISION_MODEL raw);
     AI_GATEWAY_TRANSCRIPTION_MODEL :=
       or_default "openai/whisper-1" (raw_TRANSCRIPTION_MODEL raw);
     AI_GATEWAY_TTS_MODEL := or_default "openai/tts-1-hd" (raw_TTS_MODEL raw);
     AI_GATEWAY_TTS_VOICE := or_default "alloy" (raw_TTS_VOICE raw) |}.

(** The object [parseConfig] builds from the environment. *)
Definition raw_of_env (env : gmap string string) : RawConfig :=
  {| raw_API_KEY := env !! "AI_GATEWAY_API_KEY";
     raw_BASE_URL := env !! "AI_GATEWAY_BASE_URL";
     raw_TEXT_SMALL_MODEL := env !! "AI_GATEWAY_TEXT_SMALL_MODEL";
     raw_TEXT_LARGE_MODEL := env !! "AI_GATEWAY_TEXT_LARGE_MODEL";
     raw_EMBEDDING_MODEL := env !! "AI_GATEWAY_EMBEDDING_MODEL";
     raw_IMAGE_MODEL := env !! "AI_GATEWAY_IMAGE_MODEL";
     raw_VISION_MODEL := env !! "AI_GATEWAY_VISION_MODEL";
     raw_TRANSCRIPTION_MODEL := env !! "AI_GATEWAY_TRANSCRIPTION_MODEL";
     raw_TTS_MODEL := env !! "AI_GATEWAY_TTS_MODEL";
     raw_TTS_VOICE := env !! "AI_GATEWAY_TTS_VOICE" |}.

End Config.

(** ** gateway.ts *)

Module Gateway.
Import Config.

(** The object [createOpenAICompatible] returns.  Two calls return two
    distinct objects; [provider_id] is that identity: the number of
    providers constructed before this one. *)
Record Provider : Type := {
  provider_id : nat;
  provider_name : string;
  baseURL : string;
  header_Authorization : string
}.

(** The module-level variables [gatewayInstance] and [currentConfig],
    and how many providers were constructed so far. *)
Record Cache : Type := {
  gatewayInstance : option Provider;
  currentConfig : option AIGatewayConfig;
  constructed : nat
}.

(** The state when the module is loaded. *)
Definition initial : Cache :=
  {| gatewayInstance := None; currentConfig := None; constructed := 0 |}.

Definition createOpenAICompatible (name baseURL authorization : string)
    (st : Cache) : Provider * Cache :=
  ({| provider_id := constructed st; provider_name := name;
      baseURL := baseURL; header_Authorization := authorization |},
   {| gatewayInstance := gatewayInstance st;
      currentConfig := currentConfig st;
      constructed := S (constructed st) |}).

Definition createGatewayClient (config : AIGatewayConfig) (st : Cache)
    : Provider * Cache :=
  match gatewayInstance st, currentConfig st with
  | Some instance, Some current =>
      if String.eqb (AI_GATEWAY_API_KEY current) (AI_GATEWAY_API_KEY config)
         && String.eqb (AI_GATEWAY_BASE_URL current) (AI_GATEWAY_BASE_URL config)
      then (instance, st)
      else
        let (instance', st') :=
          createOpenAICompatible "vercel-ai-gateway" (AI_GATEWAY_BASE_URL config)
            ("Bearer " +:+ AI_GATEWAY_API_KEY config) st in
        (instance', {| gatewayInstance := Some instance';
                       currentConfig := Some config;
                       constructed := constructed st' |})
  | _, _ =>
      let (instance', st') :=
        createOpenAICompatible "vercel-ai-gateway" (AI_GATEWAY_BASE_URL config)
          ("Bearer " +:+ AI_GATEWAY_API_KEY config) st in
      (instance', {| gatewayInstance := Some instance';
                     currentConfig := Some config;
                     constructed := constructed st' |})
  end.

Definition clearGatewayCache (st : Cache) : Cache :=
  {| gatewayInstance := None; currentConfig := None;
     constructed := constructed st |}.

(** A model resolved against a provider: [gateway.languageModel(modelId)]
    and [gateway.textEmbeddingModel(modelId)]. *)
Record Model : Type := { model_provider : Provider; modelId : string }.

Definition getLanguageModel (config : AIGatewayConfig) (modelId : string)
    (st : Cache) : Model * Cache :=
  let (gateway, st') := createGatewayClient config st in
  ({| model_provider := gateway; modelId := modelId |}, st').

Definition getEmbeddingModel (config : AIGatewayConfig) (modelId : string)
    (st : Cache) : Model * Cache :=
  let (gateway, st') := createGatewayClient config st in
  ({| model_provider := gateway; modelId := modelId |}, st').

(** The calls a client of the module can make, and the state a sequence
    of them leads to. *)
Inductive Call : Type :=
| CallCreate (config : AIGatewayConfig)
| CallClear.

Definition call (c : Call) (st : Cache) : Cache :=
  match c with
  | CallCreate config => snd (createGatewayClient config st)
  | CallClear => clearGatewayCache st
  end.

Definition run (calls : list Call) (st : Cache) : Cache :=
  foldl (fun st c => call c st) st calls.

(** The [createGatewayClient] calls of a run, each with the provider it
    returned, in order. *)
Fixpoint returned (calls : list Call) (st : Cache)
    : list (AIGatewayConfig * Provider) :=
  match calls with
  | [] => []
  | CallCreate config :: rest =>
      (config, fst (createGatewayClient config st))
      :: returned rest (snd (createGatewayClient config st))
  | CallClear :: rest => returned rest (clearGatewayCache st)
  end.

(** The provider carries the endpoint and the credential of the
    configuration. *)
Definition answers (p : Provider) (c : AIGatewayConfig) : Prop :=
  baseURL p = AI_GATEWAY_BASE_URL c
  /\ header_Authorization p = "Bearer " +:+ AI_GATEWAY_API_KEY c.

(** The cached provider answers the cached configuration. *)
Definition cache_answers (st : Cache) : Prop :=
  forall instance, gatewayInstance st = Some instance ->
    exists current, currentConfig st = Some current /\ answers instance current.

(** Every cached provider was constructed earlier. *)
Definition cache_ok (st : Cache) : Prop :=
  forall instance, gatewayInstance st = Some instance ->
    provider_id instance < constructed st.

(** Both configurations name the same endpoint and credential. *)
Definition same_key (c1 c2 : AIGatewayConfig) : Prop :=
  AI_GATEWAY_API_KEY c1 = AI_GATEWAY_API_KEY c2
  /\ AI_GATEWAY_BASE_URL c1 = AI_GATEWAY_BASE_URL c2.

(** How many of the calls are [createGatewayClient] calls. *)
Fixpoint creations (calls : list Call) : nat :=
  match calls with
  | [] => 0
  | CallCreate _ :: rest => S (creations rest)
  | CallClear :: rest => creations rest
  end.

End Gateway.

(** ** handlers/tokenizer.ts *)

Module Tokenizer.
Import ErrorHandler.

(** A [Tiktoken] instance of js-tiktoken, on JavaScript strings as their
    UTF-16 code units (a text may hold a lone surrogate): [encode] may
    throw (a text with a disallowed special token), and so may [decode]. *)
Record Tiktoken : Type := {
  encode : Js.jsstring -> Completion Thrown (list N);
  decode : list N -> Completion Thrown Js.jsstring
}.

(** [TokenizeTextParams] and [DetokenizeTextParams]. *)
Record TokenizeTextParams : Type := {
  tok_modelType : string;
  prompt : Js.jsstring
}.

Record DetokenizeTextParams : Type := {
  detok_modelType : string;
  tokens : list N
}.

Section Library.

(** [encodingForModel(model)]: [None] when it throws (the model is not
    one the library knows). *)
Variable encodingForModel : string -> option Tiktoken.
(** [getEncoding(name)] *)
Variable getEncoding : string -> Tiktoken.

(** [getTokenizer(modelType)] on the module-level map [tokenizers].
    The result is what [tokenizers.get(...)] returns, [None] for
    [undefined]. *)
Definition getTokenizer (modelType : string)
    (tokenizers : gmap string Tiktoken)
    : option Tiktoken * gmap string Tiktoken :=
  match tokenizers !! modelType with
  | Some _ => (tokenizers !! modelType, tokenizers)
  | None =>
      match encodingForModel modelType with
      | Some encoding =>
          let tokenizers' := <[modelType := encoding]> tokenizers in
          (tokenizers' !! modelType, tokenizers')
      | None =>
          let tokenizers' :=
            match tokenizers !! "cl100k_base" with
            | Some _ => tokenizers
            | None => <["cl100k_base" := getEncoding "cl100k_base"]> tokenizers
            end in
          (tokenizers' !! "cl100k_base", tokenizers')
      end
  end.

Definition undefined_receiver (method : string) : Thrown :=
  ThrownError (PlainError "TypeError"
    ("Cannot read properties of undefined (reading '" +:+ method +:+ "')")).

(** The handler [createTokenizerEncodeHandler()] returns. *)
Definition createTokenizerEncodeHandler (params : TokenizeTextParams)
    (tokenizers : gmap string Tiktoken)
    : Completion Thrown (list N) * gmap string Tiktoken :=
  let (tokenizer, tokenizers') := getTokenizer (tok_modelType params) tokenizers in
  match tokenizer with
  | Some t => (encode t (prompt params), tokenizers')
  | None => (Throw (undefined_receiver "encode"), tokenizers')
  end.

(** The handler [createTokenizerDecodeHandler()] returns. *)
Definition createTokenizerDecodeHandler (params : DetokenizeTextParams)
    (tokenizers : gmap string Tiktoken)
    : Completion Thrown Js.jsstring * gmap string Tiktoken :=
  let (tokenizer, tokenizers') := getTokenizer (detok_modelType params) tokenizers in
  match tokenizer with
  | Some t => (decode t (tokens params), tokenizers')
  | None => (Throw (undefined_receiver "decode"), tokenizers')
  end.

(** The requests the two handlers serve, and the cache after a sequence
    of them. *)
Inductive Request : Type :=
| Encode (params : TokenizeTextParams)
| Decode (params : DetokenizeTextParams).

Definition serve (r : Request) (tokenizers : gmap string Tiktoken)
    : gmap string Tiktoken :=
  match r with
  | Encode params => snd (createTokenizerEncodeHandler params tokenizers)
  | Decode params => snd (createTokenizerDecodeHandler params tokenizers)
  end.

Definition serve_all (requests : list Request) (tokenizers : gmap string Tiktoken)
    : gmap string Tiktoken :=
  foldl (fun t r => serve r t) tokenizers requests.

End Library.

(** The round trip of one encoding: what it encodes it decodes back. *)
Definition round_trips (t : Tiktoken) : Prop :=
  forall text toks, encode t text = Return toks -> decode t toks = Return text.

(** Every tokenizer the library hands out round-trips. *)
Definition library_round_trips (encodingForModel : string -> option Tiktoken)
    (getEncoding : string -> Tiktoken) : Prop :=
  (forall m t, encodingForModel m = Some t -> round_trips t)
  /\ round_trips (getEncoding "cl100k_base").

(** Every cached tokenizer round-trips. *)
Definition cache_round_trips (tokenizers : gmap string Tiktoken) : Prop :=
  forall m t, tokenizers !! m = Some t -> round_trips t.

End Tokenizer.

(** ** handlers/text-generation.ts *)

Module TextGeneration.
Import ErrorHandler Config.

(** The sampling settings handed to [generateText] and [streamText]. *)
Record CallSettings : Type := {
  call_prompt : string;
  call_maxTokens : option Z;
  call_temperature : option Q;
  call_topP : option Q;
  call_topK : option Z;
  call_frequencyPenalty : option Q;
  call_presencePenalty : option Q;
  call_stopSequences : option (list string)
}.

Record Usage : Type := {
  promptTokens : Z;
  completionTokens : Z;
  totalTokens : Z
}.

(** What [await streamText(...)] gives: the fragment stream (finite, in
    order), and the deferred values by what they resolve to. *)
Record StreamTextResult : Type := {
  sdk_textStream : list string;
  sdk_text : string;
  sdk_usage : option Usage;
  sdk_finishReason : string
}.

(** What the consumer and the callback can observe of a run. *)
Inductive Event : Type :=
| Delivered (chunk : string)   (* [await callback(chunk)] was entered *)
| Yielded (chunk : string).    (* [yield chunk] reached the consumer *)

Section Handler.

(** The state the chunk callback works on. *)
Context {S : Type}.

(** [onStreamChunk]: it may change its state and it may throw. *)
Definition Callback : Type := string -> S -> Completion Thrown unit * S.

(** [GenerateTextParams] *)
Record GenerateTextParams : Type := {
  prompt : string;
  stream : option bool;
  onStreamChunk : option Callback;
  maxTokens : option Z;
  temperature : option Q;
  topP : option Q;
  topK : option Z;
  frequencyPenalty : option Q;
  presencePenalty : option Q;
  stopSequences : option (list string)
}.

(** The [textStream] of the handler's result, not yet consumed: either
    [result.textStream] itself, or the async generator over it that
    closes over the callback. *)
Inductive TextStream : Type :=
| SdkStream (chunks : list string)
| WithCallback (callback : Callback) (chunks : list string).

Record TextStreamResult : Type := {
  textStream : TextStream;
  text : string;
  usage : option Usage;
  finishReason : string
}.

Inductive HandlerResult : Type :=
| Text (t : string)
| Streaming (r : TextStreamResult).

(** The AI SDK entry points. *)
Variable streamText : Gateway.Model -> CallSettings -> Completion Thrown StreamTextResult.
Variable generateText : Gateway.Model -> CallSettings -> Completion Thrown string.

Definition settings_of (p : GenerateTextParams) : CallSettings :=
  {| call_prompt := prompt p;
     call_maxTokens := maxTokens p;
     call_temperature := temperature p;
     call_topP := topP p;
     call_topK := topK p;
     call_frequencyPenalty := frequencyPenalty p;
     call_presencePenalty := presencePenalty p;
     call_stopSequences := stopSequences p |}.

(** [stream === true || (stream !== false && onStreamChunk)] *)
Definition shouldStream (p : GenerateTextParams) : bool :=
  match stream p with
  | Some true => true
  | Some false => false
  | None => match onStreamChunk p with Some _ => true | None => false end
  end.

Definition map_usage (u : option Usage) : option Usage :=
  match u with
  | Some u => Some {| promptTokens := promptTokens u;
                      completionTokens := completionTokens u;
                      totalTokens := totalTokens u |}
  | None => None
  end.

(** The handler [createTextHandler(config, modelId)] returns. *)
Definition createTextHandler (config : AIGatewayConfig) (modelId : string)
    (params : GenerateTextParams) (st : Gateway.Cache)
    : Completion Thrown HandlerResult * Gateway.Cache :=
  let (model, st') := Gateway.getLanguageModel config modelId st in
  if shouldStream params then
    match streamText model (settings_of params) with
    | Throw e => (Throw e, st')
    | Return result =>
        match onStreamChunk params with
        | Some callback =>
            (Return (Streaming
               {| textStream := WithCallback callback (sdk_textStream result);
                  text := sdk_text result;
                  usage := map_usage (sdk_usage result);
                  finishReason := sdk_finishReason result |}), st')
        | None =>
            (Return (Streaming
               {| textStream := SdkStream (sdk_textStream result);
                  text := sdk_text result;
                  usage := map_usage (sdk_usage result);
                  finishReason := sdk_finishReason result |}), st')
        end
    end
  else
    match generateText model (settings_of params) with
    | Throw e => (Throw e, st')
    | Return t => (Return (Text t), st')
    end.

Definition createTextSmallHandler (config : AIGatewayConfig) :=
  createTextHandler config (AI_GATEWAY_TEXT_SMALL_MODEL config).
Definition createTextLargeHandler (config : AIGatewayConfig) :=
  createTextHandler config (AI_GATEWAY_TEXT_LARGE_MODEL config).
Definition createTextCompletionHandler (config : AIGatewayConfig) :=
  createTextHandler config (AI_GATEWAY_TEXT_LARGE_MODEL config).
Definition createTextReasoningSmallHandler (config : AIGatewayConfig) :=
  createTextHandler config (AI_GATEWAY_TEXT_SMALL_MODEL config).
Definition createTextReasoningLargeHandler (config : AIGatewayConfig) :=
  createTextHandler config (AI_GATEWAY_TEXT_LARGE_MODEL config).

(** One resumption of the stream ([next()]). *)
Inductive IterResult : Type :=
| IterYield (chunk : string) (rest : TextStream)
| IterDone
| IterThrow (e : Thrown).

(** The generator body
    [for await (const chunk of result.textStream) { await callback(chunk); yield chunk; }]
    run up to its next [yield], its end, or the exception that leaves
    it; the events of that stretch; the callback's state after it. *)
Definition next (g : TextStream) (s : S) : IterResult * list Event * S :=
  match g with
  | SdkStream [] => (IterDone, [], s)
  | SdkStream (chunk :: rest) => (IterYield chunk (SdkStream rest), [Yielded chunk], s)
  | WithCallback callback [] => (IterDone, [], s)
  | WithCallback callback (chunk :: rest) =>
      match callback chunk s with
      | (Throw e, s') => (IterThrow e, [Delivered chunk], s')
      | (Return _, s') =>
          (IterYield chunk (WithCallback callback rest),
           [Delivered chunk; Yielded chunk], s')
      end
  end.

(** A consumer that drains the stream and keeps what it receives:
    [for await (const chunk of textStream) chunks.push(chunk)]. *)
Record Consumed : Type := {
  outcome : Completion Thrown unit;
  received : list string;
  trace : list Event;
  callback_state : S
}.

Fixpoint consume (fuel : nat) (g : TextStream) (s : S)
    (chunks : list string) (events : list Event) : option Consumed :=
  match fuel with
  | O => None
  | Datatypes.S fuel' =>
      match next g s with
      | (IterDone, evs, s') =>
          Some {| outcome := Return tt; received := chunks;
                  trace := (events ++ evs)%list; callback_state := s' |}
      | (IterThrow e, evs, s') =>
          Some {| outcome := Throw e; received := chunks;
                  trace := (events ++ evs)%list; callback_state := s' |}
      | (IterYield chunk rest, evs, s') =>
          consume fuel' rest s' (chunks ++ [chunk])%list (events ++ evs)%list
      end
  end.

Definition pending (g : TextStream) : list string :=
  match g with
  | SdkStream chunks => chunks
  | WithCallback _ chunks => chunks
  end.

(** Draining a stream from its start. *)
Definition drain (g : TextStream) (s : S) : option Consumed :=
  consume (Datatypes.S (length (pending g))) g s [] [].

(** The fragments the callback was handed, in order. *)
Definition delivered (events : list Event) : list string :=
  omap (fun ev => match ev with Delivered c => Some c | Yielded _ => None end) events.

(** Each fragment handed to the callback, then to the consumer. *)
Definition lockstep (chunks : list string) : list Event :=
  flat_map (fun c => [Delivered c; Yielded c]) chunks.

(** The callback applied to the fragments in turn, up to the first
    failure. *)
Fixpoint feed (callback : Callback) (chunks : list string) (s : S)
    : Completion Thrown unit * S :=
  match chunks with
  | [] => (Return tt, s)
  | chunk :: rest =>
      match callback chunk s with
      | (Throw e, s') => (Throw e, s')
      | (Return _, s') => feed callback rest s'
      end
  end.

(** Where a consumer stands after asking the stream for [n] fragments one
    after the other: what it has taken, the events so far, and how the
    stream ended if it did. *)
Record Progress : Type := {
  taken : list string;
  so_far : list Event;
  state_now : S;
  ended : option (Completion Thrown unit)
}.

Fixpoint pull (n : nat) (g : TextStream) (s : S) : Progress :=
  match n with
  | O => {| taken := []; so_far := []; state_now := s; ended := None |}
  | Datatypes.S n' =>
      match next g s with
      | (IterDone, evs, s') =>
          {| taken := []; so_far := evs; state_now := s'; ended := Some (Return tt) |}
      | (IterThrow e, evs, s') =>
          {| taken := []; so_far := evs; state_now := s'; ended := Some (Throw e) |}
      | (IterYield chunk rest, evs, s') =>
          let p := pull n' rest s' in
          {| taken := chunk :: taken p; so_far := (evs ++ so_far p)%list;
             state_now := state_now p; ended := ended p |}
      end
  end.

End Handler.

Arguments GenerateTextParams : clear implicits.
Arguments TextStream : clear implicits.
Arguments TextStreamResult : clear implicits.
Arguments HandlerResult : clear implicits.
Arguments Consumed : clear implicits.
Arguments Callback : clear implicits.
Arguments Progress : clear implicits.

(** The contract of the AI SDK on the deferred text: it resolves to the
    fragments of the stream, concatenated. *)
Definition sdk_text_contract (r : StreamTextResult) : Prop :=
  sdk_text r = String.concat "" (sdk_textStream r).

End TextGeneration.

(** ** handlers/text-embedding.ts

    The sources hold two versions of this file; they differ in what they do
    with a text that is empty or blank.  [console.log] calls are left out. *)

Module TextEmbedding.
Import ErrorHandler Config Js.

Definition not_a_function (callee : string) : Thrown :=
  ThrownError (PlainError "TypeError" (callee +:+ " is not a function")).

(** [new Array(n).fill(0)] *)
Definition zero_vector (n : nat) : list Q := replicate n 0%Q.

Section Handler.

(** [embed({ model, value })] of the AI SDK, by the embedding it
    resolves to. *)
Variable embed : Gateway.Model -> jsstring -> Completion Thrown (list Q).

(** The version that answers a blank text with a zero vector. *)
Definition createTextEmbeddingHandler (config : AIGatewayConfig)
    (embedParams : value) (st : Gateway.Cache)
    : Completion Thrown (list Q) * Gateway.Cache :=
  match embedParams with
  | JNull | JUndefined =>
      (Throw (ThrownError (PlainError "Error" "Text is required for embedding")), st)
  | _ =>
      let text :=
        match embedParams with
        | JStr _ => embedParams
        | _ => default JUndefined (get embedParams "text")
        end in
      if negb (truthy text) then (Return (zero_vector 3072), st)
      else
        match text with
        | JStr t =>
            if (length (trim t) =? 0)%nat then (Return (zero_vector 3072), st)
            else
              let (model, st') :=
                Gateway.getEmbeddingModel config (AI_GATEWAY_EMBEDDING_MODEL config) st in
              (embed model t, st')
        | _ => (Throw (not_a_function "text.trim"), st)
        end
  end.

(** The version that rejects a blank text. *)
Definition createTextEmbeddingHandler_strict (config : AIGatewayConfig)
    (embedParams : value) (st : Gateway.Cache)
    : Completion Thrown (list Q) * Gateway.Cache :=
  match embedParams with
  | JNull | JUndefined =>
      (Throw (ThrownError (PlainError "Error" "Text is required for embedding")), st)
  | _ =>
      let text :=
        match embedParams with
        | JStr _ => embedParams
        | _ => default JUndefined (get embedParams "text")
        end in
      if negb (truthy text)
      then (Throw (ThrownError (PlainError "Error" "Text cannot be empty for embedding")), st)
      else
        match text with
        | JStr t =>
            if (length (trim t) =? 0)%nat
            then (Throw (ThrownError (PlainError "Error" "Text cannot be empty for embedding")), st)
            else
              let (model, st') :=
                Gateway.getEmbeddingModel config (AI_GATEWAY_EMBEDDING_MODEL config) st in
              (embed model t, st')
        | _ => (Throw (not_a_function "text.trim"), st)
        end
  end.

End Handler.

(** The two shapes under which a caller hands over a text. *)
Inductive carries_text (t : jsstring) : value -> Prop :=
| bare_string : carries_text t (JStr t)
| text_record fields :
    lookup_field "text" fields = Some (JStr t) -> carries_text t (JObj fields).

(** A text is resolvable from the parameters: they are a string, or a
    record with a [text] field holding a string. *)
Definition text_resolvable (p : value) : Prop := exists t, carries_text t p.

(** The call fails with an [Error] (the handlers' own, or the TypeError
    of a [text] that is no string). *)
Definition is_input_error (c : Completion Thrown (list Q)) : Prop :=
  exists name message, c = Throw (ThrownError (PlainError name message)).

End TextEmbedding.

(** ** handlers/fal.ts *)

Module Fal.
Import ErrorHandler Config Js.

(** A [{ url }] record of the result; the field holds whatever the
    upstream item held under [url]. *)
Record UrlRecord : Type := { url : value }.

(** The TypeError of a property read on [undefined] or [null]. *)
Definition cannot_read (receiver : value) (property : string) : Thrown :=
  ThrownError (PlainError "TypeError"
    ("Cannot read properties of "
     +:+ match receiver with JNull => "null" | _ => "undefined" end
     +:+ " (reading '" +:+ property +:+ "')")).

Definition not_a_function (callee : string) : Thrown :=
  ThrownError (PlainError "TypeError" (callee +:+ " is not a function")).

(** [items.map(f)] for an [f] that may throw: the first exception leaves
    the loop. *)
Fixpoint map_throwing {A B : Type} (f : A -> Completion Thrown B) (items : list A)
    : Completion Thrown (list B) :=
  match items with
  | [] => Return []
  | x :: rest =>
      match f x with
      | Throw e => Throw e
      | Return y =>
          match map_throwing f rest with
          | Throw e => Throw e
          | Return ys => Return (y :: ys)
          end
      end
  end.

(** The handler [createFalImageHandler(config)] returns.  [subscribed] is
    the outcome of [await fal.subscribe(...)], by the [data] of its
    result; the request (prompt, image size, count) is built from the
    parameters and does not enter the normalization. *)
Definition createFalImageHandler (config : PluginConfig)
    (subscribed : Completion Thrown value) : Completion Thrown (list UrlRecord) :=
  if negb (truthy_setting (FAL_API_KEY (fal config)))
  then Throw (ThrownError
                (PlainError "Error" "FAL_API_KEY is required for FAL image generation"))
  else
    match subscribed with
    | Throw e => Throw e
    | Return data =>
        (* [data?.images || [data]] *)
        let nested :=
          match data with
          | JUndefined | JNull => JUndefined
          | _ => default JUndefined (get data "images")
          end in
        let images := if truthy nested then nested else JArr [data] in
        match images with
        | JArr items =>
            map_throwing
              (fun img =>
                 match get img "url" with
                 | Some u => Return {| url := u |}
                 | None => Throw (cannot_read img "url")
                 end)
              items
        | _ => Throw (not_a_function "images.map")
        end
    end.

(** The handler [createFalVideoHandler(config)] returns; [subscribed] as
    for the image handler. *)
Definition createFalVideoHandler (config : PluginConfig)
    (subscribed : Completion Thrown value) : Completion Thrown UrlRecord :=
  if negb (truthy_setting (FAL_API_KEY (fal config)))
  then Throw (ThrownError
                (PlainError "Error" "FAL_API_KEY is required for FAL video generation"))
  else
    match subscribed with
    | Throw e => Throw e
    | Return data =>
        (* [data.video?.url || data.url] *)
        match get data "video" with
        | None => Throw (cannot_read data "video")
        | Some video =>
            let nested :=
              match video with
              | JUndefined | JNull => JUndefined
              | _ => default JUndefined (get video "url")
              end in
            let videoUrl :=
              if truthy nested then nested else default JUndefined (get data "url") in
            if negb (truthy videoUrl)
            then Throw (ThrownError (PlainError "Error" "No video URL returned from FAL"))
            else Return {| url := videoUrl |}
        end
    end.

(** The three response shapes the specification names. *)

(** An image object: a record whose [url] is a string. *)
Definition image_object (u : jsstring) (v : value) : Prop :=
  exists fields, v = JObj fields /\ lookup_field "url" fields = Some (JStr u).

(** A list of image objects with the given urls. *)
Definition image_objects (urls : list jsstring) (items : list value) : Prop :=
  Forall2 image_object urls items.

(** A single object: one image object without an [images] entry. *)
Definition single_object (u : jsstring) (data : value) : Prop :=
  exists fields, data = JObj fields
    /\ lookup_field "url" fields = Some (JStr u)
    /\ lookup_field "images" fields = None.

(** A nested list: an object whose [images] entry is a list of image
    objects. *)
Definition nested_list (urls : list jsstring) (data : value) : Prop :=
  exists fields items, data = JObj fields
    /\ lookup_field "images" fields = Some (JArr items)
    /\ image_objects urls items.

(** A top-level list: the data is itself a list of image objects. *)
Definition top_level_list (urls : list jsstring) (data : value) : Prop :=
  exists items, data = JArr items /\ image_objects urls items.

(** The uniform result: one record per image, with the image's url. *)
Definition url_records (urls : list jsstring) : list UrlRecord :=
  (fun u => {| url := JStr u |}) <$> urls.

End Fal.

(** ** handlers/image-generation.ts *)

Module ImageGeneration.
Import ErrorHandler Config.

(** An element of the [data] array of the gateway's answer. *)
Record ImageItem : Type := {
  item_url : option string;
  b64_json : option string
}.

(** The [Response] of the [fetch]: its status, its body read as text, and
    its body read as JSON (which may throw). *)
Record Response : Type := {
  ok : bool;
  body_text : string;
  body_json : Completion Thrown (list ImageItem)
}.

Record UrlRecord : Type := { url : string }.

(** [img.b64_json ? `data:image/png;base64,${img.b64_json}` : img.url || ''] *)
Definition image_url (img : ImageItem) : string :=
  match b64_json img with
  | Some b =>
      if negb (String.eqb b "") then "data:image/png;base64," +:+ b
      else match item_url img with
           | Some u => if negb (String.eqb u "") then u else ""
           | None => ""
           end
  | None =>
      match item_url img with
      | Some u => if negb (String.eqb u "") then u else ""
      | None => ""
      end
  end.

(** The handler [createImageHandler(config)] returns.  [fetched] is the
    outcome of the [await fetch(...)] of the image endpoint. *)
Definition createImageHandler (config : AIGatewayConfig)
    (fetched : Completion Thrown Response) : Completion Thrown (list UrlRecord) :=
  match fetched with
  | Throw e => Throw e
  | Return response =>
      if negb (ok response)
      then Throw (ThrownError
                    (PlainError "Error" ("Image generation failed: " +:+ body_text response)))
      else
        match body_json response with
        | Throw e => Throw e
        | Return data => Return ((fun img => {| url := image_url img |}) <$> data)
        end
  end.

(** An item carries inline data, or a plain url, when the field is
    present and not empty. *)
Definition carries (field : option string) (s : string) : Prop :=
  field = Some s /\ s <> "".

Definition carries_nothing (field : option string) : Prop :=
  field = None \/ field = Some "".

End ImageGeneration.

(** ** plugin.ts *)

Module Plugin.
Import Config.

(** The capability identifiers the plugin registers ([ModelType] of the
    host runtime). *)
Inductive ModelType : Type :=
| TEXT_SMALL | TEXT_LARGE | TEXT_COMPLETION
| TEXT_REASONING_SMALL | TEXT_REASONING_LARGE
| TEXT_EMBEDDING
| OBJECT_SMALL | OBJECT_LARGE
| IMAGE | IMAGE_DESCRIPTION
| TRANSCRIPTION | TEXT_TO_SPEECH
| TEXT_TOKENIZER_ENCODE | TEXT_TOKENIZER_DECODE
| VIDEO.

#[export] Instance ModelType_eq_dec : EqDecision ModelType.
Proof. solve_decision. Defined.

(** A handler, by the factory that made it and what it closes over. *)
Inductive Handler : Type :=
| TextHandler (config : PluginConfig) (modelId : string)
| TextEmbeddingHandler (config : PluginConfig)
| ObjectHandler (config : PluginConfig) (modelId : string)
| ImageHandler (config : PluginConfig)
| FalImageHandler (config : PluginConfig)
| ImageDescriptionHandler (config : PluginConfig)
| TranscriptionHandler (config : PluginConfig)
| TextToSpeechHandler (config : PluginConfig)
| TokenizerEncodeHandler
| TokenizerDecodeHandler
| FalVideoHandler (config : PluginConfig).

Definition createTextSmallHandler (c : PluginConfig) :=
  TextHandler c (AI_GATEWAY_TEXT_SMALL_MODEL (gateway c)).
Definition createTextLargeHandler (c : PluginConfig) :=
  TextHandler c (AI_GATEWAY_TEXT_LARGE_MODEL (gateway c)).
Definition createTextCompletionHandler (c : PluginConfig) :=
  TextHandler c (AI_GATEWAY_TEXT_LARGE_MODEL (gateway c)).
Definition createTextReasoningSmallHandler (c : PluginConfig) :=
  TextHandler c (AI_GATEWAY_TEXT_SMALL_MODEL (gateway c)).
Definition createTextReasoningLargeHandler (c : PluginConfig) :=
  TextHandler c (AI_GATEWAY_TEXT_LARGE_MODEL (gateway c)).
Definition createTextEmbeddingHandler (c : PluginConfig) := TextEmbeddingHandler c.
Definition createObjectSmallHandler (c : PluginConfig) :=
  ObjectHandler c (AI_GATEWAY_TEXT_SMALL_MODEL (gateway c)).
Definition createObjectLargeHandler (c : PluginConfig) :=
  ObjectHandler c (AI_GATEWAY_TEXT_LARGE_MODEL (gateway c)).
Definition createImageHandler (c : PluginConfig) := ImageHandler c.
Definition createFalImageHandler (c : PluginConfig) := FalImageHandler c.
Definition createImageDescriptionHandler (c : PluginConfig) := ImageDescriptionHandler c.
Definition createTranscriptionHandler (c : PluginConfig) := TranscriptionHandler c.
Definition createTextToSpeechHandler (c : PluginConfig) := TextToSpeechHandler c.
Definition createTokenizerEncodeHandler := TokenizerEncodeHandler.
Definition createTokenizerDecodeHandler := TokenizerDecodeHandler.
Definition createFalVideoHandler (c : PluginConfig) := FalVideoHandler c.

(** [ModelHandler] *)
Record Registration : Type := {
  handler : Handler;
  provider : string;
  priority : Z
}.

Definition PLUGIN_NAME : string := "@ghostspeak/plugin-gateway-ghost".
Definition PRIORITY : Z := 10.

Definition registration (h : Handler) : Registration :=
  {| handler := h; provider := PLUGIN_NAME; priority := PRIORITY |}.

(** A [Record<string, ModelHandler>] with its keys in insertion order,
    as [Object.entries] lists them. *)
Abbreviation Handlers := (list (ModelType * Registration)).

Fixpoint lookup_handler (k : ModelType) (hs : Handlers) : option Registration :=
  match hs with
  | [] => None
  | (k', r) :: rest => if decide (k = k') then Some r else lookup_handler k rest
  end.

(** [handlers[k] = r]: an existing key keeps its place, a new one goes
    last. *)
Fixpoint assign (k : ModelType) (r : Registration) (hs : Handlers) : Handlers :=
  match hs with
  | [] => [(k, r)]
  | (k', r') :: rest =>
      if decide (k = k') then (k, r) :: rest else (k', r') :: assign k r rest
  end.

Definition createModelHandlers (config : PluginConfig) : Handlers :=
  let handlers : Handlers :=
    [ (TEXT_SMALL, registration (createTextSmallHandler config));
      (TEXT_LARGE, registration (createTextLargeHandler config));
      (TEXT_COMPLETION, registration (createTextCompletionHandler config));
      (TEXT_REASONING_SMALL, registration (createTextReasoningSmallHandler config));
      (TEXT_REASONING_LARGE, registration (createTextReasoningLargeHandler config));
      (TEXT_EMBEDDING, registration (createTextEmbeddingHandler config));
      (OBJECT_SMALL, registration (createObjectSmallHandler config));
      (OBJECT_LARGE, registration (createObjectLargeHandler config));
      (IMAGE, registration
         (if truthy_setting (FAL_API_KEY (fal config)) && FAL_PREFER_FOR_IMAGES (fal config)
          then createFalImageHandler config
          else createImageHandler config));
      (IMAGE_DESCRIPTION, registration (createImageDescriptionHandler config));
      (TRANSCRIPTION, registration (createTranscriptionHandler config));
      (TEXT_TO_SPEECH, registration (createTextToSpeechHandler config));
      (TEXT_TOKENIZER_ENCODE, registration createTokenizerEncodeHandler);
      (TEXT_TOKENIZER_DECODE, registration createTokenizerDecodeHandler) ] in
  if truthy_setting (FAL_API_KEY (fal config))
  then assign VIDEO (registration (createFalVideoHandler config)) handlers
  else handlers.

(** The alternative-provider credential is present: set, and not to the
    empty string. *)
Definition credential_present (config : PluginConfig) : Prop :=
  exists key, FAL_API_KEY (fal config) = Some key /\ key <> "".

(** *** Initialization *)





Section Init.

Variable is_url : string -> bool.

(** Modelled from the spec: how the validated configuration gets its
    alternative-provider settings from the raw ones; the schema entries
    that do it are not part of the sources. *)
Variable resolveFal : gmap string string -> FalSettings.


End Init.


End Plugin.

(** ** handlers/object-generation.ts *)

Module ObjectGeneration.

(** A [JSONSchema] of the host runtime, by the entries the converter
    reads: [type], [items], [properties] (in the order of
    [Object.entries]) and [required]. *)
Inductive JSONSchema : Type :=
| Schema (type : string) (items : option JSONSchema)
         (properties : option (list (string * JSONSchema)))
         (required : option (list string)).

(** The zod schemas the converter builds. *)
Inductive ZodType : Type :=
| ZString                                  (* [z.string()] *)
| ZNumber                                  (* [z.number()] *)
| ZInt                                     (* [z.number().int()] *)
| ZBoolean                                 (* [z.boolean()] *)
| ZNull                                    (* [z.null()] *)
| ZUnknown                                 (* [z.unknown()] *)
| ZArray (element : ZodType)               (* [z.array(e)] *)
| ZRecord (value : ZodType)                (* [z.record(v)] *)
| ZObject (shape : list (string * ZodType))  (* [z.object(shape)] *)
| ZOptional (inner : ZodType).             (* [t.optional()] *)

(** [required.includes(key)] *)
Definition includes_key (required : list string) (key : string) : bool :=
  existsb (String.eqb key) required.

(** [jsonSchemaToZod(schema)] *)
Fixpoint jsonSchemaToZod (schema : JSONSchema) : ZodType :=
  match schema with
  | Schema type items properties required =>
      if String.eqb type "string" then ZString
      else if String.eqb type "number" then ZNumber
      else if String.eqb type "integer" then ZInt
      else if String.eqb type "boolean" then ZBoolean
      else if String.eqb type "null" then ZNull
      else if String.eqb type "array" then
        match items with
        | Some i => ZArray (jsonSchemaToZod i)
        | None => ZArray ZUnknown
        end
      else if String.eqb type "object" then
        match properties with
        | Some props =>
            let required := match required with Some r => r | None => [] end in
            ZObject
              ((fix shape (entries : list (string * JSONSchema)) : list (string * ZodType) :=
                  match entries with
                  | [] => []
                  | (key, propSchema) :: rest =>
                      let zodProp := jsonSchemaToZod propSchema in
                      (key, if includes_key required key then zodProp
                            else ZOptional zodProp)
                      :: shape rest
                  end) props)
        | None => ZRecord ZUnknown
        end
      else ZUnknown
  end.

Definition is_optional (t : ZodType) : bool :=
  match t with ZOptional _ => true | _ => false end.

(** How a property of an object schema shows in the converted shape. *)
Definition converted_as (required : list string) (entry : string * JSONSchema)
    (out : string * ZodType) : Prop :=
  fst out = fst entry
  /\ (fst entry ∈ required -> snd out = jsonSchemaToZod (snd entry))
  /\ (fst entry ∉ required -> snd out = ZOptional (jsonSchemaToZod (snd entry)))
  /\ (is_optional (snd out) = true <-> fst entry ∉ required).

End ObjectGeneration.

(** ** handlers/fal-models.ts *)

Module FalModels.
Import ErrorHandler Config.

(** A [FalModel], by the fields the code reads. *)
Record FalModel : Type := {
  id : string;
  title : string;
  category : string;
  tags : list string;
  shortDescription : string;
  date : string;
  highlighted : bool;
  deprecated : bool
}.

Record FalModelsResponse : Type := {
  items : list FalModel;
  nextCursor : option string
}.

Inductive FalModelSort : Type := newest | oldest | by_highlighted | by_name.

Inductive Status : Type := active | status_deprecated.

(** [FalModelFilters]; [limit] is an integer. *)
Record FalModelFilters : Type := {
  query : option string;
  filter_category : option string;
  status : option Status;
  sort : option FalModelSort;
  limit : option Z;
  cursor : option string
}.

(** A request to the models endpoint: the search parameters in the order
    they are set, and the [Authorization] header if one is sent.  The URL
    encoding of the parameters is not modelled. *)
Record FalRequest : Type := {
  search_params : list (string * string);
  authorization : option string
}.

(** The [Response]: status, and its body read as JSON under the two
    types the code casts it to ([json_error] is [error?.message]). *)
Record FalHttpResponse : Type := {
  ok : bool;
  http_status : Z;
  statusText : string;
  json_error : Completion Thrown (option string);
  json_models : Completion Thrown FalModelsResponse
}.

(** [l.slice(0, end)] *)
Definition slice0 {A : Type} (l : list A) (end_ : Z) : list A :=
  if (end_ <? 0)%Z
  then take (Z.to_nat (Z.max (Z.of_nat (length l) + end_) 0)) l
  else take (Z.to_nat end_) l.

(** [limit || d] *)
Definition limit_or (limit : option Z) (d : Z) : Z :=
  match limit with
  | Some n => if (n =? 0)%Z then d else n
  | None => d
  end.

Section Api.

Variable fetch : FalRequest -> Completion Thrown FalHttpResponse.

(** [sortModels(models, sort)]: a copy of the list, ordered by dates
    ([Date] parsing) or titles ([localeCompare]). *)
Variable sortModels : list FalModel -> FalModelSort -> list FalModel.

(** [n.toString()] for an integer [n] of absolute value 10^21 or more,
    where JavaScript prints an exponent form (as in "1e+21"); its digits
    are those of the double and are not modelled. *)
Variable exponent_toString : Z -> string.

(** [n.toString()] of an integer: its decimal digits up to 10^21. *)
Definition number_toString (n : Z) : string :=
  if (Z.abs n <? 10 ^ 21)%Z
  then DecimalString.NilZero.string_of_int (Z.to_int n)
  else exponent_toString n.

Definition headers_for (apiKey : option string) : option string :=
  if truthy_setting apiKey then Some ("Key " +:+ default "" apiKey) else None.

(** The error of a response that is not [ok]. *)
Definition api_error (response : FalHttpResponse) : Thrown :=
  let message :=
    match json_error response with
    | Throw _ => Some (statusText response)
    | Return m => m
    end in
  ThrownError
    (PlainError "Error"
       ("FAL API error: "
        +:+ (if truthy_setting message then default "" message
             else statusText response))).

(** [fetchFalModels(apiKey, filters)], with the requests it made. *)
Definition fetchFalModels (apiKey : option string) (filters : FalModelFilters)
    : Completion Thrown FalModelsResponse * list FalRequest :=
  let params :=
    ((if truthy_setting (query filters) then [("q", default "" (query filters))] else [])
     ++ (if truthy_setting (filter_category filters)
         then [("category", default "" (filter_category filters))] else [])
     ++ match status filters with
        | Some active => [("deprecated", "false")]
        | Some status_deprecated => [("deprecated", "true")]
        | None => []
        end
     ++ match limit filters with
        | Some n => if (n =? 0)%Z then [] else [("limit", number_toString n)]
        | None => []
        end
     ++ (if truthy_setting (cursor filters)
         then [("cursor", default "" (cursor filters))] else []))%list in
  let request := {| search_params := params; authorization := headers_for apiKey |} in
  match fetch request with
  | Throw e => (Throw e, [request])
  | Return response =>
      if negb (ok response) then (Throw (api_error response), [request])
      else
        match json_models response with
        | Throw _ =>
            (Throw (ThrownError (PlainError "Error" "Failed to parse FAL API response")),
             [request])
        | Return data =>
            match sort filters with
            | Some s =>
                if (0 <? length (items data))%nat
                then (Return {| items := sortModels (items data) s;
                                nextCursor := nextCursor data |}, [request])
                else (Return data, [request])
            | None => (Return data, [request])
            end
        end
  end.

(** [{ ...filters, cursor }] *)
Definition with_cursor (filters : FalModelFilters) (c : option string) : FalModelFilters :=
  {| query := query filters; filter_category := filter_category filters;
     status := status filters; sort := sort filters; limit := limit filters;
     cursor := c |}.

(** The [do ... while (cursor && pages < maxPages)] loop of
    [fetchAllFalModels], entered with the values of [cursor], [pages] and
    [allModels]; [fuel] bounds the iterations that may follow this one. *)
Fixpoint fetchAll_loop (apiKey : option string) (filters : FalModelFilters)
    (maxPages : Z) (fuel : nat) (c : option string) (pages : Z)
    (allModels : list FalModel) (log : list FalRequest)
    : option (Completion Thrown (list FalModel) * list FalRequest) :=
  let (r, reqs) := fetchFalModels apiKey (with_cursor filters c) in
  match r with
  | Throw e => Some (Throw e, (log ++ reqs)%list)
  | Return response =>
      let allModels' := (allModels ++ items response)%list in
      let c' := nextCursor response in
      let pages' := (pages + 1)%Z in
      if truthy_setting c' && (pages' <? maxPages)%Z then
        match fuel with
        | O => None
        | S fuel' =>
            fetchAll_loop apiKey filters maxPages fuel' c' pages' allModels'
              (log ++ reqs)%list
        end
      else
        Some (Return (match sort filters with
                      | Some s => sortModels allModels' s
                      | None => allModels'
                      end),
              (log ++ reqs)%list)
  end.

(** [fetchAllFalModels(apiKey, filters, maxPages = 10)] *)
Definition fetchAllFalModels (apiKey : option string) (filters : FalModelFilters)
    (maxPages : option Z)
    : option (Completion Thrown (list FalModel) * list FalRequest) :=
  let maxPages := default 10%Z maxPages in
  fetchAll_loop apiKey filters maxPages (Z.to_nat maxPages) None 0 [] [].

(** The [options] of the category listings. *)
Record ListingOptions : Type := {
  opt_sort : option FalModelSort;
  opt_limit : option Z
}.

(** The listing shared by [getImageModels], [getVideoModels] and
    [get3DModels]: they differ in the categories they keep. *)
Definition listing (keep : FalModel -> bool) (apiKey : option string)
    (options : ListingOptions) : Completion Thrown (list FalModel) * list FalRequest :=
  let (r, reqs) :=
    fetchFalModels apiKey
      {| query := None; filter_category := None; status := Some active;
         sort := Some (default newest (opt_sort options));
         limit := Some 100%Z; cursor := None |} in
  match r with
  | Throw e => (Throw e, reqs)
  | Return response =>
      (Return (slice0 (List.filter keep (items response))
                 (limit_or (opt_limit options) 50)), reqs)
  end.

Definition getImageModels :=
  listing (fun m => String.eqb (category m) "text-to-image").

Definition getVideoModels :=
  listing (fun m => String.eqb (category m) "text-to-video"
                    || String.eqb (category m) "image-to-video").

Definition get3DModels :=
  listing (fun m => String.eqb (category m) "image-to-3d"
                    || String.eqb (category m) "text-to-3d").


(** The models of the page a request is answered with (none when the
    request fails). *)
Definition page_items (request : FalRequest) : list FalModel :=
  match fetch request with
  | Return response =>
      match json_models response with
      | Return data => items data
      | Throw _ => []
      end
  | Throw _ => []
  end.

End Api.

End FalModels.

(** ** handlers/transcription.ts *)

Module Transcription.
Import ErrorHandler Config Js.

(** What the handler is called with: a [Buffer], or any other value. *)
Inductive Params : Type :=
| Buffer (bytes : list Byte.byte)
| Other (v : value).

(** The two kinds of [fetch] the handler makes: of the audio, at whatever
    the caller gave as its address, and of the transcription endpoint, with
    the multipart form. *)
Inductive Request : Type :=
| Download (address : value)
| Upload (url authorization : string) (file : list Byte.byte)
         (filename model : string).

(** A [Response], by what the handler reads of it: the status, the body
    as bytes, as text, and the [text] entry of the body as JSON. *)
Record Response : Type := {
  ok : bool;
  arrayBuffer : list Byte.byte;
  body_text : string;
  json_text : Completion Thrown string
}.

(** ['audioUrl' in typedParams] *)
Definition has_key (k : string) (fields : list (string * value)) : bool :=
  match lookup_field k fields with Some _ => true | None => false end.

Section Handler.

Variable fetch : Request -> Completion Thrown Response.

(** The second half of the handler, once the audio is at hand. *)
Definition upload (config : AIGatewayConfig) (audioData : list Byte.byte)
    (log : list Request) : Completion Thrown string * list Request :=
  let request :=
    Upload (AI_GATEWAY_BASE_URL config +:+ "/audio/transcriptions")
           ("Bearer " +:+ AI_GATEWAY_API_KEY config)
           audioData "audio.mp3" (AI_GATEWAY_TRANSCRIPTION_MODEL config) in
  match fetch request with
  | Throw e => (Throw e, (log ++ [request])%list)
  | Return response =>
      if negb (ok response)
      then (Throw (ThrownError
                     (PlainError "Error" ("Transcription failed: " +:+ body_text response))),
            (log ++ [request])%list)
      else (json_text response, (log ++ [request])%list)
  end.

(** The handler [createTranscriptionHandler(config)] returns, with the
    requests it made, in order. *)
Definition createTranscriptionHandler (config : AIGatewayConfig) (params : Params)
    : Completion Thrown string * list Request :=
  match params with
  | Buffer bytes => upload config bytes []
  | Other (JStr address) =>
      match fetch (Download (JStr address)) with
      | Throw e => (Throw e, [Download (JStr address)])
      | Return response =>
          upload config (arrayBuffer response) [Download (JStr address)]
      end
  | Other (JObj fields) =>
      if has_key "audioUrl" fields then
        let address := default JUndefined (lookup_field "audioUrl" fields) in
        match fetch (Download address) with
        | Throw e => (Throw e, [Download address])
        | Return response => upload config (arrayBuffer response) [Download address]
        end
      else
        (Throw (ThrownError
                  (PlainError "Error"
                     "Invalid transcription params: expected audio URL, Buffer, or TranscriptionParams")),
         [])
  | Other _ =>
      (Throw (ThrownError
                (PlainError "Error"
                   "Invalid transcription params: expected audio URL, Buffer, or TranscriptionParams")),
       [])
  end.

End Handler.

(** The shapes the handler accepts. *)
Definition accepted (params : Params) : Prop :=
  match params with
  | Buffer _ => True
  | Other (JStr _) => True
  | Other (JObj fields) => has_key "audioUrl" fields = true
  | Other _ => False
  end.

Definition is_upload (r : Request) : bool :=
  match r with Upload _ _ _ _ _ => true | Download _ => false end.

End Transcription.

(** ** handlers/image-description.ts *)

Module ImageDescription.
Import ErrorHandler Config Js.

(** [ImageDescriptionParams | string] *)
Inductive Params : Type :=
| BareUrl (imageUrl : jsstring)
| Described (imageUrl : jsstring) (prompt : option jsstring).

Record Description : Type := {
  title : jsstring;
  description : jsstring
}.

Definition default_prompt : jsstring :=
  lit "Describe this image in detail. Provide a short title and a comprehensive description.".

(** The text part of the message: the prompt and the format it asks for. *)
Definition instruction (prompt : jsstring) : jsstring :=
  (prompt ++ [10; 10]%N ++ lit "Respond in this exact format:" ++ [10%N]
   ++ lit "TITLE: [short title]" ++ [10%N]
   ++ lit "DESCRIPTION: [detailed description]")%list.

Section Handler.

(** [generateText] on a message with an image and a text part, by the
    text it answers. *)
Variable generateText : Gateway.Model -> jsstring -> jsstring -> Completion Thrown jsstring.

(** The first capture group of the first match of
    [/TITLE:\s*(.+?)(?:\n|DESCRIPTION:)/i] and of [/DESCRIPTION:\s*(.+)/is]
    in a text, if there is a match. *)
Variable titleMatch : jsstring -> option jsstring.
Variable descMatch : jsstring -> option jsstring.

(** [m?.[1]?.trim() || fallback] *)
Definition capture_or (m : option jsstring) (fallback : jsstring) : jsstring :=
  match m with
  | Some group =>
      match trim group with
      | [] => fallback
      | trimmed => trimmed
      end
  | None => fallback
  end.

(** The handler [createImageDescriptionHandler(config)] returns. *)
Definition createImageDescriptionHandler (config : AIGatewayConfig)
    (imageParams : Params) (st : Gateway.Cache)
    : Completion Thrown Description * Gateway.Cache :=
  let (imageUrl, prompt) :=
    match imageParams with
    | BareUrl u => (u, default_prompt)
    | Described u p =>
        (u, match p with
            | Some (c :: rest) => c :: rest
            | _ => default_prompt
            end)
    end in
  let (model, st') := Gateway.getLanguageModel config (AI_GATEWAY_VISION_MODEL config) st in
  match generateText model imageUrl (instruction prompt) with
  | Throw e => (Throw e, st')
  | Return text =>
      (Return {| title := capture_or (titleMatch text) (lit "Image");
                 description := capture_or (descMatch text) text |}, st')
  end.

End Handler.

End ImageDescription.

(** ** Concrete instances

    Small stand-ins for the outside world, on which the statements below
    are exercised. *)

Module Samples.
Import ErrorHandler.

(** A URL check that only looks at the scheme. *)
Definition scheme_is_https (s : string) : bool := String.prefix "https://" s.

(** Three configurations: the second agrees with the first on key and
    base URL and differs elsewhere, the third has another key. *)
Definition config_key1 : Config.AIGatewayConfig :=
  {| Config.AI_GATEWAY_API_KEY := "key-1";
     Config.AI_GATEWAY_BASE_URL := "https://ai-gateway.vercel.sh/v1";
     Config.AI_GATEWAY_TEXT_SMALL_MODEL := "anthropic/claude-haiku-4.5";
     Config.AI_GATEWAY_TEXT_LARGE_MODEL := "anthropic/claude-opus-4.5";
     Config.AI_GATEWAY_EMBEDDING_MODEL := "openai/text-embedding-3-large";
     Config.AI_GATEWAY_IMAGE_MODEL := "bfl/flux-2-pro";
     Config.AI_GATEWAY_VISION_MODEL := "xai/grok-2-vision";
     Config.AI_GATEWAY_TRANSCRIPTION_MODEL := "openai/whisper-1";
     Config.AI_GATEWAY_TTS_MODEL := "openai/tts-1-hd";
     Config.AI_GATEWAY_TTS_VOICE := "alloy" |}.

Definition config_other_models : Config.AIGatewayConfig :=
  {| Config.AI_GATEWAY_API_KEY := "key-1";
     Config.AI_GATEWAY_BASE_URL := "https://ai-gateway.vercel.sh/v1";
     Config.AI_GATEWAY_TEXT_SMALL_MODEL := "openai/gpt-5-mini";
     Config.AI_GATEWAY_TEXT_LARGE_MODEL := "openai/gpt-5";
     Config.AI_GATEWAY_EMBEDDING_MODEL := "openai/text-embedding-3-small";
     Config.AI_GATEWAY_IMAGE_MODEL := "bfl/flux-2-pro";
     Config.AI_GATEWAY_VISION_MODEL := "xai/grok-2-vision";
     Config.AI_GATEWAY_TRANSCRIPTION_MODEL := "openai/whisper-1";
     Config.AI_GATEWAY_TTS_MODEL := "openai/tts-1";
     Config.AI_GATEWAY_TTS_VOICE := "echo" |}.

Definition config_key2 : Config.AIGatewayConfig :=
  {| Config.AI_GATEWAY_API_KEY := "key-2";
     Config.AI_GATEWAY_BASE_URL := "https://ai-gateway.vercel.sh/v1";
     Config.AI_GATEWAY_TEXT_SMALL_MODEL := "anthropic/claude-haiku-4.5";
     Config.AI_GATEWAY_TEXT_LARGE_MODEL := "anthropic/claude-opus-4.5";
     Config.AI_GATEWAY_EMBEDDING_MODEL := "openai/text-embedding-3-large";
     Config.AI_GATEWAY_IMAGE_MODEL := "bfl/flux-2-pro";
     Config.AI_GATEWAY_VISION_MODEL := "xai/grok-2-vision";
     Config.AI_GATEWAY_TRANSCRIPTION_MODEL := "openai/whisper-1";
     Config.AI_GATEWAY_TTS_MODEL := "openai/tts-1-hd";
     Config.AI_GATEWAY_TTS_VOICE := "alloy" |}.

(** A chunk callback that collects what it is handed, and one that throws
    on the fragment "lo". *)
Definition collect : TextGeneration.Callback (list string) :=
  fun chunk seen => (Return tt, (seen ++ [chunk])%list).

Definition choke : TextGeneration.Callback (list string) :=
  fun chunk seen =>
    if String.eqb chunk "lo"
    then (Throw (ThrownError (PlainError "Error" "callback failed")), (seen ++ [chunk])%list)
    else (Return tt, (seen ++ [chunk])%list).

(** An SDK that streams "Hello world" in three fragments. *)
Definition hello_stream : TextGeneration.StreamTextResult :=
  {| TextGeneration.sdk_textStream := ["Hel"; "lo"; " world"];
     TextGeneration.sdk_text := "Hello world";
     TextGeneration.sdk_usage :=
       Some {| TextGeneration.promptTokens := 3; TextGeneration.completionTokens := 2;
               TextGeneration.totalTokens := 5 |};
     TextGeneration.sdk_finishReason := "stop" |}.

Definition streamText_hello (m : Gateway.Model) (c : TextGeneration.CallSettings)
    : Completion Thrown TextGeneration.StreamTextResult := Return hello_stream.

Definition generateText_hello (m : Gateway.Model) (c : TextGeneration.CallSettings)
    : Completion Thrown string := Return "Hello world".

Definition params_with (callback : TextGeneration.Callback (list string))
    : TextGeneration.GenerateTextParams (list string) :=
  {| TextGeneration.prompt := "Say hello";
     TextGeneration.stream := None;
     TextGeneration.onStreamChunk := Some callback;
     TextGeneration.maxTokens := Some 50%Z;
     TextGeneration.temperature := None;
     TextGeneration.topP := None;
     TextGeneration.topK := None;
     TextGeneration.frequencyPenalty := None;
     TextGeneration.presencePenalty := None;
     TextGeneration.stopSequences := None |}.

(** An embedding model that answers every text with the same vector, and
    one that is down. *)
Definition embed_fixed (m : Gateway.Model) (t : list N) : Completion Thrown (list Q) :=
  Return [1 # 2; 3 # 4]%Q.

Definition embed_down (m : Gateway.Model) (t : list N) : Completion Thrown (list Q) :=
  Throw (ThrownError (PlainError "Error" "upstream unavailable")).

(** A configuration with the alternative provider set up and preferred
    for images, and one without its credential. *)
Definition with_fal : Config.PluginConfig :=
  {| Config.gateway := config_key1;
     Config.fal := {| Config.FAL_API_KEY := Some "fal-key";
                      Config.FAL_IMAGE_MODEL := "fal-ai/flux/dev";
                      Config.FAL_VIDEO_MODEL := "fal-ai/minimax-video/image-to-video";
                      Config.FAL_PREFER_FOR_IMAGES := true |} |}.

Definition without_fal : Config.PluginConfig :=
  {| Config.gateway := config_key1;
     Config.fal := {| Config.FAL_API_KEY := None;
                      Config.FAL_IMAGE_MODEL := "fal-ai/flux/dev";
                      Config.FAL_VIDEO_MODEL := "fal-ai/minimax-video/image-to-video";
                      Config.FAL_PREFER_FOR_IMAGES := true |} |}.

(** Two image objects as the alternative provider describes them. *)
Definition image_a : Js.value :=
  Js.JObj [("url", Js.JStr (Js.lit "https://fal.media/a.png")); ("width", Js.JNum 512)].
Definition image_b : Js.value :=
  Js.JObj [("url", Js.JStr (Js.lit "https://fal.media/b.png"))].

(** A tokenizer with one token per code unit: the token of a unit [u] is
    [u + 1], and the token 0 decodes to nothing. *)
Definition code_unit_tokenizer : Tokenizer.Tiktoken :=
  {| Tokenizer.encode := fun text => Return (N.succ <$> text);
     Tokenizer.decode := fun toks =>
       Return (omap (fun n => if (n =? 0)%N then None else Some (N.pred n)) toks) |}.

(** A library that knows one model and hands out that tokenizer. *)
Definition one_model (m : string) : option Tokenizer.Tiktoken :=
  if String.eqb m "gpt-4" then Some code_unit_tokenizer else None.

Definition any_encoding (name : string) : Tokenizer.Tiktoken := code_unit_tokenizer.

(** Parameters that forbid streaming although they carry a callback, and
    parameters that ask for a stream without one. *)
Definition params_no_stream : TextGeneration.GenerateTextParams (list string) :=
  {| TextGeneration.prompt := "Say hello";
     TextGeneration.stream := Some false;
     TextGeneration.onStreamChunk := Some collect;
     TextGeneration.maxTokens := None;
     TextGeneration.temperature := None;
     TextGeneration.topP := None;
     TextGeneration.topK := None;
     TextGeneration.frequencyPenalty := None;
     TextGeneration.presencePenalty := None;
     TextGeneration.stopSequences := None |}.

Definition params_plain_stream : TextGeneration.GenerateTextParams (list string) :=
  {| TextGeneration.prompt := "Say hello";
     TextGeneration.stream := Some true;
     TextGeneration.onStreamChunk := None;
     TextGeneration.maxTokens := None;
     TextGeneration.temperature := None;
     TextGeneration.topP := None;
     TextGeneration.topK := None;
     TextGeneration.frequencyPenalty := None;
     TextGeneration.presencePenalty := None;
     TextGeneration.stopSequences := None |}.

(** A small catalogue and an endpoint that answers every request with it;
    a sort that leaves the order alone. *)
Definition model_of (id category : string) : FalModels.FalModel :=
  {| FalModels.id := id; FalModels.title := id; FalModels.category := category;
     FalModels.tags := []; FalModels.shortDescription := "";
     FalModels.date := "2026-01-01"; FalModels.highlighted := false;
     FalModels.deprecated := false |}.

Definition catalogue : list FalModels.FalModel :=
  [model_of "fal-ai/flux/dev" "text-to-image";
   model_of "fal-ai/minimax-video" "image-to-video";
   model_of "fal-ai/recraft-v3" "text-to-image"].

Definition fetch_catalogue (r : FalModels.FalRequest)
    : Completion Thrown FalModels.FalHttpResponse :=
  Return {| FalModels.ok := true; FalModels.http_status := 200;
            FalModels.statusText := "OK"; FalModels.json_error := Return None;
            FalModels.json_models :=
              Return {| FalModels.items := catalogue; FalModels.nextCursor := None |} |}.

Definition unsorted (l : list FalModels.FalModel) (s : FalModels.FalModelSort)
    : list FalModels.FalModel := l.

(** No sample asks for 10^21 models or more. *)
Definition no_exponent (n : Z) : string := "".

(** A network on which every audio download gives the same three bytes,
    with an error status, and every upload is transcribed as "hello". *)
Definition audio_network (r : Transcription.Request)
    : Completion Thrown Transcription.Response :=
  match r with
  | Transcription.Download _ =>
      Return {| Transcription.ok := false;
                Transcription.arrayBuffer := [Byte.x01; Byte.x02; Byte.x03];
                Transcription.body_text := "not found";
                Transcription.json_text := Return "" |}
  | Transcription.Upload _ _ _ _ _ =>
      Return {| Transcription.ok := true;
                Transcription.arrayBuffer := [];
                Transcription.body_text := "";
                Transcription.json_text := Return "hello" |}
  end.

(** A vision model that ignores the template, and pattern matches that
    find nothing. *)
Definition vision_offtemplate (m : Gateway.Model) (image text : list N)
    : Completion Thrown (list N) := Return (Js.lit "A red circle.").

Definition no_match (text : list N) : option (list N) := None.



End Samples.


(** * Properties *)

(** ** Error wrapping *)

Module ErrorHandlerProps.
Import ErrorHandler.

Lemma wrap_recognized modelType error :
  instanceof_AIGatewayError error = true ->
  wrapHandlerError modelType error = error.
Proof. intros H. unfold wrapHandlerError. by rewrite H. Qed.

Lemma wrap_code modelType error :
  instanceof_AIGatewayError error = false ->
  thrown_code (wrapHandlerError modelType error) = Some "HANDLER_ERROR".
Proof. intros H. unfold wrapHandlerError. by rewrite H. Qed.

(** C8, as stated, fails: a thrown value that is not an [Error] instance
    (here the string "boom") is wrapped into a HANDLER_ERROR whose cause is
    undefined, not the thrown value. *)
Lemma wrapHandlerError_cause_not_always_original :
  ~ (forall modelType error,
        instanceof_AIGatewayError error = false ->
        thrown_code (wrapHandlerError modelType error) = Some "HANDLER_ERROR"
        /\ thrown_cause (wrapHandlerError modelType error) = Some error).
Proof.
  intros H.
  destruct (H "TEXT_SMALL" (ThrownValue "boom") eq_refl) as [_ Hcause].
  discriminate Hcause.
Qed.

(** C8, amended: an [AIGatewayError] is rethrown unchanged; any other
    [Error] instance is rethrown as an [AIGatewayError] of code
    HANDLER_ERROR whose message is the label, " handler failed: " and the
    original message, without status code, and whose cause is the original
    error; a thrown value that is not an [Error] is wrapped the same way
    with its string form as the message and no cause. *)
Theorem wrapHandlerError_spec (modelType : string) :
  (forall message code statusCode cause,
      wrapHandlerError modelType (ThrownError (AIGatewayError message code statusCode cause))
      = ThrownError (AIGatewayError message code statusCode cause))
  /\ (forall name message,
        wrapHandlerError modelType (ThrownError (PlainError name message))
        = ThrownError (AIGatewayError (modelType +:+ " handler failed: " +:+ message)
                         "HANDLER_ERROR" None (Some (PlainError name message))))
  /\ (forall rendered,
        wrapHandlerError modelType (ThrownValue rendered)
        = ThrownError (AIGatewayError (modelType +:+ " handler failed: " +:+ rendered)
                         "HANDLER_ERROR" None None)).
Proof. repeat split. Qed.

End ErrorHandlerProps.

(** ** Configuration *)

Module ConfigProps.
Import Config.

Section WithUrlCheck.
Variable is_url : string -> bool.

Lemma string_in_spec s l : string_in s l = true <-> s ∈ l.
Proof.
  unfold string_in. rewrite existsb_exists. split.
  - intros (x & Hin & Heq). apply String.eqb_eq in Heq. subst.
    by apply list_elem_of_In.
  - intros Hin. exists s. split; [by apply list_elem_of_In | apply String.eqb_refl].
Qed.

Lemma parse_needs_key raw :
  raw_API_KEY raw = None \/ raw_API_KEY raw = Some "" ->
  exists issues, aiGatewayConfigSchema_parse is_url raw = Throw issues
    /\ exists i, i ∈ issues /\ issue_path i = "AI_GATEWAY_API_KEY".
Proof.
  intros Hkey. unfold aiGatewayConfigSchema_parse.
  destruct Hkey as [-> | ->]; cbn [string_min1 String.length Nat.ltb Nat.leb];
    eexists; (split; [reflexivity |]); eexists; (split; [apply list_elem_of_here | reflexivity]).
Qed.

Lemma parse_rejects_voice raw v :
  raw_TTS_VOICE raw = Some v -> v ∉ tts_voices ->
  exists issues, aiGatewayConfigSchema_parse is_url raw = Throw issues
    /\ exists i, i ∈ issues /\ issue_path i = "AI_GATEWAY_TTS_VOICE".
Proof.
  intros Hv Hnot. unfold aiGatewayConfigSchema_parse. rewrite Hv.
  assert (Hf10 : with_default (string_enum tts_voices) "alloy" "AI_GATEWAY_TTS_VOICE" (Some v)
                 = inl [ {| issue_path := "AI_GATEWAY_TTS_VOICE";
                            issue_code := invalid_enum_value;
                            issue_message := None |} ]).
  { unfold with_default, string_enum.
    destruct (string_in v tts_voices) eqn:E; [| done].
    apply string_in_spec in E. contradiction. }
  rewrite Hf10.
  repeat match goal with
         | |- context [match ?f with inl _ => _ | inr _ => _ end] =>
             destruct f; cbn [issues_of]
         end;
    (eexists; split; [reflexivity |]);
    exists {| issue_path := "AI_GATEWAY_TTS_VOICE"; issue_code := invalid_enum_value;
              issue_message := None |};
    (split; [| reflexivity]); set_solver.
Qed.

Lemma parse_defaults key :
  key <> "" ->
  is_url "https://ai-gateway.vercel.sh/v1" = true ->
  aiGatewayConfigSchema_parse is_url
    {| raw_API_KEY := Some key; raw_BASE_URL := None;
       raw_TEXT_SMALL_MODEL := None; raw_TEXT_LARGE_MODEL := None;
       raw_EMBEDDING_MODEL := None; raw_IMAGE_MODEL := None;
       raw_VISION_MODEL := None; raw_TRANSCRIPTION_MODEL := None;
       raw_TTS_MODEL := None; raw_TTS_VOICE := None |}
  = Return {| AI_GATEWAY_API_KEY := key;
              AI_GATEWAY_BASE_URL := "https://ai-gateway.vercel.sh/v1";
              AI_GATEWAY_TEXT_SMALL_MODEL := "anthropic/claude-haiku-4.5";
              AI_GATEWAY_TEXT_LARGE_MODEL := "anthropic/claude-opus-4.5";
              AI_GATEWAY_EMBEDDING_MODEL := "openai/text-embedding-3-large";
              AI_GATEWAY_IMAGE_MODEL := "bfl/flux-2-pro";
              AI_GATEWAY_VISION_MODEL := "xai/grok-2-vision";
              AI_GATEWAY_TRANSCRIPTION_MODEL := "openai/whisper-1";
              AI_GATEWAY_TTS_MODEL := "openai/tts-1-hd";
              AI_GATEWAY_TTS_VOICE := "alloy" |}.
Proof.
  intros Hkey Hurl. unfold aiGatewayConfigSchema_parse.
  cbn [raw_API_KEY raw_BASE_URL raw_TEXT_SMALL_MODEL raw_TEXT_LARGE_MODEL
       raw_EMBEDDING_MODEL raw_IMAGE_MODEL raw_VISION_MODEL
       raw_TRANSCRIPTION_MODEL raw_TTS_MODEL raw_TTS_VOICE].
  unfold with_default, string_url. rewrite Hurl.
  destruct key as [| a key']; [done |]. reflexivity.
Qed.

(** C9: resolution fails when the API key is absent or empty; with a valid
    key and none of the other settings given (and the default base URL
    being a URL), the result holds the key and the default literal of every
    other setting; a TTS voice outside the six allowed values fails
    validation. *)
Theorem parseConfig_spec (env : gmap string string) :
  (env !! "AI_GATEWAY_API_KEY" = None \/ env !! "AI_GATEWAY_API_KEY" = Some "" ->
     exists issues, parseConfig is_url env = Throw issues)
  /\ (forall key,
        env !! "AI_GATEWAY_API_KEY" = Some key -> key <> "" ->
        (forall name, name ∈ optional_settings -> env !! name = None) ->
        is_url "https://ai-gateway.vercel.sh/v1" = true ->
        parseConfig is_url env
        = Return {| AI_GATEWAY_API_KEY := key;
                    AI_GATEWAY_BASE_URL := "https://ai-gateway.vercel.sh/v1";
                    AI_GATEWAY_TEXT_SMALL_MODEL := "anthropic/claude-haiku-4.5";
                    AI_GATEWAY_TEXT_LARGE_MODEL := "anthropic/claude-opus-4.5";
                    AI_GATEWAY_EMBEDDING_MODEL := "openai/text-embedding-3-large";
                    AI_GATEWAY_IMAGE_MODEL := "bfl/flux-2-pro";
                    AI_GATEWAY_VISION_MODEL := "xai/grok-2-vision";
                    AI_GATEWAY_TRANSCRIPTION_MODEL := "openai/whisper-1";
                    AI_GATEWAY_TTS_MODEL := "openai/tts-1-hd";
                    AI_GATEWAY_TTS_VOICE := "alloy" |})
  /\ (forall voice,
        env !! "AI_GATEWAY_TTS_VOICE" = Some voice -> voice ∉ tts_voices ->
        exists issues, parseConfig is_url env = Throw issues).
Proof.
  split; [| split].
  - intros Hkey. unfold parseConfig.
    edestruct parse_needs_key as (issues & Hthrow & _); [| eauto]. exact Hkey.
  - intros key Hkey Hne Hunset Hurl. unfold parseConfig.
    rewrite Hkey.
    rewrite !Hunset by (unfold optional_settings; set_solver).
    by apply parse_defaults.
  - intros voice Hvoice Hnot. unfold parseConfig.
    edestruct parse_rejects_voice as (issues & Hthrow & _); [| exact Hnot | eauto].
    exact Hvoice.
Qed.

End WithUrlCheck.

Lemma parseConfig_spec_witness :
  (exists issues, parseConfig Samples.scheme_is_https ∅ = Throw issues)
  /\ parseConfig Samples.scheme_is_https {[ "AI_GATEWAY_API_KEY" := "test-key" ]}
     = Return {| AI_GATEWAY_API_KEY := "test-key";
                 AI_GATEWAY_BASE_URL := "https://ai-gateway.vercel.sh/v1";
                 AI_GATEWAY_TEXT_SMALL_MODEL := "anthropic/claude-haiku-4.5";
                 AI_GATEWAY_TEXT_LARGE_MODEL := "anthropic/claude-opus-4.5";
                 AI_GATEWAY_EMBEDDING_MODEL := "openai/text-embedding-3-large";
                 AI_GATEWAY_IMAGE_MODEL := "bfl/flux-2-pro";
                 AI_GATEWAY_VISION_MODEL := "xai/grok-2-vision";
                 AI_GATEWAY_TRANSCRIPTION_MODEL := "openai/whisper-1";
                 AI_GATEWAY_TTS_MODEL := "openai/tts-1-hd";
                 AI_GATEWAY_TTS_VOICE := "alloy" |}
  /\ (exists issues,
        parseConfig Samples.scheme_is_https
          {[ "AI_GATEWAY_API_KEY" := "test-key"; "AI_GATEWAY_TTS_VOICE" := "robot" ]}
        = Throw issues).
Proof.
  split; [| split].
  - apply (parseConfig_spec Samples.scheme_is_https ∅). left. reflexivity.
  - apply (parseConfig_spec Samples.scheme_is_https {[ "AI_GATEWAY_API_KEY" := "test-key" ]}).
    + reflexivity.
    + discriminate.
    + intros name Hname. unfold optional_settings in Hname.
      repeat (apply elem_of_cons in Hname as [-> | Hname]; [reflexivity |]).
      by apply elem_of_nil in Hname.
    + reflexivity.
  - apply (parseConfig_spec Samples.scheme_is_https
             {[ "AI_GATEWAY_API_KEY" := "test-key"; "AI_GATEWAY_TTS_VOICE" := "robot" ]})
      with (voice := "robot").
    + reflexivity.
    + unfold tts_voices. intros Hin.
      repeat (apply elem_of_cons in Hin as [Heq | Hin]; [discriminate Heq |]).
      by apply elem_of_nil in Hin.
Defined.
End ConfigProps.

(** ** Gateway client cache *)

Module GatewayProps.
Import Config Gateway.

Lemma same_key_eqb c1 c2 :
  String.eqb (AI_GATEWAY_API_KEY c1) (AI_GATEWAY_API_KEY c2)
  && String.eqb (AI_GATEWAY_BASE_URL c1) (AI_GATEWAY_BASE_URL c2) = true
  <-> same_key c1 c2.
Proof.
  unfold same_key. rewrite andb_true_iff, !String.eqb_eq. tauto.
Qed.

(** What a call leaves in the cache: the provider it returned, under a
    configuration that agrees with the one asked for. *)
Lemma create_caches config st :
  gatewayInstance (snd (createGatewayClient config st))
  = Some (fst (createGatewayClient config st))
  /\ exists current, currentConfig (snd (createGatewayClient config st)) = Some current
       /\ same_key current config.
Proof.
  unfold createGatewayClient.
  destruct (gatewayInstance st) as [instance |] eqn:Hi;
    destruct (currentConfig st) as [current |] eqn:Hc; cbn;
    try (split; [reflexivity | exists config; split; [reflexivity | split; reflexivity]]).
  destruct (_ && _) eqn:E; cbn.
  - split; [exact Hi |]. exists current. split; [exact Hc |]. by apply same_key_eqb.
  - split; [reflexivity |]. exists config. split; [reflexivity | split; reflexivity].
Qed.

(** A call either returns the cached provider and constructs nothing, or
    constructs the next provider. *)
Lemma create_cases config st :
  (gatewayInstance st = Some (fst (createGatewayClient config st))
   /\ snd (createGatewayClient config st) = st)
  \/ (provider_id (fst (createGatewayClient config st)) = constructed st
      /\ constructed (snd (createGatewayClient config st)) = S (constructed st)).
Proof.
  unfold createGatewayClient.
  destruct (gatewayInstance st) as [instance |] eqn:Hi;
    destruct (currentConfig st) as [current |] eqn:Hc; cbn; try (right; split; reflexivity).
  destruct (_ && _); cbn; [left | right]; split; done.
Qed.

Lemma create_hit config st instance current :
  gatewayInstance st = Some instance -> currentConfig st = Some current ->
  same_key current config ->
  createGatewayClient config st = (instance, st).
Proof.
  intros Hi Hc Hsame. unfold createGatewayClient. rewrite Hi, Hc.
  apply same_key_eqb in Hsame. by rewrite Hsame.
Qed.

Lemma create_miss config st instance current :
  gatewayInstance st = Some instance -> currentConfig st = Some current ->
  ~ same_key current config ->
  provider_id (fst (createGatewayClient config st)) = constructed st.
Proof.
  intros Hi Hc Hdiff. unfold createGatewayClient. rewrite Hi, Hc.
  destruct (_ && _) eqn:E; [| reflexivity].
  apply same_key_eqb in E. contradiction.
Qed.

Lemma create_after_clear config st :
  createGatewayClient config (clearGatewayCache st)
  = ({| provider_id := constructed st; provider_name := "vercel-ai-gateway";
        baseURL := AI_GATEWAY_BASE_URL config;
        header_Authorization := "Bearer " +:+ AI_GATEWAY_API_KEY config |},
     {| gatewayInstance :=
          Some {| provider_id := constructed st; provider_name := "vercel-ai-gateway";
                  baseURL := AI_GATEWAY_BASE_URL config;
                  header_Authorization := "Bearer " +:+ AI_GATEWAY_API_KEY config |};
        currentConfig := Some config;
        constructed := S (constructed st) |}).
Proof. reflexivity. Qed.

Lemma constructed_mono c st : constructed st <= constructed (call c st).
Proof.
  destruct c as [config |]; cbn; [| lia].
  destruct (create_cases config st) as [[_ ->] | [_ ->]]; lia.
Qed.

Lemma cache_ok_call c st : cache_ok st -> cache_ok (call c st).
Proof.
  intros Hok. destruct c as [config |]; [| intros i Hi; discriminate Hi].
  cbn. intros i Hi.
  destruct (create_cases config st) as [[Hcached Hst] | [Hid Hn]].
  - rewrite Hst in Hi |- *. by apply Hok.
  - destruct (create_caches config st) as [Hcache _].
    rewrite Hcache in Hi. injection Hi as <-. lia.
Qed.

Lemma run_cons c calls st : run (c :: calls) st = run calls (call c st).
Proof. reflexivity. Qed.

Lemma cache_ok_run calls : forall st, cache_ok st -> cache_ok (run calls st).
Proof.
  induction calls as [| c calls IH]; intros st Hok; [exact Hok |].
  rewrite run_cons. apply IH. by apply cache_ok_call.
Qed.

Lemma constructed_run calls : forall st, constructed st <= constructed (run calls st).
Proof.
  induction calls as [| c calls IH]; intros st; [cbn; lia |].
  rewrite run_cons. etrans; [apply (constructed_mono c) | apply IH].
Qed.

Lemma cache_ok_initial : cache_ok initial.
Proof. intros i Hi. discriminate Hi. Qed.

(** Every provider a run returned was constructed before the run's end. *)
Lemma returned_constructed calls : forall st config old,
  cache_ok st -> (config, old) ∈ returned calls st ->
  provider_id old < constructed (run calls st).
Proof.
  induction calls as [| c calls IH]; intros st config old Hok Hin.
  - by apply elem_of_nil in Hin.
  - rewrite run_cons. destruct c as [config' |]; cbn [returned call] in Hin |- *.
    + apply elem_of_cons in Hin as [[= -> ->] | Hin].
      * pose proof (constructed_run calls (snd (createGatewayClient config' st))) as Hle.
        destruct (create_cases config' st) as [[Hcached Hst] | [Hid Hn]].
        -- rewrite Hst in Hle |- *. apply Hok in Hcached. lia.
        -- lia.
      * eapply IH; [| exact Hin]. by apply (cache_ok_call (CallCreate config')).
    + eapply IH; [| exact Hin]. by apply (cache_ok_call CallClear).
Qed.

Lemma answers_same_key p c1 c2 : answers p c1 -> answers p c2 -> same_key c1 c2.
Proof.
  intros [Hu1 Hh1] [Hu2 Hh2]. split; [| congruence].
  rewrite Hh1 in Hh2. cbn in Hh2. by injection Hh2.
Qed.

Lemma same_key_answers p c1 c2 : same_key c1 c2 -> answers p c1 -> answers p c2.
Proof. intros [Hk Hu] [Hu1 Hh1]. split; congruence. Qed.

(** A call returns a provider for the configuration it was given. *)
Lemma create_answers config st :
  cache_answers st -> answers (fst (createGatewayClient config st)) config.
Proof.
  intros Hok. unfold createGatewayClient.
  destruct (gatewayInstance st) as [instance |] eqn:Hi;
    destruct (currentConfig st) as [current |] eqn:Hc; cbn; try (split; reflexivity).
  destruct (_ && _) eqn:E; cbn; [| split; reflexivity].
  apply same_key_eqb in E.
  destruct (Hok instance Hi) as (current' & Hc' & Hans).
  rewrite Hc in Hc'. injection Hc' as <-. by eapply same_key_answers.
Qed.

Lemma cache_answers_call c st : cache_answers st -> cache_answers (call c st).
Proof.
  intros Hok. destruct c as [config |]; [| intros i Hi; discriminate Hi].
  cbn [call]. intros i Hi.
  destruct (create_caches config st) as (Hcached & current & Hcurrent & Hsame).
  rewrite Hcached in Hi. injection Hi as <-.
  exists current. split; [exact Hcurrent |].
  eapply same_key_answers; [| by apply create_answers].
  destruct Hsame. by split.
Qed.

Lemma returned_answers calls : forall st config p,
  cache_answers st -> (config, p) ∈ returned calls st -> answers p config.
Proof.
  induction calls as [| c calls IH]; intros st config p Hok Hin.
  - by apply elem_of_nil in Hin.
  - destruct c as [config' |]; cbn [returned] in Hin.
    + apply elem_of_cons in Hin as [[= -> ->] | Hin].
      * by apply create_answers.
      * eapply IH; [| exact Hin]. by apply (cache_answers_call (CallCreate config')).
    + eapply IH; [| exact Hin]. by apply (cache_answers_call CallClear).
Qed.

Lemma cache_answers_initial : cache_answers initial.
Proof. intros i Hi. discriminate Hi. Qed.

(** C2: after any history of calls, two consecutive [createGatewayClient]
    calls whose configurations agree on API key and base URL return the
    same provider; if they differ in either, the second returns a different
    provider (and so do any two calls of the history whose configurations
    differ in either); and a call that follows [clearGatewayCache]
    constructs a provider that is none of those returned before. *)
Theorem gateway_cache_spec (history : list Call) (c1 c2 : AIGatewayConfig) :
  let st := run history initial in
  let r1 := createGatewayClient c1 st in
  let r2 := createGatewayClient c2 (snd r1) in
  let r3 := createGatewayClient c2 (clearGatewayCache (snd r1)) in
  (same_key c1 c2 -> fst r2 = fst r1)
  /\ (AI_GATEWAY_API_KEY c1 <> AI_GATEWAY_API_KEY c2
      \/ AI_GATEWAY_BASE_URL c1 <> AI_GATEWAY_BASE_URL c2 ->
      provider_id (fst r2) <> provider_id (fst r1))
  /\ (forall ca pa cb pb,
        (ca, pa) ∈ returned history initial ->
        (cb, pb) ∈ returned history initial ->
        AI_GATEWAY_API_KEY ca <> AI_GATEWAY_API_KEY cb
        \/ AI_GATEWAY_BASE_URL ca <> AI_GATEWAY_BASE_URL cb ->
        pa <> pb)
  /\ (constructed (snd r3) = S (constructed (snd r1))
      /\ forall old, old ∈ (snd <$> returned history initial) \/ old = fst r1 ->
           provider_id (fst r3) <> provider_id old).
Proof.
  intros st r1 r2 r3.
  assert (Hok : cache_ok st) by (apply cache_ok_run, cache_ok_initial).
  assert (Hok1 : cache_ok (snd r1)) by apply (cache_ok_call (CallCreate c1)), Hok.
  destruct (create_caches c1 st) as (Hcached & current & Hcurrent & [Hkey Hurl]).
  fold r1 in Hcached, Hcurrent.
  split; [| split; [| split]].
  - intros [Hk Hu]. subst r2.
    erewrite create_hit; [reflexivity | exact Hcached | exact Hcurrent |].
    split; congruence.
  - intros Hdiff. subst r2.
    erewrite create_miss; [| exact Hcached | exact Hcurrent |].
    + apply Hok1 in Hcached. lia.
    + intros [Hk Hu]. destruct Hdiff as [Hd | Hd]; apply Hd; congruence.
  - intros ca pa cb pb Ha Hb Hdiff ->.
    apply returned_answers in Ha; [| apply cache_answers_initial].
    apply returned_answers in Hb; [| apply cache_answers_initial].
    destruct (answers_same_key pb ca cb Ha Hb) as [Hk Hu].
    destruct Hdiff as [Hd | Hd]; by apply Hd.
  - subst r3. rewrite create_after_clear. cbn [fst snd constructed provider_id].
    split; [reflexivity |].
    intros old [Hin | ->].
    + apply list_elem_of_fmap in Hin as ([config old'] & -> & Hin). cbn [snd].
      apply returned_constructed in Hin; [| apply cache_ok_initial].
      fold st in Hin. pose proof (constructed_mono (CallCreate c1) st) as Hle.
      cbn [call] in Hle. fold r1 in Hle. lia.
    + apply Hok1 in Hcached. lia.
Qed.

Lemma gateway_cache_spec_witness :
  fst (createGatewayClient Samples.config_other_models
         (snd (createGatewayClient Samples.config_key1
                 (run [CallCreate Samples.config_key2; CallClear] initial))))
  = fst (createGatewayClient Samples.config_key1
           (run [CallCreate Samples.config_key2; CallClear] initial))
  /\ provider_id
       (fst (createGatewayClient Samples.config_key2
               (snd (createGatewayClient Samples.config_key1
                       (run [CallCreate Samples.config_key2; CallClear] initial)))))
     <> provider_id
          (fst (createGatewayClient Samples.config_key1
                  (run [CallCreate Samples.config_key2; CallClear] initial))).
Proof.
  split.
  - apply (proj1 (gateway_cache_spec [CallCreate Samples.config_key2; CallClear]
                    Samples.config_key1 Samples.config_other_models)).
    split; reflexivity.
  - apply (proj1 (proj2 (gateway_cache_spec [CallCreate Samples.config_key2; CallClear]
                           Samples.config_key1 Samples.config_key2))).
    left. intros H. vm_compute in H. discriminate H.
Defined.

End GatewayProps.

(** ** Tokenizer *)

Module TokenizerProps.
Import ErrorHandler Tokenizer.

Section WithLibrary.
Variable encodingForModel : string -> option Tiktoken.
Variable getEncoding : string -> Tiktoken.

(** A second request for the same model finds the tokenizer of the first
    and leaves the cache as it is. *)
Lemma getTokenizer_stable modelType (tokenizers tokenizers' : gmap string Tiktoken) t :
  getTokenizer encodingForModel getEncoding modelType tokenizers = (t, tokenizers') ->
  getTokenizer encodingForModel getEncoding modelType tokenizers' = (t, tokenizers').
Proof.
  unfold getTokenizer. intros H.
  destruct (tokenizers !! modelType) as [t0 |] eqn:Hm.
  - injection H as <- <-. by rewrite Hm.
  - destruct (encodingForModel modelType) as [enc |] eqn:He.
    + injection H as <- <-. by rewrite !lookup_insert_eq.
    + destruct (tokenizers !! "cl100k_base") as [t1 |] eqn:Hc.
      * injection H as <- <-. rewrite Hm, Hc. cbv beta iota zeta. by rewrite Hc.
      * injection H as <- <-.
        destruct (decide (modelType = "cl100k_base")) as [-> | Hne].
        -- by rewrite !lookup_insert_eq.
        -- rewrite lookup_insert_ne by done. rewrite Hm.
           by rewrite !lookup_insert_eq.
Qed.

(** [getTokenizer] never returns [undefined]. *)
Lemma getTokenizer_defined modelType (tokenizers : gmap string Tiktoken) :
  is_Some (fst (getTokenizer encodingForModel getEncoding modelType tokenizers)).
Proof.
  unfold getTokenizer.
  destruct (tokenizers !! modelType) as [t0 |] eqn:Hm; cbn; [done |].
  destruct (encodingForModel modelType) as [enc |]; cbn.
  - by rewrite lookup_insert_eq.
  - destruct (tokenizers !! "cl100k_base") as [t1 |] eqn:Hc; cbn.
    + done.
    + by rewrite lookup_insert_eq.
Qed.

(** The cache only ever holds tokenizers of the library. *)
Lemma getTokenizer_round_trips modelType (tokenizers : gmap string Tiktoken) :
  library_round_trips encodingForModel getEncoding ->
  cache_round_trips tokenizers ->
  cache_round_trips (snd (getTokenizer encodingForModel getEncoding modelType tokenizers))
  /\ forall t, fst (getTokenizer encodingForModel getEncoding modelType tokenizers) = Some t -> round_trips t.
Proof.
  intros [Hmodel Hdefault] Hcache.
  assert (Hins : forall k t, round_trips t -> cache_round_trips (<[k := t]> tokenizers)).
  { intros k t Ht m t' Hl. destruct (decide (k = m)) as [-> | Hne].
    - rewrite lookup_insert_eq in Hl. by injection Hl as <-.
    - rewrite lookup_insert_ne in Hl by done. by eapply Hcache. }
  unfold getTokenizer.
  destruct (tokenizers !! modelType) as [t0 |] eqn:Hm; cbn.
  - split; [exact Hcache |]. intros t [= <-]. by eapply Hcache.
  - destruct (encodingForModel modelType) as [enc |] eqn:He; cbn.
    + split; [by eapply Hins, Hmodel |].
      rewrite lookup_insert_eq. intros t [= <-]. by eapply Hmodel.
    + destruct (tokenizers !! "cl100k_base") as [t1 |] eqn:Hc; cbn.
      * split; [exact Hcache |]. intros t Ht. by eapply Hcache.
      * split; [by apply Hins |].
        rewrite lookup_insert_eq. by intros t [= <-].
Qed.


End WithLibrary.

Lemma code_unit_tokenizer_round_trips : round_trips Samples.code_unit_tokenizer.
Proof.
  intros text toks [= <-]. cbn. f_equal.
  induction text as [| u text IH]; [reflexivity |].
  cbn [fmap list_fmap omap list_omap].
  destruct (N.eqb_spec (N.succ u) 0) as [Habs | _]; [lia |].
  by rewrite N.pred_succ, IH.
Qed.

Lemma sample_library_round_trips :
  library_round_trips Samples.one_model Samples.any_encoding.
Proof.
  split.
  - intros m t. unfold Samples.one_model.
    destruct (String.eqb m "gpt-4"); [| done].
    intros [= <-]. apply code_unit_tokenizer_round_trips.
  - apply code_unit_tokenizer_round_trips.
Qed.


End TokenizerProps.

(** ** Streaming text generation *)

Module TextGenerationProps.
Import ErrorHandler Config TextGeneration.

Section WithCallbackState.
Context {S : Type}.
Implicit Types (callback : Callback S) (chunks pre post : list string) (s : S).

Lemma delivered_app (evs1 evs2 : list Event) :
  delivered (evs1 ++ evs2)%list = (delivered evs1 ++ delivered evs2)%list.
Proof. unfold delivered. apply omap_app. Qed.

Lemma delivered_lockstep chunks : delivered (lockstep chunks) = chunks.
Proof.
  induction chunks as [| c chunks IH]; [reflexivity |].
  cbn. f_equal. exact IH.
Qed.

Lemma lockstep_app pre post :
  lockstep (pre ++ post)%list = (lockstep pre ++ lockstep post)%list.
Proof. unfold lockstep. apply flat_map_app. Qed.

(** The callback either accepts every fragment, or there is a first
    fragment on which it throws. *)
Lemma feed_cases callback chunks s :
  (exists s', feed callback chunks s = (Return tt, s'))
  \/ (exists pre c post s1 s2 e,
        chunks = (pre ++ c :: post)%list
        /\ feed callback pre s = (Return tt, s1)
        /\ callback c s1 = (Throw e, s2)).
Proof.
  revert s. induction chunks as [| c chunks IH]; intros s.
  - left. by exists s.
  - destruct (callback c s) as [[u | e] s1] eqn:Hc.
    + destruct (IH s1) as [[s' Hs'] | (pre & c' & post & s2 & s3 & e & -> & Hpre & Hthrow)].
      * left. exists s'. cbn. by rewrite Hc.
      * right. exists (c :: pre), c', post, s2, s3, e.
        split; [reflexivity |]. split; [| exact Hthrow]. cbn. by rewrite Hc.
    + right. exists [], c, chunks, s, s1, e. by repeat split.
Qed.

(** Draining when the callback accepts every fragment. *)
Lemma consume_completes callback chunks : forall fuel s acc evs s',
  length chunks < fuel ->
  feed callback chunks s = (Return tt, s') ->
  consume fuel (WithCallback callback chunks) s acc evs
  = Some {| outcome := Return tt; received := (acc ++ chunks)%list;
            trace := (evs ++ lockstep chunks)%list; callback_state := s' |}.
Proof.
  induction chunks as [| c chunks IH]; intros fuel s acc evs s' Hfuel Hfeed.
  - destruct fuel as [| fuel]; [cbn in Hfuel; lia |].
    cbn in Hfeed |- *. injection Hfeed as <-. by rewrite !app_nil_r.
  - destruct fuel as [| fuel]; [cbn in Hfuel; lia |].
    cbn in Hfeed |- *.
    destruct (callback c s) as [[u | e] s1]; [| discriminate Hfeed].
    rewrite (IH fuel s1 _ _ s'); [| cbn in Hfuel; lia | exact Hfeed].
    by rewrite <- !app_assoc.
Qed.

(** Draining when the callback throws on the fragment that follows
    [pre]. *)
Lemma consume_aborts callback pre c post : forall fuel s acc evs s1 s2 e,
  length (pre ++ c :: post)%list < fuel ->
  feed callback pre s = (Return tt, s1) ->
  callback c s1 = (Throw e, s2) ->
  consume fuel (WithCallback callback (pre ++ c :: post)%list) s acc evs
  = Some {| outcome := Throw e; received := (acc ++ pre)%list;
            trace := (evs ++ lockstep pre ++ [Delivered c])%list;
            callback_state := s2 |}.
Proof.
  induction pre as [| p pre IH]; intros fuel s acc evs s1 s2 e Hfuel Hfeed Hthrow.
  - destruct fuel as [| fuel]; [cbn in Hfuel; lia |].
    cbn in Hfeed |- *. injection Hfeed as <-. rewrite Hthrow.
    by rewrite app_nil_r.
  - destruct fuel as [| fuel]; [cbn in Hfuel; lia |].
    cbn in Hfeed |- *.
    destruct (callback p s) as [[u | e'] s']; [| discriminate Hfeed].
    rewrite (IH fuel s' _ _ s1 s2 e); [| cbn in Hfuel; lia | exact Hfeed | exact Hthrow].
    by rewrite <- !app_assoc.
Qed.

Variable streamText : Gateway.Model -> CallSettings -> Completion Thrown StreamTextResult.
Variable generateText : Gateway.Model -> CallSettings -> Completion Thrown string.

(** With a callback, the handler streams unless [stream] is [false]. *)
Lemma shouldStream_with_callback (params : GenerateTextParams S) callback :
  onStreamChunk params = Some callback ->
  shouldStream params = true <-> stream params <> Some false.
Proof.
  intros Hcb. unfold shouldStream. rewrite Hcb.
  destruct (stream params) as [[|] |]; split; congruence.
Qed.

(** C1: in streaming mode with a chunk callback, the handler returns a
    stream over the fragments of the SDK such that,
    - when the callback accepts every fragment, draining the stream ends
      normally, each fragment is handed to the callback and then yielded,
      in order, the callback and the consumer have both seen exactly the
      fragments of the SDK, and the deferred text is their concatenation;
    - when the callback throws on a fragment, draining the stream throws
      that same value: the consumer has received the fragments before it,
      and no later fragment is handed to the callback or yielded. *)
Theorem streaming_callback_spec (config : AIGatewayConfig) (modelId : string)
    (params : GenerateTextParams S) (st : Gateway.Cache)
    (callback : Callback S) (result : StreamTextResult) (s : S) :
  onStreamChunk params = Some callback ->
  stream params <> Some false ->
  streamText (fst (Gateway.getLanguageModel config modelId st)) (settings_of params)
  = Return result ->
  sdk_text_contract result ->
  exists r,
    fst (createTextHandler streamText generateText config modelId params st)
    = Return (Streaming r)
    /\ (forall s',
          feed callback (sdk_textStream result) s = (Return tt, s') ->
          exists run,
            drain (textStream r) s = Some run
            /\ outcome run = Return tt
            /\ trace run = lockstep (sdk_textStream result)
            /\ delivered (trace run) = sdk_textStream result
            /\ received run = sdk_textStream result
            /\ text r = String.concat "" (received run)
            /\ callback_state run = s')
    /\ (forall pre c post s1 s2 e,
          sdk_textStream result = (pre ++ c :: post)%list ->
          feed callback pre s = (Return tt, s1) ->
          callback c s1 = (Throw e, s2) ->
          exists run,
            drain (textStream r) s = Some run
            /\ outcome run = Throw e
            /\ trace run = (lockstep pre ++ [Delivered c])%list
            /\ delivered (trace run) = (pre ++ [c])%list
            /\ received run = pre
            /\ callback_state run = s2).
Proof.
  intros Hcb Hstream Hsdk Htext.
  apply (shouldStream_with_callback params callback Hcb) in Hstream.
  unfold createTextHandler.
  destruct (Gateway.getLanguageModel config modelId st) as [model st'] eqn:Hmodel.
  cbn [fst] in Hsdk. rewrite Hstream, Hsdk, Hcb. cbn [fst].
  eexists. split; [reflexivity |]. cbn [textStream text].
  split.
  - intros s' Hfeed. eexists. split.
    + unfold drain. cbn [pending]. apply consume_completes; [lia | exact Hfeed].
    + cbn [outcome trace received callback_state app].
      rewrite delivered_lockstep. by repeat split.
  - intros pre c post s1 s2 e Hsplit Hfeed Hthrow. eexists. split.
    + unfold drain. cbn [pending]. rewrite Hsplit.
      eapply consume_aborts; [lia | exact Hfeed | exact Hthrow].
    + cbn [outcome trace received callback_state app].
      rewrite delivered_app, delivered_lockstep. by repeat split.
Qed.

End WithCallbackState.

Lemma streaming_callback_spec_witness :
  (exists r,
     fst (createTextHandler Samples.streamText_hello Samples.generateText_hello
            Samples.config_key1 "anthropic/claude-haiku-4.5"
            (Samples.params_with Samples.collect) Gateway.initial)
     = Return (Streaming r)
     /\ exists run,
          drain (textStream r) [] = Some run
          /\ outcome run = Return tt
          /\ trace run = lockstep ["Hel"; "lo"; " world"]
          /\ delivered (trace run) = ["Hel"; "lo"; " world"]
          /\ received run = ["Hel"; "lo"; " world"]
          /\ text r = String.concat "" (received run)
          /\ callback_state run = ["Hel"; "lo"; " world"])
  /\ (exists r,
        fst (createTextHandler Samples.streamText_hello Samples.generateText_hello
               Samples.config_key1 "anthropic/claude-haiku-4.5"
               (Samples.params_with Samples.choke) Gateway.initial)
        = Return (Streaming r)
        /\ exists run,
             drain (textStream r) [] = Some run
             /\ outcome run = Throw (ThrownError (PlainError "Error" "callback failed"))
             /\ trace run = [Delivered "Hel"; Yielded "Hel"; Delivered "lo"]
             /\ delivered (trace run) = ["Hel"; "lo"]
             /\ received run = ["Hel"]
             /\ callback_state run = ["Hel"; "lo"]).
Proof.
  split.
  - destruct (streaming_callback_spec Samples.streamText_hello Samples.generateText_hello
                Samples.config_key1 "anthropic/claude-haiku-4.5"
                (Samples.params_with Samples.collect) Gateway.initial
                Samples.collect Samples.hello_stream [])
      as (r & Hr & Hdone & _).
    + reflexivity.
    + discriminate.
    + reflexivity.
    + reflexivity.
    + exists r. split; [exact Hr |].
      apply (Hdone ["Hel"; "lo"; " world"]). reflexivity.
  - destruct (streaming_callback_spec Samples.streamText_hello Samples.generateText_hello
                Samples.config_key1 "anthropic/claude-haiku-4.5"
                (Samples.params_with Samples.choke) Gateway.initial
                Samples.choke Samples.hello_stream [])
      as (r & Hr & _ & Habort).
    + reflexivity.
    + discriminate.
    + reflexivity.
    + reflexivity.
    + exists r. split; [exact Hr |].
      apply (Habort ["Hel"] "lo" [" world"] ["Hel"] ["Hel"; "lo"]); reflexivity.
Defined.

End TextGenerationProps.

(** ** Text embedding *)

Module TextEmbeddingProps.
Import ErrorHandler Config Js TextEmbedding.

Lemma trimStart_nil_blank (t : jsstring) : trimStart t = [] <-> blank t = true.
Proof.
  induction t as [| c t IH]; [done |].
  cbn. destruct (is_whitespace c); cbn; [exact IH | done].
Qed.

(** What [trimStart] leaves does not start with whitespace. *)
Lemma trimStart_blank_nil (t : jsstring) : blank (trimStart t) = true -> trimStart t = [].
Proof.
  induction t as [| c t IH]; [done |].
  cbn. destruct (is_whitespace c) eqn:E; [exact IH |].
  cbn. by rewrite E.
Qed.

Lemma blank_rev (t : jsstring) : blank (rev t) = blank t.
Proof.
  unfold blank. apply eq_true_iff_eq.
  rewrite !forallb_forall. split; intros H x Hx; apply H.
  - by apply in_rev in Hx.
  - by apply in_rev.
Qed.

(** [text.trim().length === 0] holds of the blank texts and no others. *)
Lemma trim_length_blank (t : jsstring) :
  (length (trim t) =? 0)%nat = blank t.
Proof.
  apply eq_true_iff_eq. rewrite Nat.eqb_eq. unfold trim, trimEnd.
  rewrite length_rev. split.
  - intros Hlen. apply nil_length_inv in Hlen.
    apply trimStart_nil_blank in Hlen. rewrite blank_rev in Hlen.
    apply trimStart_blank_nil in Hlen. by apply trimStart_nil_blank.
  - intros Hblank. apply trimStart_nil_blank in Hblank. by rewrite Hblank.
Qed.

Section WithEmbed.
Variable embed : Gateway.Model -> jsstring -> Completion Thrown (list Q).

(** The text the handlers work on, for the two shapes of a caller's
    parameters. *)
Lemma handler_on_text config params st t :
  carries_text t params ->
  createTextEmbeddingHandler embed config params st
  = (if blank t then (Return (zero_vector 3072), st)
     else (embed (fst (Gateway.getEmbeddingModel config (AI_GATEWAY_EMBEDDING_MODEL config) st)) t,
           snd (Gateway.getEmbeddingModel config (AI_GATEWAY_EMBEDDING_MODEL config) st)))
  /\ createTextEmbeddingHandler_strict embed config params st
  = (if blank t
     then (Throw (ThrownError (PlainError "Error" "Text cannot be empty for embedding")), st)
     else (embed (fst (Gateway.getEmbeddingModel config (AI_GATEWAY_EMBEDDING_MODEL config) st)) t,
           snd (Gateway.getEmbeddingModel config (AI_GATEWAY_EMBEDDING_MODEL config) st))).
Proof.
  intros Hcarries.
  destruct (Gateway.getEmbeddingModel config (AI_GATEWAY_EMBEDDING_MODEL config) st)
    as [model st'] eqn:Hmodel.
  destruct Hcarries as [| fields Hfield];
    unfold createTextEmbeddingHandler, createTextEmbeddingHandler_strict;
    cbn [get]; rewrite ?Hfield; cbn [default from_option id];
    (destruct t as [| c t]; [split; reflexivity |]);
    cbn [truthy negb]; rewrite Hmodel, trim_length_blank;
    cbn [fst snd]; by destruct (blank (c :: t)).
Qed.

(** C4: on an empty or blank text, handed over as a bare string or in a
    record, the zero-vector version of the handler returns the vector of
    3072 zeros and the strict version throws its input error; either does so
    whatever the embedding model, the configuration and the client cache
    are, and leaves the cache alone. *)
Theorem blank_text_policy (config : AIGatewayConfig) (params : value)
    (st : Gateway.Cache) (t : jsstring) :
  carries_text t params ->
  blank t = true ->
  (createTextEmbeddingHandler embed config params st = (Return (zero_vector 3072), st)
   /\ length (zero_vector 3072) = 3072
   /\ Forall (fun x => x = 0%Q) (zero_vector 3072))
  /\ createTextEmbeddingHandler_strict embed config params st
     = (Throw (ThrownError (PlainError "Error" "Text cannot be empty for embedding")), st).
Proof.
  intros Hcarries Hblank.
  destruct (handler_on_text config params st t Hcarries) as [Hzero Hstrict].
  rewrite Hblank in Hzero, Hstrict.
  split; [split; [exact Hzero | split] | exact Hstrict].
  - apply length_replicate.
  - apply Forall_forall. intros x Hx. by apply elem_of_replicate in Hx as [-> _].
Qed.

(** The strict version rejects every input from which no text can be
    resolved. *)
Lemma strict_rejects_unresolvable config params st :
  ~ text_resolvable params ->
  is_input_error (fst (createTextEmbeddingHandler_strict embed config params st)).
Proof.
  intros Hno. unfold createTextEmbeddingHandler_strict, is_input_error.
  destruct params as [| | b | z | t | items | fields]; cbn [get default from_option id truthy negb fst];
    try (eexists _, _; reflexivity).
  - destruct Hno. exists t. constructor.
  - destruct (lookup_field "text" fields) as [v |] eqn:Hv; cbn [default from_option id];
      [| eexists _, _; reflexivity].
    destruct v as [| | b | z | t | items | fields']; cbn [truthy negb];
      try (eexists _, _; reflexivity).
    + destruct b; eexists _, _; reflexivity.
    + destruct (z =? 0)%Z; eexists _, _; reflexivity.
    + destruct Hno. exists t. by constructor.
Qed.

(** C5, amended: [null] and [undefined] parameters are rejected with the
    input error "Text is required for embedding" by both versions; every
    other input from which no text can be resolved is rejected by the
    strict version; the zero-vector version treats a record without a
    [text] field as an empty text and returns the vector of 3072 zeros. *)
Theorem unresolvable_text_policy (config : AIGatewayConfig) (params : value)
    (st : Gateway.Cache) :
  (params = JNull \/ params = JUndefined ->
     fst (createTextEmbeddingHandler embed config params st)
     = Throw (ThrownError (PlainError "Error" "Text is required for embedding"))
     /\ fst (createTextEmbeddingHandler_strict embed config params st)
        = Throw (ThrownError (PlainError "Error" "Text is required for embedding")))
  /\ (~ text_resolvable params ->
      is_input_error (fst (createTextEmbeddingHandler_strict embed config params st)))
  /\ (forall fields,
        params = JObj fields -> lookup_field "text" fields = None ->
        createTextEmbeddingHandler embed config params st
        = (Return (zero_vector 3072), st)).
Proof.
  split; [| split].
  - intros [-> | ->]; split; reflexivity.
  - apply strict_rejects_unresolvable.
  - intros fields -> Hnone. unfold createTextEmbeddingHandler.
    cbn [get]. rewrite Hnone. reflexivity.
Qed.

End WithEmbed.

Lemma blank_text_policy_witness :
  createTextEmbeddingHandler Samples.embed_fixed Samples.config_key1
    (JObj [("text", JStr (lit "  "))]) Gateway.initial
  = (Return (zero_vector 3072), Gateway.initial)
  /\ createTextEmbeddingHandler_strict Samples.embed_fixed Samples.config_key1
       (JStr []) Gateway.initial
     = (Throw (ThrownError (PlainError "Error" "Text cannot be empty for embedding")),
        Gateway.initial).
Proof.
  split.
  - apply (blank_text_policy Samples.embed_fixed Samples.config_key1
             (JObj [("text", JStr (lit "  "))]) Gateway.initial (lit "  ")).
    + by constructor.
    + reflexivity.
  - apply (blank_text_policy Samples.embed_fixed Samples.config_key1
             (JStr []) Gateway.initial []).
    + constructor.
    + reflexivity.
Defined.

(** C5, as stated, fails on the zero-vector version: a record without a
    [text] field is an input from which no text can be resolved, and the
    handler returns a vector instead of failing. *)
Lemma missing_text_field_not_rejected :
  ~ (forall embed config params st,
        ~ text_resolvable params ->
        is_input_error (fst (createTextEmbeddingHandler embed config params st))).
Proof.
  intros H.
  destruct (H Samples.embed_fixed Samples.config_key1 (JObj [("prompt", JStr (lit "hi"))])
              Gateway.initial) as (name & message & Habs).
  - intros [t Ht]. inversion Ht as [| fields Hfield]; subst. discriminate Hfield.
  - discriminate Habs.
Qed.

Lemma unresolvable_text_policy_witness :
  fst (createTextEmbeddingHandler Samples.embed_fixed Samples.config_key1 JNull Gateway.initial)
  = Throw (ThrownError (PlainError "Error" "Text is required for embedding"))
  /\ is_input_error
       (fst (createTextEmbeddingHandler_strict Samples.embed_fixed Samples.config_key1
               (JObj [("prompt", JStr (lit "hi"))]) Gateway.initial))
  /\ createTextEmbeddingHandler Samples.embed_fixed Samples.config_key1
       (JObj [("prompt", JStr (lit "hi"))]) Gateway.initial
     = (Return (zero_vector 3072), Gateway.initial).
Proof.
  split; [| split].
  - apply (proj1 (unresolvable_text_policy Samples.embed_fixed Samples.config_key1
                    JNull Gateway.initial)).
    by left.
  - apply (proj1 (proj2 (unresolvable_text_policy Samples.embed_fixed Samples.config_key1
                           (JObj [("prompt", JStr (lit "hi"))]) Gateway.initial))).
    intros [t Ht]. inversion Ht as [| fields Hfield]; subst. discriminate Hfield.
  - apply (proj2 (proj2 (unresolvable_text_policy Samples.embed_fixed Samples.config_key1
                           (JObj [("prompt", JStr (lit "hi"))]) Gateway.initial))
             [("prompt", JStr (lit "hi"))]); reflexivity.
Defined.
End TextEmbeddingProps.

(** ** Alternative-provider image handler *)

Module FalProps.
Import ErrorHandler Config Js Fal.

Lemma map_image_objects urls items :
  image_objects urls items ->
  map_throwing
    (fun img => match get img "url" with
                | Some u => Return {| url := u |}
                | None => Throw (cannot_read img "url")
                end) items
  = Return (url_records urls).
Proof.
  unfold image_objects, url_records.
  induction 1 as [| u item urls items (fields & -> & Hurl) _ IH]; [reflexivity |].
  cbn [map_throwing get]. rewrite Hurl. cbn [default from_option id].
  by rewrite IH.
Qed.

(** C7, as stated, fails for the top-level list: the list is taken for a
    single object, and the result is one record whose [url] is
    [undefined], whatever the images are. *)
Lemma top_level_list_not_normalized :
  ~ (forall config urls data,
        truthy_setting (FAL_API_KEY (fal config)) = true ->
        top_level_list urls data ->
        exists records,
          createFalImageHandler config (Return data) = Return records
          /\ Forall (fun r => exists u, url r = JStr u) records).
Proof.
  intros H.
  destruct (H Samples.with_fal
              [lit "https://fal.media/a.png"; lit "https://fal.media/b.png"]
              (JArr [Samples.image_a; Samples.image_b]) eq_refl)
    as (records & Hrun & Hurls).
  - exists [Samples.image_a; Samples.image_b]. split; [reflexivity |].
    repeat constructor; eexists; (split; [reflexivity |]); reflexivity.
  - cbn in Hrun. injection Hrun as <-.
    apply Forall_cons in Hurls as [[u Hu] _]. discriminate Hu.
Qed.

(** C7, amended: with the credential set, a response that is a single
    object with a url, or an object with a nested [images] list, is
    normalized into the list of [{ url }] records of its images, in order;
    a top-level list is not one of the handled shapes: it is not unpacked. *)
Theorem fal_response_shapes (config : PluginConfig) (data : value) :
  truthy_setting (FAL_API_KEY (fal config)) = true ->
  (forall u, single_object u data ->
     createFalImageHandler config (Return data) = Return (url_records [u]))
  /\ (forall urls, nested_list urls data ->
        createFalImageHandler config (Return data) = Return (url_records urls))
  /\ (forall urls, top_level_list urls data ->
        createFalImageHandler config (Return data) = Return [ {| url := JUndefined |} ]).
Proof.
  intros Hkey. unfold createFalImageHandler. rewrite Hkey. cbn [negb].
  split; [| split].
  - intros u (fields & -> & Hurl & Himages).
    cbn [get]. rewrite Himages. cbn [default from_option id truthy map_throwing get].
    by rewrite Hurl.
  - intros urls (fields & items & -> & Himages & Hitems).
    cbn [get]. rewrite Himages. cbn [default from_option id truthy].
    by apply map_image_objects.
  - intros urls (items & -> & _). reflexivity.
Qed.

Lemma fal_response_shapes_witness :
  createFalImageHandler Samples.with_fal (Return Samples.image_b)
  = Return (url_records [lit "https://fal.media/b.png"])
  /\ createFalImageHandler Samples.with_fal
       (Return (JObj [("images", JArr [Samples.image_a; Samples.image_b]); ("seed", JNum 7)]))
     = Return (url_records [lit "https://fal.media/a.png"; lit "https://fal.media/b.png"]).
Proof.
  split.
  - apply (proj1 (fal_response_shapes Samples.with_fal Samples.image_b eq_refl)).
    eexists. repeat split; reflexivity.
  - apply (proj1 (proj2 (fal_response_shapes Samples.with_fal
             (JObj [("images", JArr [Samples.image_a; Samples.image_b]); ("seed", JNum 7)])
             eq_refl))).
    eexists _, _. split; [reflexivity |]. split; [reflexivity |].
    repeat constructor; eexists; (split; [reflexivity |]); reflexivity.
Defined.

End FalProps.

(** ** Gateway image handler *)

Module ImageGenerationProps.
Import ErrorHandler Config ImageGeneration.

Lemma image_url_spec (img : ImageItem) :
  (forall b, carries (b64_json img) b -> image_url img = "data:image/png;base64," +:+ b)
  /\ (forall u, carries_nothing (b64_json img) -> carries (item_url img) u ->
        image_url img = u)
  /\ (carries_nothing (b64_json img) -> carries_nothing (item_url img) ->
      image_url img = "").
Proof.
  unfold image_url, carries, carries_nothing.
  split; [| split].
  - intros b [-> Hb]. apply String.eqb_neq in Hb. by rewrite Hb.
  - intros u [-> | ->] [-> Hu]; apply String.eqb_neq in Hu; cbn; by rewrite Hu.
  - by intros [-> | ->] [-> | ->].
Qed.

(** C10: for a successful response, the handler returns one record per
    item of [data], in order, and raises nothing; an item with inline
    base64 data gives the data URL made of it, an item without inline data
    and with a url gives that url, and an item with neither gives the empty
    string. *)
Theorem image_records_spec (config : AIGatewayConfig) (response : Response)
    (data : list ImageItem) :
  ok response = true ->
  body_json response = Return data ->
  exists records,
    createImageHandler config (Return response) = Return records
    /\ length records = length data
    /\ forall i img, data !! i = Some img ->
         exists r, records !! i = Some r
           /\ (forall b, carries (b64_json img) b ->
                 url r = "data:image/png;base64," +:+ b)
           /\ (forall u, carries_nothing (b64_json img) -> carries (item_url img) u ->
                 url r = u)
           /\ (carries_nothing (b64_json img) -> carries_nothing (item_url img) ->
               url r = "").
Proof.
  intros Hok Hjson. unfold createImageHandler. rewrite Hok, Hjson. cbn [negb].
  eexists. split; [reflexivity |]. split; [apply length_fmap |].
  intros i img Hi. exists {| url := image_url img |}.
  split; [by rewrite list_lookup_fmap, Hi |].
  cbn [url]. apply image_url_spec.
Qed.

Lemma image_records_spec_witness :
  createImageHandler Samples.config_key1
    (Return {| ok := true; body_text := "";
               body_json := Return [ {| item_url := None; b64_json := Some "iVBOR" |};
                                     {| item_url := Some "https://img/1.png"; b64_json := None |};
                                     {| item_url := None; b64_json := None |} ] |})
  = Return [ {| url := "data:image/png;base64,iVBOR" |};
             {| url := "https://img/1.png" |};
             {| url := "" |} ].
Proof.
  destruct (image_records_spec Samples.config_key1
              {| ok := true; body_text := "";
                 body_json := Return [ {| item_url := None; b64_json := Some "iVBOR" |};
                                       {| item_url := Some "https://img/1.png"; b64_json := None |};
                                       {| item_url := None; b64_json := None |} ] |}
              [ {| item_url := None; b64_json := Some "iVBOR" |};
                {| item_url := Some "https://img/1.png"; b64_json := None |};
                {| item_url := None; b64_json := None |} ]
              eq_refl eq_refl) as (records & Hrun & _).
  rewrite Hrun. cbn in Hrun. injection Hrun as <-. reflexivity.
Defined.

End ImageGenerationProps.

(** ** Dispatch table *)

Module PluginProps.
Import Config Plugin.

Lemma truthy_setting_present (config : PluginConfig) :
  truthy_setting (FAL_API_KEY (fal config)) = true <-> credential_present config.
Proof.
  unfold credential_present, truthy_setting.
  destruct (FAL_API_KEY (fal config)) as [key |]; split.
  - intros H. exists key. split; [reflexivity |].
    apply negb_true_iff in H. by apply String.eqb_neq.
  - intros (key' & [= <-] & Hne). apply negb_true_iff. by apply String.eqb_neq.
  - discriminate.
  - by intros (key' & Habs & _).
Qed.


(** C6: the image capability is bound to the alternative-provider handler
    exactly when the credential is present and the preference flag is set,
    and to the gateway handler otherwise; the video capability is bound
    exactly when the credential is present, and is no key of the table
    otherwise. *)
Theorem dispatch_table_spec (config : PluginConfig) :
  (credential_present config /\ FAL_PREFER_FOR_IMAGES (fal config) = true ->
     lookup_handler IMAGE (createModelHandlers config)
     = Some (registration (FalImageHandler config)))
  /\ (~ (credential_present config /\ FAL_PREFER_FOR_IMAGES (fal config) = true) ->
      lookup_handler IMAGE (createModelHandlers config)
      = Some (registration (ImageHandler config)))
  /\ (credential_present config ->
      lookup_handler VIDEO (createModelHandlers config)
      = Some (registration (FalVideoHandler config)))
  /\ (~ credential_present config ->
      lookup_handler VIDEO (createModelHandlers config) = None
      /\ VIDEO ∉ (fst <$> createModelHandlers config)).
Proof.
  pose proof (truthy_setting_present config) as Hpresent.
  unfold createModelHandlers.
  destruct (truthy_setting (FAL_API_KEY (fal config))) eqn:Hkey.
  - assert (Hc : credential_present config) by (by apply Hpresent).
    destruct (FAL_PREFER_FOR_IMAGES (fal config)) eqn:Hprefer; cbn.
    + split; [done |]. split; [intros Hn; exfalso; by apply Hn |].
      split; [done |]. intros Hn. contradiction.
    + split; [by intros [_ ?] |]. split; [done |].
      split; [done |]. intros Hn. contradiction.
  - assert (Hc : ~ credential_present config).
    { intros Hc. apply Hpresent in Hc. discriminate Hc. }
    destruct (FAL_PREFER_FOR_IMAGES (fal config)) eqn:Hprefer; cbn;
      (split; [intros [? _]; contradiction |]);
      (split; [done |]);
      (split; [intros; contradiction |]);
      intros _; (split; [done | compute_done]).
Qed.

Lemma dispatch_table_spec_witness :
  lookup_handler IMAGE (createModelHandlers Samples.with_fal)
  = Some (registration (FalImageHandler Samples.with_fal))
  /\ lookup_handler VIDEO (createModelHandlers Samples.with_fal)
     = Some (registration (FalVideoHandler Samples.with_fal))
  /\ lookup_handler IMAGE (createModelHandlers Samples.without_fal)
     = Some (registration (ImageHandler Samples.without_fal))
  /\ VIDEO ∉ (fst <$> createModelHandlers Samples.without_fal).
Proof.
  split; [| split; [| split]].
  - apply (proj1 (dispatch_table_spec Samples.with_fal)).
    split; [| reflexivity]. exists "fal-key". split; [reflexivity | discriminate].
  - apply (proj1 (proj2 (proj2 (dispatch_table_spec Samples.with_fal)))).
    exists "fal-key". split; [reflexivity | discriminate].
  - apply (proj1 (proj2 (dispatch_table_spec Samples.without_fal))).
    intros [(key & Habs & _) _]. discriminate Habs.
  - apply (proj2 (proj2 (proj2 (dispatch_table_spec Samples.without_fal)))).
    intros (key & Habs & _). discriminate Habs.
Defined.

End PluginProps.

(** * Further properties of the code *)

(** ** Error classification and wrapping *)

Module ErrorHandlerExtras.
Import ErrorHandler.

Lemma includes_append_left (p s search : string) :
  includes s search = true -> includes (p +:+ s) search = true.
Proof.
  intros H. induction p as [| a p IH]; [exact H |].
  change (includes (String a p +:+ s) search)
    with (String.prefix search (String a (p +:+ s)) || includes (p +:+ s) search).
  rewrite IH. apply orb_true_r.
Qed.

Lemma wrapped_message_includes modelType message search :
  includes message search = true ->
  includes (modelType +:+ " handler failed: " +:+ message) search = true.
Proof.
  intros H. apply includes_append_left.
  by apply (includes_append_left " handler failed: ").
Qed.

(** X1: what [wrapHandlerError] throws is always an [AIGatewayError], and
    passing it through the wrapper again, under any label, changes
    nothing: a HANDLER_ERROR is never nested in another. *)
Theorem wrapping_is_idempotent (label1 label2 : string) (error : Thrown) :
  instanceof_AIGatewayError (wrapHandlerError label1 error) = true
  /\ wrapHandlerError label2 (wrapHandlerError label1 error)
     = wrapHandlerError label1 error.
Proof.
  assert (H : instanceof_AIGatewayError (wrapHandlerError label1 error) = true).
  { unfold wrapHandlerError.
    destruct (instanceof_AIGatewayError error) eqn:E; [exact E | reflexivity]. }
  split; [exact H |].
  generalize dependent (wrapHandlerError label1 error). intros wrapped Hw.
  unfold wrapHandlerError. by rewrite Hw.
Qed.

(** X2: wrapping keeps the triage of an error: an [Error] that
    [isRateLimitError] or [isAuthError] recognizes is still recognized
    after [wrapHandlerError].  A thrown value that is no [Error] is
    recognized by neither test, but its wrapping is recognized by
    [isRateLimitError] when its string form has "rate limit" or "429", and
    by [isAuthError] when it has "401" or "unauthorized". *)
Theorem wrapping_keeps_triage (label : string) (error : Thrown) :
  (isRateLimitError error = true ->
   isRateLimitError (wrapHandlerError label error) = true)
  /\ (isAuthError error = true ->
      isAuthError (wrapHandlerError label error) = true)
  /\ (forall rendered,
        error = ThrownValue rendered ->
        isRateLimitError error = false
        /\ isAuthError error = false
        /\ (includes rendered "rate limit" = true \/ includes rendered "429" = true ->
            isRateLimitError (wrapHandlerError label error) = true)
        /\ (includes rendered "401" = true \/ includes rendered "unauthorized" = true ->
            isAuthError (wrapHandlerError label error) = true)).
Proof.
  split; [| split].
  - destruct error as [[name message | message code statusCode cause] | rendered];
      cbn; try done.
    intros H. apply orb_true_iff in H as [H | H];
      apply (wrapped_message_includes label) in H; rewrite H;
      [reflexivity | apply orb_true_r].
  - destruct error as [[name message | message code statusCode cause] | rendered];
      cbn; try done.
    intros H. apply orb_true_iff in H as [H | H];
      apply (wrapped_message_includes label) in H; rewrite H;
      [reflexivity | apply orb_true_r].
  - intros rendered ->. split; [reflexivity |]. split; [reflexivity |].
    split; intros [H | H]; cbn;
      apply (wrapped_message_includes label) in H; rewrite H;
      [reflexivity | apply orb_true_r | reflexivity | apply orb_true_r].
Qed.

Lemma wrapping_keeps_triage_witness :
  isRateLimitError
    (wrapHandlerError "TEXT_LARGE"
       (ThrownError (PlainError "Error" "HTTP 429: rate limit exceeded"))) = true
  /\ isAuthError
       (wrapHandlerError "IMAGE" (ThrownError (PlainError "Error" "401 unauthorized"))) = true
  /\ isRateLimitError (wrapHandlerError "IMAGE" (ThrownValue "status 429")) = true
  /\ isRateLimitError (wrapHandlerError "IMAGE" (ThrownValue "rate limit hit")) = true
  /\ isAuthError (wrapHandlerError "IMAGE" (ThrownValue "status 401")) = true
  /\ isAuthError (wrapHandlerError "IMAGE" (ThrownValue "unauthorized")) = true.
Proof.
  split; [| split; [| split; [| split; [| split]]]].
  - apply (proj1 (wrapping_keeps_triage "TEXT_LARGE"
                    (ThrownError (PlainError "Error" "HTTP 429: rate limit exceeded")))).
    reflexivity.
  - apply (proj1 (proj2 (wrapping_keeps_triage "IMAGE"
                           (ThrownError (PlainError "Error" "401 unauthorized"))))).
    reflexivity.
  - apply (proj1 (proj2 (proj2 (proj2 (proj2 (wrapping_keeps_triage "IMAGE"
                                                 (ThrownValue "status 429")))
                                        "status 429" eq_refl)))).
    right. reflexivity.
  - apply (proj1 (proj2 (proj2 (proj2 (proj2 (wrapping_keeps_triage "IMAGE"
                                                 (ThrownValue "rate limit hit")))
                                        "rate limit hit" eq_refl)))).
    left. reflexivity.
  - apply (proj2 (proj2 (proj2 (proj2 (proj2 (wrapping_keeps_triage "IMAGE"
                                                 (ThrownValue "status 401")))
                                        "status 401" eq_refl)))).
    left. reflexivity.
  - apply (proj2 (proj2 (proj2 (proj2 (proj2 (wrapping_keeps_triage "IMAGE"
                                                 (ThrownValue "unauthorized")))
                                        "unauthorized" eq_refl)))).
    right. reflexivity.
Defined.

End ErrorHandlerExtras.

(** ** Configuration *)

Module ConfigExtras.
Import Config.

Section WithUrlCheck.
Variable is_url : string -> bool.

Lemma default_string_any d path raw :
  with_default string_any d path raw = inr (or_default d raw).
Proof. by destruct raw. Qed.

Lemma default_string_url d path raw :
  with_default (string_url is_url) d path raw
  = if is_url (or_default d raw) then inr (or_default d raw)
    else inl [ {| issue_path := path; issue_code := invalid_string_url;
                  issue_message := None |} ].
Proof. by destruct raw. Qed.

Lemma default_string_enum values d path raw :
  with_default (string_enum values) d path raw
  = if string_in (or_default d raw) values then inr (or_default d raw)
    else inl [ {| issue_path := path; issue_code := invalid_enum_value;
                  issue_message := None |} ].
Proof. by destruct raw. Qed.

Lemma parse_Return_iff raw c :
  aiGatewayConfigSchema_parse is_url raw = Return c
  <-> exists key,
        raw_API_KEY raw = Some key /\ key <> ""
        /\ is_url (or_default "https://ai-gateway.vercel.sh/v1" (raw_BASE_URL raw)) = true
        /\ string_in (or_default "alloy" (raw_TTS_VOICE raw)) tts_voices = true
        /\ c = resolved key raw.
Proof.
  unfold aiGatewayConfigSchema_parse.
  rewrite !default_string_any, default_string_url, default_string_enum.
  destruct (raw_API_KEY raw) as [[| a key] |]; cbn [string_min1 String.length Nat.ltb Nat.leb];
    try (split; [discriminate | by intros (key' & Hk & Hne & _); try discriminate Hk;
                                   injection Hk as <-]).
  destruct (is_url _) eqn:Hurl;
    [| split; [discriminate | by intros (key' & _ & _ & Habs & _)]].
  destruct (string_in _ tts_voices) eqn:Hvoice;
    [| split; [discriminate | by intros (key' & _ & _ & _ & Habs & _)]].
  split.
  - intros [= <-]. exists (String a key). by repeat split.
  - intros (key' & [= <-] & _ & _ & _ & ->). reflexivity.
Qed.

(** X3: [parseConfig] succeeds exactly when the API key is set and not
    empty, the base URL (given, or the default) is a URL and the TTS voice
    (given, or the default) is one of the six; the result then holds every
    given setting as it was given (an empty model identifier too) and the
    default literal for every setting that is absent. *)
Theorem parseConfig_resolution (env : gmap string string) (c : AIGatewayConfig) :
  parseConfig is_url env = Return c
  <-> exists key,
        env !! "AI_GATEWAY_API_KEY" = Some key /\ key <> ""
        /\ is_url (or_default "https://ai-gateway.vercel.sh/v1"
                     (env !! "AI_GATEWAY_BASE_URL")) = true
        /\ or_default "alloy" (env !! "AI_GATEWAY_TTS_VOICE") ∈ tts_voices
        /\ c = resolved key (raw_of_env env).
Proof.
  change (parseConfig is_url env) with (aiGatewayConfigSchema_parse is_url (raw_of_env env)).
  rewrite parse_Return_iff. cbn [raw_of_env raw_API_KEY raw_BASE_URL raw_TTS_VOICE].
  split; intros (key & Hk & Hne & Hurl & Hvoice & Hc); exists key; repeat split; try done.
  - by apply ConfigProps.string_in_spec.
  - by apply ConfigProps.string_in_spec.
Qed.

(** X4: every configuration that [parseConfig] returns has a non-empty
    API key, a base URL that passes the URL check, and one of the six TTS
    voices. *)
Theorem validated_config_invariant (env : gmap string string) (c : AIGatewayConfig) :
  parseConfig is_url env = Return c ->
  AI_GATEWAY_API_KEY c <> ""
  /\ is_url (AI_GATEWAY_BASE_URL c) = true
  /\ AI_GATEWAY_TTS_VOICE c ∈ tts_voices.
Proof.
  change (parseConfig is_url env) with (aiGatewayConfigSchema_parse is_url (raw_of_env env)).
  intros (key & Hk & Hne & Hurl & Hvoice & ->)%parse_Return_iff.
  cbn [resolved AI_GATEWAY_API_KEY AI_GATEWAY_BASE_URL AI_GATEWAY_TTS_VOICE].
  repeat split; try done. by apply ConfigProps.string_in_spec.
Qed.

(** X5: validation is idempotent: a configuration that [parseConfig]
    returned, handed to [getConfigWithDefaults], comes back unchanged. *)
Theorem getConfigWithDefaults_fixes_validated (env : gmap string string)
    (c : AIGatewayConfig) :
  parseConfig is_url env = Return c ->
  getConfigWithDefaults is_url (as_partial c) = Return c.
Proof.
  change (parseConfig is_url env) with (aiGatewayConfigSchema_parse is_url (raw_of_env env)).
  intros (key & Hk & Hne & Hurl & Hvoice & ->)%parse_Return_iff.
  unfold getConfigWithDefaults. apply parse_Return_iff.
  exists key. by repeat split.
Qed.

End WithUrlCheck.

Lemma validated_config_invariant_witness :
  AI_GATEWAY_API_KEY Samples.config_key1 <> ""
  /\ Samples.scheme_is_https (AI_GATEWAY_BASE_URL Samples.config_key1) = true
  /\ AI_GATEWAY_TTS_VOICE Samples.config_key1 ∈ tts_voices.
Proof.
  apply (validated_config_invariant Samples.scheme_is_https
           {[ "AI_GATEWAY_API_KEY" := "key-1" ]}).
  reflexivity.
Defined.

Lemma getConfigWithDefaults_fixes_validated_witness :
  getConfigWithDefaults Samples.scheme_is_https (as_partial Samples.config_other_models)
  = Return Samples.config_other_models.
Proof.
  apply (getConfigWithDefaults_fixes_validated Samples.scheme_is_https
           {[ "AI_GATEWAY_API_KEY" := "key-1";
              "AI_GATEWAY_TEXT_SMALL_MODEL" := "openai/gpt-5-mini";
              "AI_GATEWAY_TEXT_LARGE_MODEL" := "openai/gpt-5";
              "AI_GATEWAY_EMBEDDING_MODEL" := "openai/text-embedding-3-small";
              "AI_GATEWAY_TTS_MODEL" := "openai/tts-1";
              "AI_GATEWAY_TTS_VOICE" := "echo" ]}).
  reflexivity.
Defined.

End ConfigExtras.

(** ** Gateway client cache *)

Module GatewayExtras.
Import Config Gateway GatewayProps.

(** X6: whatever calls came before, the provider that
    [createGatewayClient] returns for a configuration carries that
    configuration's base URL and its API key as bearer token: a provider
    built for other credentials is never handed out. *)
Theorem provider_carries_requested_credentials (history : list Call)
    (config : AIGatewayConfig) (p : Provider) :
  (config, p) ∈ returned history initial ->
  baseURL p = AI_GATEWAY_BASE_URL config
  /\ header_Authorization p = "Bearer " +:+ AI_GATEWAY_API_KEY config.
Proof.
  intros Hin. eapply returned_answers; [apply cache_answers_initial | exact Hin].
Qed.

Lemma provider_carries_requested_credentials_witness :
  baseURL (fst (createGatewayClient Samples.config_key1
                  (run [CallCreate Samples.config_key2] initial)))
  = "https://ai-gateway.vercel.sh/v1"
  /\ header_Authorization
       (fst (createGatewayClient Samples.config_key1
               (run [CallCreate Samples.config_key2] initial)))
     = "Bearer key-1".
Proof.
  apply (provider_carries_requested_credentials
           [CallCreate Samples.config_key2; CallCreate Samples.config_key1]
           Samples.config_key1).
  cbn [returned]. apply list_elem_of_further, list_elem_of_here.
Defined.

Lemma hits_construct_nothing configs : forall c st instance current,
  gatewayInstance st = Some instance -> currentConfig st = Some current ->
  same_key current c ->
  Forall (same_key c) configs ->
  run (CallCreate <$> configs) st = st
  /\ forall c' p, (c', p) ∈ returned (CallCreate <$> configs) st -> p = instance.
Proof.
  induction configs as [| c0 configs IH]; intros c st instance current Hi Hc Hsame Hall.
  - split; [reflexivity |]. intros c' p Hin. by apply elem_of_nil in Hin.
  - apply Forall_cons in Hall as [[Hk0 Hu0] Hall].
    assert (Hhit : createGatewayClient c0 st = (instance, st)).
    { eapply create_hit; [exact Hi | exact Hc |].
      destruct Hsame as [Hk Hu]. split; congruence. }
    cbn [fmap list_fmap]. rewrite run_cons. cbn [call returned]. rewrite Hhit. cbn [fst snd].
    destruct (IH c st instance current Hi Hc Hsame Hall) as [Hrun Hret].
    split; [exact Hrun |].
    intros c' p [[= _ ->] | Hin]%elem_of_cons; [reflexivity | by eapply Hret].
Qed.

(** X7: with the configuration unchanged in key and base URL, any number
    of further [createGatewayClient] calls return the provider of the
    first one and construct no other. *)
Theorem unchanged_config_reuses_provider (history : list Call)
    (config : AIGatewayConfig) (configs : list AIGatewayConfig) :
  Forall (same_key config) configs ->
  let first := createGatewayClient config (run history initial) in
  constructed (run (CallCreate <$> configs) (snd first)) = constructed (snd first)
  /\ forall c p, (c, p) ∈ returned (CallCreate <$> configs) (snd first) -> p = fst first.
Proof.
  intros Hall first.
  destruct (create_caches config (run history initial))
    as (Hcached & current & Hcurrent & Hsame).
  fold first in Hcached, Hcurrent.
  destruct (hits_construct_nothing configs config (snd first) (fst first) current
              Hcached Hcurrent Hsame Hall) as [Hrun Hret].
  split; [by rewrite Hrun | exact Hret].
Qed.

Lemma unchanged_config_reuses_provider_witness :
  constructed
    (run (CallCreate <$> [Samples.config_other_models; Samples.config_key1])
       (snd (createGatewayClient Samples.config_key1 initial)))
  = constructed (snd (createGatewayClient Samples.config_key1 initial)).
Proof.
  apply (unchanged_config_reuses_provider [] Samples.config_key1
           [Samples.config_other_models; Samples.config_key1]).
  repeat constructor.
Defined.

(** X8: language and embedding models are resolved against the one cached
    provider: after [getLanguageModel], an [getEmbeddingModel] call with
    the same configuration gives a model of the same provider, whatever
    the two model identifiers are, and leaves the cache as it is. *)
Theorem models_share_the_provider (config : AIGatewayConfig) (m1 m2 : string)
    (st : Cache) :
  getEmbeddingModel config m2 (snd (getLanguageModel config m1 st))
  = ({| model_provider := model_provider (fst (getLanguageModel config m1 st));
        modelId := m2 |},
     snd (getLanguageModel config m1 st)).
Proof.
  unfold getLanguageModel, getEmbeddingModel.
  destruct (create_caches config st) as (Hcached & current & Hcurrent & Hsame).
  destruct (createGatewayClient config st) as [p st1] eqn:Hcreate.
  cbn [fst snd] in *.
  by rewrite (create_hit config st1 p current Hcached Hcurrent Hsame).
Qed.

Lemma creations_bound calls : forall st,
  constructed (run calls st) <= constructed st + creations calls.
Proof.
  induction calls as [| c calls IH]; intros st; [cbn; lia |].
  rewrite run_cons. specialize (IH (call c st)).
  destruct c as [config |]; cbn [creations call] in *.
  - destruct (create_cases config st) as [[_ Hst] | [_ Hn]].
    + rewrite Hst in IH |- *. lia.
    + lia.
  - cbn [clearGatewayCache constructed] in IH. lia.
Qed.

Lemma both_or_neither_call c st :
  (gatewayInstance st = None <-> currentConfig st = None) ->
  (gatewayInstance (call c st) = None <-> currentConfig (call c st) = None).
Proof.
  intros H. destruct c as [config |]; [| done]. cbn [call].
  destruct (create_caches config st) as (Hcached & current & Hcurrent & _).
  rewrite Hcached, Hcurrent. split; discriminate.
Qed.

Lemma both_or_neither_run calls : forall st,
  (gatewayInstance st = None <-> currentConfig st = None) ->
  (gatewayInstance (run calls st) = None <-> currentConfig (run calls st) = None).
Proof.
  induction calls as [| c calls IH]; intros st H; [exact H |].
  rewrite run_cons. by apply IH, both_or_neither_call.
Qed.

Lemma cache_answers_run calls : forall st, cache_answers st -> cache_answers (run calls st).
Proof.
  induction calls as [| c calls IH]; intros st H; [exact H |].
  rewrite run_cons. by apply IH, cache_answers_call.
Qed.

(** X9: after any sequence of [createGatewayClient] and
    [clearGatewayCache] calls, the cache holds a provider exactly when it
    holds a configuration, the provider it holds was built for the key and
    base URL of that configuration, and no more providers were constructed
    than [createGatewayClient] was called. *)
Theorem cache_invariants (history : list Call) :
  let st := run history initial in
  (gatewayInstance st = None <-> currentConfig st = None)
  /\ (forall instance current,
        gatewayInstance st = Some instance -> currentConfig st = Some current ->
        baseURL instance = AI_GATEWAY_BASE_URL current
        /\ header_Authorization instance = "Bearer " +:+ AI_GATEWAY_API_KEY current)
  /\ constructed st <= creations history.
Proof.
  intros st. split; [| split].
  - by apply both_or_neither_run.
  - intros instance current Hi Hc.
    destruct (cache_answers_run history initial cache_answers_initial instance Hi)
      as (current' & Hc' & Hans).
    fold st in Hc'. rewrite Hc in Hc'. by injection Hc' as <-.
  - apply (creations_bound history initial).
Qed.

End GatewayExtras.

(** ** Tokenizer cache *)

Module TokenizerExtras.
Import ErrorHandler Tokenizer TokenizerProps.

Section WithLibrary.
Variable encodingForModel : string -> option Tiktoken.
Variable getEncoding : string -> Tiktoken.

(** X10: a model identifier the library does not know is served by the
    default encoding "cl100k_base" (the cached instance, or a new one that
    is then cached under that name); the unknown identifier itself gets no
    cache entry, and no error is raised. *)
Theorem unknown_model_falls_back (tokenizers : gmap string Tiktoken)
    (modelType : string) (text : Js.jsstring) :
  encodingForModel modelType = None ->
  tokenizers !! modelType = None ->
  let fallback := default (getEncoding "cl100k_base") (tokenizers !! "cl100k_base") in
  let after := snd (createTokenizerEncodeHandler encodingForModel getEncoding
                      {| tok_modelType := modelType; prompt := text |} tokenizers) in
  fst (createTokenizerEncodeHandler encodingForModel getEncoding
         {| tok_modelType := modelType; prompt := text |} tokenizers)
  = encode fallback text
  /\ after !! "cl100k_base" = Some fallback
  /\ (modelType <> "cl100k_base" -> after !! modelType = None).
Proof.
  intros Hunknown Hfresh fallback after. subst fallback after.
  unfold createTokenizerEncodeHandler, getTokenizer. cbn [tok_modelType prompt].
  rewrite Hfresh, Hunknown.
  destruct (tokenizers !! "cl100k_base") as [t |] eqn:Hc; cbn [default from_option id fst snd].
  - rewrite Hc. cbn [fst snd]. repeat split; try done.
  - rewrite lookup_insert_eq. cbn [fst snd]. split; [reflexivity |].
    split; [apply lookup_insert_eq |].
    intros Hne. by rewrite lookup_insert_ne.
Qed.

Lemma getTokenizer_grows modelType (tokenizers : gmap string Tiktoken) :
  tokenizers ⊆ snd (getTokenizer encodingForModel getEncoding modelType tokenizers).
Proof.
  unfold getTokenizer.
  destruct (tokenizers !! modelType) as [t0 |] eqn:Hm; cbn [snd]; [done |].
  destruct (encodingForModel modelType) as [enc |]; cbn [snd].
  - by apply insert_subseteq.
  - destruct (tokenizers !! "cl100k_base") as [t1 |] eqn:Hc; [done |].
    by apply insert_subseteq.
Qed.

Lemma serve_grows r (tokenizers : gmap string Tiktoken) :
  tokenizers ⊆ serve encodingForModel getEncoding r tokenizers.
Proof.
  destruct r as [params | params]; cbn [serve];
    unfold createTokenizerEncodeHandler, createTokenizerDecodeHandler.
  - pose proof (getTokenizer_grows (tok_modelType params) tokenizers) as H.
    destruct (getTokenizer _ _ _ _) as [[t |] cache]; exact H.
  - pose proof (getTokenizer_grows (detok_modelType params) tokenizers) as H.
    destruct (getTokenizer _ _ _ _) as [[t |] cache]; exact H.
Qed.

(** X11: the handlers never replace or drop a cached tokenizer: after any
    sequence of encode and decode requests, every entry the cache had is
    still there, with the same tokenizer. *)
Theorem tokenizer_cache_only_grows (requests : list Request)
    (tokenizers : gmap string Tiktoken) :
  tokenizers ⊆ serve_all encodingForModel getEncoding requests tokenizers.
Proof.
  revert tokenizers. induction requests as [| r requests IH]; intros tokenizers; [done |].
  cbn [serve_all foldl]. etrans; [apply (serve_grows r) | apply IH].
Qed.

(** A request that leaves the cache as it is found its tokenizer there:
    under the identifier, or under "cl100k_base" for an identifier the
    library does not know. *)
Lemma stable_cases modelType (tokenizers : gmap string Tiktoken) t :
  getTokenizer encodingForModel getEncoding modelType tokenizers = (t, tokenizers) ->
  (exists x, tokenizers !! modelType = Some x /\ t = Some x)
  \/ (tokenizers !! modelType = None /\ encodingForModel modelType = None
      /\ exists y, tokenizers !! "cl100k_base" = Some y /\ t = Some y).
Proof.
  unfold getTokenizer. intros H.
  destruct (tokenizers !! modelType) as [x |] eqn:Hm.
  - left. exists x. split; [reflexivity |]. by injection H as <-.
  - right. destruct (encodingForModel modelType) as [enc |].
    + injection H as _ Hins.
      assert (Habs : (<[modelType := enc]> tokenizers) !! modelType = None)
        by (by rewrite Hins).
      by rewrite lookup_insert_eq in Habs.
    + destruct (tokenizers !! "cl100k_base") as [y |] eqn:Hc.
      * repeat split. exists y. split; [reflexivity |]. by injection H as <-.
      * injection H as _ Hins.
        assert (Habs : (<["cl100k_base" := getEncoding "cl100k_base"]> tokenizers)
                       !! "cl100k_base" = None) by (by rewrite Hins).
        by rewrite lookup_insert_eq in Habs.
Qed.

(** The only entries a request adds: one under its own identifier, if the
    library knows it, or one under "cl100k_base", if there was none. *)
Lemma getTokenizer_adds other (tokenizers : gmap string Tiktoken) k :
  snd (getTokenizer encodingForModel getEncoding other tokenizers) !! k = tokenizers !! k
  \/ (k = other /\ is_Some (encodingForModel other))
  \/ (k = "cl100k_base" /\ tokenizers !! "cl100k_base" = None).
Proof.
  unfold getTokenizer.
  destruct (tokenizers !! other) as [t0 |] eqn:Ho; cbn [snd]; [by left |].
  destruct (encodingForModel other) as [enc |]; cbn [snd].
  - destruct (decide (other = k)) as [-> | Hne]; [right; left; eauto |].
    left. by rewrite lookup_insert_ne.
  - destruct (tokenizers !! "cl100k_base") as [t1 |] eqn:Hc; [by left |].
    destruct (decide ("cl100k_base" = k)) as [<- | Hne]; [right; right; eauto |].
    left. by rewrite lookup_insert_ne.
Qed.

(** The tokenizer a model identifier resolves to stays the same when
    another identifier is resolved in between. *)
Lemma getTokenizer_undisturbed modelType other (tokenizers : gmap string Tiktoken) t :
  getTokenizer encodingForModel getEncoding modelType tokenizers = (t, tokenizers) ->
  let after := snd (getTokenizer encodingForModel getEncoding other tokenizers) in
  getTokenizer encodingForModel getEncoding modelType after = (t, after).
Proof.
  intros Hstable after.
  pose proof (getTokenizer_grows other tokenizers) as Hsub. fold after in Hsub.
  apply stable_cases in Hstable
    as [(x & Hm & ->) | (Hm & Hunknown & y & Hc & ->)]; unfold getTokenizer.
  - by rewrite (lookup_weaken _ _ _ _ Hm Hsub).
  - assert (Hm' : after !! modelType = None).
    { destruct (getTokenizer_adds other tokenizers modelType)
        as [Heq | [[-> [enc Henc]] | [-> Habs]]].
      - fold after in Heq. by rewrite Heq.
      - congruence.
      - congruence. }
    rewrite Hm', Hunknown. rewrite (lookup_weaken _ _ _ _ Hc Hsub).
    cbv beta iota zeta. by rewrite (lookup_weaken _ _ _ _ Hc Hsub).
Qed.

Lemma getTokenizer_undisturbed_all modelType requests : forall (tokenizers : gmap string Tiktoken) t,
  getTokenizer encodingForModel getEncoding modelType tokenizers = (t, tokenizers) ->
  let after := serve_all encodingForModel getEncoding requests tokenizers in
  getTokenizer encodingForModel getEncoding modelType after = (t, after).
Proof.
  induction requests as [| r requests IH]; intros tokenizers t Hstable; [exact Hstable |].
  cbn [serve_all foldl]. apply IH.
  destruct r as [params | params]; cbn [serve];
    unfold createTokenizerEncodeHandler, createTokenizerDecodeHandler.
  - pose proof (getTokenizer_undisturbed modelType (tok_modelType params) tokenizers t Hstable) as H.
    cbn zeta in H.
    destruct (getTokenizer encodingForModel getEncoding (tok_modelType params) tokenizers)
      as [[t' |] cache]; exact H.
  - pose proof (getTokenizer_undisturbed modelType (detok_modelType params) tokenizers t Hstable) as H.
    cbn zeta in H.
    destruct (getTokenizer encodingForModel getEncoding (detok_modelType params) tokenizers)
      as [[t' |] cache]; exact H.
Qed.

(** X12: the round trip survives other traffic: when the encode handler
    has produced tokens for a text, the decode handler gives the text back
    for the same model identifier after any sequence of encode and decode
    requests for whatever identifiers in between. *)
Theorem round_trip_survives_other_requests (tokenizers tokenizers' : gmap string Tiktoken)
    (modelType : string) (text : Js.jsstring) (toks : list N) (requests : list Request) :
  library_round_trips encodingForModel getEncoding ->
  cache_round_trips tokenizers ->
  createTokenizerEncodeHandler encodingForModel getEncoding
    {| tok_modelType := modelType; prompt := text |} tokenizers
  = (Return toks, tokenizers') ->
  fst (createTokenizerDecodeHandler encodingForModel getEncoding
         {| detok_modelType := modelType; tokens := toks |}
         (serve_all encodingForModel getEncoding requests tokenizers'))
  = Return text.
Proof.
  intros Hlib Hcache Henc.
  unfold createTokenizerEncodeHandler, createTokenizerDecodeHandler in *.
  cbn [tok_modelType prompt detok_modelType tokens] in *.
  destruct (getTokenizer encodingForModel getEncoding modelType tokenizers)
    as [t cache1] eqn:Hget.
  pose proof (getTokenizer_round_trips encodingForModel getEncoding modelType tokenizers
                Hlib Hcache) as [_ Hrt].
  rewrite Hget in Hrt. cbn [fst] in Hrt.
  destruct t as [t |]; [| discriminate Henc].
  injection Henc as Henc <-.
  pose proof (getTokenizer_stable _ _ _ _ _ _ Hget) as Hstable.
  rewrite (getTokenizer_undisturbed_all modelType requests cache1 (Some t) Hstable).
  cbn [fst]. by apply (Hrt t eq_refl).
Qed.

End WithLibrary.

Lemma unknown_model_falls_back_witness :
  fst (createTokenizerEncodeHandler Samples.one_model Samples.any_encoding
         {| tok_modelType := "claude"; prompt := Js.lit "hi" |} ∅)
  = Return [105; 106]%N.
Proof.
  pose proof (unknown_model_falls_back Samples.one_model Samples.any_encoding ∅
                "claude" (Js.lit "hi") eq_refl eq_refl) as H.
  cbv zeta in H. destruct H as [H _]. exact H.
Defined.

Lemma round_trip_survives_other_requests_witness :
  fst (createTokenizerDecodeHandler Samples.one_model Samples.any_encoding
         {| detok_modelType := "claude"; tokens := [105; 106]%N |}
         (serve_all Samples.one_model Samples.any_encoding
            [Encode {| tok_modelType := "gpt-4"; prompt := Js.lit "other" |};
             Decode {| detok_modelType := "unknown"; tokens := [65]%N |}]
            {[ "cl100k_base" := Samples.code_unit_tokenizer ]}))
  = Return (Js.lit "hi").
Proof.
  apply (round_trip_survives_other_requests Samples.one_model Samples.any_encoding ∅).
  - exact sample_library_round_trips.
  - intros m t Hm. rewrite lookup_empty in Hm. discriminate Hm.
  - reflexivity.
Defined.

End TokenizerExtras.

(** ** Text generation modes *)

Module TextGenerationExtras.
Import ErrorHandler Config TextGeneration.

Section WithCallbackState.
Context {S : Type}.
Variable generateText : Gateway.Model -> CallSettings -> Completion Thrown string.

(** X13: when [stream] is [false], or is not given and there is no chunk
    callback, the handler does not stream: whatever [streamText] would do
    and whether or not a callback is supplied, the result is the outcome of
    [generateText], its text returned as a plain string and its exception
    rethrown as it is. *)
Theorem blocking_mode_ignores_streaming (config : AIGatewayConfig) (modelId : string)
    (params : GenerateTextParams S) (st : Gateway.Cache)
    (streamText : Gateway.Model -> CallSettings -> Completion Thrown StreamTextResult) :
  stream params = Some false \/ (stream params = None /\ onStreamChunk params = None) ->
  fst (createTextHandler streamText generateText config modelId params st)
  = match generateText (fst (Gateway.getLanguageModel config modelId st))
            (settings_of params) with
    | Return t => Return (Text t)
    | Throw e => Throw e
    end.
Proof.
  intros Hmode. unfold createTextHandler.
  destruct (Gateway.getLanguageModel config modelId st) as [model st'].
  assert (Hno : shouldStream params = false).
  { unfold shouldStream. by destruct Hmode as [-> | [-> ->]]. }
  rewrite Hno. cbn [fst]. by destruct (generateText model (settings_of params)).
Qed.

Lemma consume_sdk_stream (chunks : list string) : forall fuel (s : S) acc evs,
  length chunks < fuel ->
  consume fuel (SdkStream chunks) s acc evs
  = Some {| outcome := Return tt; received := (acc ++ chunks)%list;
            trace := (evs ++ (Yielded <$> chunks))%list; callback_state := s |}.
Proof.
  induction chunks as [| c chunks IH]; intros fuel s acc evs Hfuel.
  - destruct fuel as [| fuel]; [cbn in Hfuel; lia |]. cbn. by rewrite !app_nil_r.
  - destruct fuel as [| fuel]; [cbn in Hfuel; lia |]. cbn [consume next].
    rewrite IH by (cbn in Hfuel; lia). cbn [fmap list_fmap]. by rewrite <- !app_assoc.
Qed.

(** X14: streaming without a chunk callback hands the fragment stream of
    the SDK through as it is: a consumer that drains it receives exactly
    the SDK's fragments in order, nothing is delivered to any callback, and
    the deferred text and finish reason are those of the SDK. *)
Theorem plain_stream_passes_through (config : AIGatewayConfig) (modelId : string)
    (params : GenerateTextParams S) (st : Gateway.Cache)
    (streamText : Gateway.Model -> CallSettings -> Completion Thrown StreamTextResult)
    (result : StreamTextResult) :
  stream params = Some true ->
  onStreamChunk params = None ->
  streamText (fst (Gateway.getLanguageModel config modelId st)) (settings_of params)
  = Return result ->
  exists r,
    fst (createTextHandler streamText generateText config modelId params st)
    = Return (Streaming r)
    /\ text r = sdk_text result
    /\ finishReason r = sdk_finishReason result
    /\ forall s,
         drain (textStream r) s
         = Some {| outcome := Return tt; received := sdk_textStream result;
                   trace := Yielded <$> sdk_textStream result; callback_state := s |}.
Proof.
  intros Hstream Hcb Hsdk. unfold createTextHandler.
  destruct (Gateway.getLanguageModel config modelId st) as [model st'].
  cbn [fst] in Hsdk. unfold shouldStream. rewrite Hstream, Hsdk, Hcb. cbn [fst].
  eexists. split; [reflexivity |]. cbn [text finishReason textStream].
  repeat split. intros s. unfold drain. cbn [pending].
  rewrite consume_sdk_stream by lia. reflexivity.
Qed.

(** X15: the generator never runs ahead of its consumer: after the
    consumer has asked for [n] fragments, the callback has been handed at
    most [n] fragments, these are the first fragments of the stream in
    order, and what the consumer has taken is a prefix of them. *)
Theorem callback_never_runs_ahead (n : nat) (callback : Callback S)
    (chunks : list string) (s : S) :
  let p := pull n (WithCallback callback chunks) s in
  length (delivered (so_far p)) <= n
  /\ delivered (so_far p) `prefix_of` chunks
  /\ taken p `prefix_of` delivered (so_far p).
Proof.
  revert chunks s. induction n as [| n IH]; intros chunks s.
  - cbn. repeat split; [lia | apply prefix_nil | apply prefix_nil].
  - destruct chunks as [| c rest].
    + cbn. repeat split; [lia | apply prefix_nil | apply prefix_nil].
    + cbn [pull next]. destruct (callback c s) as [[u | e] s'].
      * specialize (IH rest s'). cbn zeta in IH. destruct IH as (Hlen & Hpre & Htaken).
        cbn [taken so_far]. unfold delivered in *. cbn [omap list_omap app].
        repeat split; [cbn; lia | by apply prefix_cons | by apply prefix_cons].
      * cbn. repeat split; [lia | | apply prefix_nil].
        apply prefix_cons, prefix_nil.
Qed.

End WithCallbackState.

Lemma blocking_mode_ignores_streaming_witness :
  fst (createTextHandler Samples.streamText_hello Samples.generateText_hello
         Samples.config_key1 "anthropic/claude-haiku-4.5"
         Samples.params_no_stream Gateway.initial)
  = Return (Text "Hello world").
Proof.
  apply (blocking_mode_ignores_streaming Samples.generateText_hello Samples.config_key1
           "anthropic/claude-haiku-4.5" Samples.params_no_stream Gateway.initial
           Samples.streamText_hello).
  left. reflexivity.
Defined.

Lemma plain_stream_passes_through_witness :
  exists r,
    fst (createTextHandler Samples.streamText_hello Samples.generateText_hello
           Samples.config_key1 "anthropic/claude-haiku-4.5"
           Samples.params_plain_stream Gateway.initial)
    = Return (Streaming r)
    /\ text r = "Hello world"
    /\ finishReason r = "stop"
    /\ forall s : list string,
         drain (textStream r) s
         = Some {| outcome := Return tt; received := ["Hel"; "lo"; " world"];
                   trace := [Yielded "Hel"; Yielded "lo"; Yielded " world"];
                   callback_state := s |}.
Proof.
  apply (plain_stream_passes_through Samples.generateText_hello Samples.config_key1
           "anthropic/claude-haiku-4.5" Samples.params_plain_stream Gateway.initial
           Samples.streamText_hello Samples.hello_stream); reflexivity.
Defined.

End TextGenerationExtras.

(** ** The two versions of the embedding handler *)

Module TextEmbeddingExtras.
Import ErrorHandler Config Js TextEmbedding.

Section WithEmbed.
Variable embed : Gateway.Model -> jsstring -> Completion Thrown (list Q).

(** X16: the two versions of the embedding handler differ in nothing but
    their answer to an empty text: on every input, with every model and
    cache, they either give the same outcome and the same cache, or the one
    returns the vector of 3072 zeros where the other throws "Text cannot be
    empty for embedding", both leaving the cache alone. *)
Theorem versions_differ_only_on_empty_text (config : AIGatewayConfig)
    (params : value) (st : Gateway.Cache) :
  createTextEmbeddingHandler embed config params st
  = createTextEmbeddingHandler_strict embed config params st
  \/ (createTextEmbeddingHandler embed config params st
      = (Return (zero_vector 3072), st)
      /\ createTextEmbeddingHandler_strict embed config params st
         = (Throw (ThrownError (PlainError "Error" "Text cannot be empty for embedding")),
            st)).
Proof.
  unfold createTextEmbeddingHandler, createTextEmbeddingHandler_strict.
  destruct params as [| | b | z | t | items | fields];
    cbn [get default from_option id truthy negb]; try (by left); try (by right).
  - destruct t as [| c t]; [by right |]. cbn [truthy negb].
    destruct (length (trim (c :: t)) =? 0)%nat; [by right | by left].
  - destruct (lookup_field "text" fields) as [v |]; cbn [default from_option id];
      [| by right].
    destruct v as [| | b | z | t | items' | fields']; cbn [truthy negb];
      try (by left); try (by right).
    + destruct b; [by left | by right].
    + destruct (z =? 0)%Z; [by right | by left].
    + destruct t as [| c t]; [by right |]. cbn [truthy negb].
      destruct (length (trim (c :: t)) =? 0)%nat; [by right | by left].
Qed.

(** X17: a text that is not blank is embedded upstream, by both versions:
    the call goes to the configured embedding model on a provider that
    carries the configuration's base URL and API key, and the embedding (or
    the exception) that comes back is the handler's outcome, unchanged. *)
Theorem nonblank_text_is_embedded_upstream (config : AIGatewayConfig)
    (params : value) (st : Gateway.Cache) (t : jsstring) :
  carries_text t params ->
  blank t = false ->
  Gateway.cache_answers st ->
  exists model,
    Gateway.modelId model = AI_GATEWAY_EMBEDDING_MODEL config
    /\ Gateway.answers (Gateway.model_provider model) config
    /\ fst (createTextEmbeddingHandler embed config params st) = embed model t
    /\ fst (createTextEmbeddingHandler_strict embed config params st) = embed model t.
Proof.
  intros Hcarries Hblank Hcache.
  destruct (TextEmbeddingProps.handler_on_text embed config params st t Hcarries)
    as [Hzero Hstrict].
  rewrite Hblank in Hzero, Hstrict. rewrite Hzero, Hstrict. cbn [fst].
  eexists. split; [| split; [| split; reflexivity]].
  - unfold Gateway.getEmbeddingModel.
    by destruct (Gateway.createGatewayClient config st).
  - unfold Gateway.getEmbeddingModel.
    pose proof (GatewayProps.create_answers config st Hcache) as Hans.
    by destruct (Gateway.createGatewayClient config st).
Qed.

End WithEmbed.

Lemma nonblank_text_is_embedded_upstream_witness :
  fst (createTextEmbeddingHandler Samples.embed_fixed Samples.config_key1
         (JObj [("text", JStr (lit "hello"))]) Gateway.initial)
  = Return [1 # 2; 3 # 4]%Q
  /\ fst (createTextEmbeddingHandler_strict Samples.embed_down Samples.config_key1
            (JStr (lit " hi ")) Gateway.initial)
     = Throw (ThrownError (PlainError "Error" "upstream unavailable")).
Proof.
  split.
  - destruct (nonblank_text_is_embedded_upstream Samples.embed_fixed Samples.config_key1
                (JObj [("text", JStr (lit "hello"))]) Gateway.initial (lit "hello"))
      as (model & _ & _ & H & _).
    + by constructor.
    + reflexivity.
    + apply GatewayProps.cache_answers_initial.
    + exact H.
  - destruct (nonblank_text_is_embedded_upstream Samples.embed_down Samples.config_key1
                (JStr (lit " hi ")) Gateway.initial (lit " hi "))
      as (model & _ & _ & _ & H).
    + constructor.
    + reflexivity.
    + apply GatewayProps.cache_answers_initial.
    + exact H.
Defined.

End TextEmbeddingExtras.

(** ** Alternative-provider handlers *)

Module FalExtras.
Import ErrorHandler Config Js Fal.

(** X18: without the credential (unset, or empty) neither handler reaches
    the provider: whatever the provider would have answered, the image
    handler and the video handler throw their "FAL_API_KEY is required"
    errors. *)
Theorem missing_credential_fails_first (config : PluginConfig)
    (subscribed : Completion Thrown value) :
  FAL_API_KEY (fal config) = None \/ FAL_API_KEY (fal config) = Some "" ->
  createFalImageHandler config subscribed
  = Throw (ThrownError
             (PlainError "Error" "FAL_API_KEY is required for FAL image generation"))
  /\ createFalVideoHandler config subscribed
     = Throw (ThrownError
                (PlainError "Error" "FAL_API_KEY is required for FAL video generation")).
Proof.
  intros Hkey. unfold createFalImageHandler, createFalVideoHandler.
  by destruct Hkey as [-> | ->].
Qed.

Lemma missing_credential_fails_first_witness :
  createFalImageHandler Samples.without_fal (Return Samples.image_a)
  = Throw (ThrownError
             (PlainError "Error" "FAL_API_KEY is required for FAL image generation")).
Proof.
  apply (missing_credential_fails_first Samples.without_fal (Return Samples.image_a)).
  by left.
Defined.

(** X19: the video handler never returns a record without a usable url:
    whatever the provider answered, the [url] of a returned record is a
    truthy value, taken from [data.video.url] or else from [data.url]. *)
Theorem video_url_never_empty (config : PluginConfig)
    (subscribed : Completion Thrown value) (r : UrlRecord) :
  createFalVideoHandler config subscribed = Return r ->
  truthy (url r) = true
  /\ exists data,
       subscribed = Return data
       /\ (get data "url" = Some (url r)
           \/ exists video, get data "video" = Some video /\ get video "url" = Some (url r)).
Proof.
  unfold createFalVideoHandler. intros H.
  destruct (negb (truthy_setting (FAL_API_KEY (fal config)))); [discriminate H |].
  destruct subscribed as [data | e]; [| discriminate H].
  destruct (get data "video") as [video |] eqn:Hvideo; [| discriminate H].
  cbv zeta in H.
  set (nested := match video with
                 | JUndefined | JNull => JUndefined
                 | _ => default JUndefined (get video "url")
                 end) in H.
  destruct (truthy nested) eqn:Hnested.
  - rewrite Hnested in H. cbn [negb] in H. injection H as <-. cbn [url].
    split; [exact Hnested |]. exists data. split; [reflexivity |]. right.
    exists video. split; [exact Hvideo |].
    subst nested. destruct video; cbn in Hnested |- *; try discriminate Hnested; reflexivity.
  - destruct (truthy (default JUndefined (get data "url"))) eqn:Hurl;
      [| discriminate H].
    cbn [negb] in H. injection H as <-. cbn [url].
    split; [exact Hurl |]. exists data. split; [reflexivity |]. left.
    destruct data; cbn in Hurl |- *; try discriminate Hurl; reflexivity.
Qed.

Lemma video_url_never_empty_witness :
  createFalVideoHandler Samples.with_fal
    (Return (JObj [("video", JObj [("url", JStr (lit "https://fal.media/v.mp4"))])]))
  = Return {| url := JStr (lit "https://fal.media/v.mp4") |}
  /\ truthy (JStr (lit "https://fal.media/v.mp4")) = true.
Proof.
  split; [reflexivity |].
  apply (proj1 (video_url_never_empty Samples.with_fal
                  (Return (JObj [("video", JObj [("url", JStr (lit "https://fal.media/v.mp4"))])]))
                  {| url := JStr (lit "https://fal.media/v.mp4") |} eq_refl)).
Defined.

Lemma map_present_items (items : list value) :
  Forall (fun img => img <> JNull /\ img <> JUndefined) items ->
  map_throwing
    (fun img => match get img "url" with
                | Some u => Return {| url := u |}
                | None => Throw (cannot_read img "url")
                end) items
  = Return ((fun img => {| url := default JUndefined (get img "url") |}) <$> items).
Proof.
  induction 1 as [| img items [Hnull Hundef] _ IH]; [reflexivity |].
  cbn [map_throwing fmap list_fmap]. cbn [fmap] in IH. rewrite IH.
  by destruct img.
Qed.

(** X20: for a nested [images] list the image handler returns one record
    per element, in order, with whatever the element holds under [url]
    (undefined when it holds nothing); an empty list gives an empty result,
    without an error. *)
Theorem nested_images_one_record_each (config : PluginConfig)
    (fields : list (string * value)) (items : list value) :
  truthy_setting (FAL_API_KEY (fal config)) = true ->
  lookup_field "images" fields = Some (JArr items) ->
  Forall (fun img => img <> JNull /\ img <> JUndefined) items ->
  createFalImageHandler config (Return (JObj fields))
  = Return ((fun img => {| url := default JUndefined (get img "url") |}) <$> items)
  /\ (items = [] -> createFalImageHandler config (Return (JObj fields)) = Return []).
Proof.
  intros Hkey Himages Hitems.
  assert (H : createFalImageHandler config (Return (JObj fields))
              = Return ((fun img => {| url := default JUndefined (get img "url") |}) <$> items)).
  { unfold createFalImageHandler. rewrite Hkey. cbn [negb get]. rewrite Himages.
    cbn [default from_option id truthy]. by apply map_present_items. }
  split; [exact H |]. intros ->. exact H.
Qed.

Lemma nested_images_one_record_each_witness :
  createFalImageHandler Samples.with_fal
    (Return (JObj [("images", JArr [Samples.image_a; JObj [("seed", JNum 3)]])]))
  = Return [ {| url := JStr (lit "https://fal.media/a.png") |}; {| url := JUndefined |} ].
Proof.
  apply (nested_images_one_record_each Samples.with_fal
           [("images", JArr [Samples.image_a; JObj [("seed", JNum 3)]])]
           [Samples.image_a; JObj [("seed", JNum 3)]]).
  - reflexivity.
  - reflexivity.
  - repeat constructor; discriminate.
Defined.

End FalExtras.

(** ** Schema conversion *)

Module ObjectGenerationExtras.
Import ObjectGeneration.

Lemma includes_key_spec required key : includes_key required key = true <-> key ∈ required.
Proof.
  unfold includes_key. rewrite existsb_exists. split.
  - intros (x & Hin & Heq). apply String.eqb_eq in Heq. subst.
    by apply list_elem_of_In.
  - intros Hin. exists key. split; [by apply list_elem_of_In | apply String.eqb_refl].
Qed.

(** The converter never makes the schema it returns optional. *)
Lemma conversion_not_optional schema : is_optional (jsonSchemaToZod schema) = false.
Proof.
  destruct schema as [type items properties required]. cbn [jsonSchemaToZod].
  repeat (destruct (String.eqb type _); [reflexivity |]).
  destruct (String.eqb type "array"); [by destruct items |].
  destruct (String.eqb type "object"); [by destruct properties | reflexivity].
Qed.

(** X21: an object schema with properties converts to an object shape
    with the same keys in the same order, each property converted in turn;
    a property is marked optional exactly when its key is not in
    [required] (an absent [required] makes them all optional), and names in
    [required] that are no property are ignored. *)
Theorem required_decides_optional (items : option JSONSchema)
    (properties : list (string * JSONSchema)) (required : option (list string)) :
  exists shape,
    jsonSchemaToZod (Schema "object" items (Some properties) required) = ZObject shape
    /\ fst <$> shape = fst <$> properties
    /\ Forall2 (converted_as (default [] required)) properties shape.
Proof.
  cbn [jsonSchemaToZod String.eqb Ascii.eqb Bool.eqb].
  eexists. split; [reflexivity |].
  assert (Hreq : match required with Some r => r | None => [] end = default [] required)
    by (by destruct required).
  rewrite Hreq. generalize (default [] required). clear Hreq. intros req.
  induction properties as [| [key propSchema] properties [IHkeys IH]].
  - split; [reflexivity | constructor].
  - split; [cbn [fmap list_fmap fst]; f_equal; exact IHkeys |].
    constructor; [| exact IH].
    unfold converted_as. cbn [fst snd].
    destruct (includes_key req key) eqn:E.
    + apply includes_key_spec in E. pose proof (conversion_not_optional propSchema).
      repeat split; try done; congruence.
    + assert (Hnot : key ∉ req).
      { intros Hin. apply includes_key_spec in Hin. congruence. }
      repeat split; try done.
Qed.

End ObjectGenerationExtras.

(** ** Model discovery *)

Module FalModelsExtras.
Import ErrorHandler Config FalModels.

Section WithApi.
Variable fetch : FalRequest -> Completion Thrown FalHttpResponse.
Variable sortModels : list FalModel -> FalModelSort -> list FalModel.
Variable exponent_toString : Z -> string.

(** Every call of [fetchFalModels] makes one request. *)
Lemma fetchFalModels_one_request apiKey filters :
  exists request, snd (fetchFalModels fetch sortModels exponent_toString apiKey filters) = [request].
Proof.
  unfold fetchFalModels. eexists.
  destruct (fetch _) as [response | e]; [| reflexivity].
  destruct (ok response); cbn [negb]; [| reflexivity].
  destruct (json_models response) as [data | e]; [| reflexivity].
  destruct (sort filters); [| reflexivity].
  destruct (0 <? length (items data))%nat; reflexivity.
Qed.

(** Without a sort order a page comes back as the endpoint sent it. *)
Lemma fetchFalModels_unsorted apiKey filters response requests :
  sort filters = None ->
  fetchFalModels fetch sortModels exponent_toString apiKey filters = (Return response, requests) ->
  flat_map (page_items fetch) requests = items response.
Proof.
  unfold fetchFalModels, page_items. intros Hsort.
  set (request := {| search_params := _; authorization := _ |}).
  destruct (fetch request) as [resp | e] eqn:Hfetch; [| discriminate].
  destruct (ok resp); cbn [negb]; [| discriminate].
  destruct (json_models resp) as [data |] eqn:Hjson; [| discriminate].
  rewrite Hsort. intros [= <- <-]. cbn [flat_map].
  by rewrite Hfetch, Hjson, app_nil_r.
Qed.

Lemma loop_terminates_within_bound apiKey filters maxPages fuel :
  forall c pages allModels log,
    (maxPages - pages - 1 <= Z.of_nat fuel)%Z ->
    exists outcome requests,
      fetchAll_loop fetch sortModels exponent_toString apiKey filters maxPages fuel c pages allModels log
      = Some (outcome, (log ++ requests)%list)
      /\ 1 <= length requests
      /\ (Z.of_nat (length requests) <= Z.max 1 (maxPages - pages))%Z.
Proof.
  induction fuel as [| fuel IH]; intros c pages allModels log Hfuel;
    cbn [fetchAll_loop];
    destruct (fetchFalModels_one_request apiKey (with_cursor filters c)) as [request Hreq];
    destruct (fetchFalModels fetch sortModels exponent_toString apiKey (with_cursor filters c))
      as [[response | e] reqs]; cbn [snd] in Hreq; subst reqs;
    try (eexists _, [request]; split; [reflexivity |]; cbn [length]; lia).
  - destruct (truthy_setting (nextCursor response) && (pages + 1 <? maxPages)%Z) eqn:Hmore.
    + apply andb_true_iff in Hmore as [_ Hlt]. apply Z.ltb_lt in Hlt. lia.
    + eexists _, [request]. split; [reflexivity |]. cbn [length]. lia.
  - destruct (truthy_setting (nextCursor response) && (pages + 1 <? maxPages)%Z) eqn:Hmore.
    + apply andb_true_iff in Hmore as [_ Hlt]. apply Z.ltb_lt in Hlt.
      destruct (IH (nextCursor response) (pages + 1)%Z
                  (allModels ++ items response)%list (log ++ [request])%list)
        as (outcome & requests & Hloop & Hmin & Hmax); [lia |].
      exists outcome, (request :: requests). rewrite Hloop.
      split; [by rewrite <- app_assoc |]. cbn [length]. lia.
    + eexists _, [request]. split; [reflexivity |]. cbn [length]. lia.
Qed.

(** X22: [fetchAllFalModels] always ends, after at least one request and
    at most [maxPages] of them (ten by default): one request even when
    [maxPages] is zero or negative, since the loop tests after the fetch. *)
Theorem fetchAll_requests_bounded (apiKey : option string)
    (filters : FalModelFilters) (maxPages : option Z) :
  exists outcome requests,
    fetchAllFalModels fetch sortModels exponent_toString apiKey filters maxPages = Some (outcome, requests)
    /\ 1 <= length requests
    /\ (Z.of_nat (length requests) <= Z.max 1 (default 10 maxPages))%Z.
Proof.
  unfold fetchAllFalModels.
  destruct (loop_terminates_within_bound apiKey filters (default 10%Z maxPages)
              (Z.to_nat (default 10%Z maxPages)) None 0%Z [] [])
    as (outcome & requests & Hloop & Hmin & Hmax); [lia |].
  exists outcome, requests. rewrite Hloop. cbn [app].
  split; [reflexivity |]. split; [exact Hmin |]. by rewrite Z.sub_0_r in Hmax.
Qed.

Lemma loop_collects_pages apiKey filters maxPages fuel :
  sort filters = None ->
  forall c pages allModels log models requests,
    fetchAll_loop fetch sortModels exponent_toString apiKey filters maxPages fuel c pages allModels log
    = Some (Return models, requests) ->
    exists fetched,
      requests = (log ++ fetched)%list
      /\ models = (allModels ++ flat_map (page_items fetch) fetched)%list.
Proof.
  intros Hsort.
  induction fuel as [| fuel IH]; intros c pages allModels log models requests;
    cbn [fetchAll_loop];
    destruct (fetchFalModels fetch sortModels exponent_toString apiKey (with_cursor filters c))
      as [[response | e] reqs] eqn:Hpage; try discriminate;
    apply fetchFalModels_unsorted in Hpage; try exact Hsort;
    destruct (truthy_setting (nextCursor response) && (pages + 1 <? maxPages)%Z);
    try discriminate.
  - rewrite Hsort. intros [= <- <-]. exists reqs. by rewrite Hpage.
  - intros Hloop. apply IH in Hloop as (fetched & -> & ->).
    exists (reqs ++ fetched)%list. rewrite flat_map_app, Hpage.
    by rewrite <- !app_assoc.
  - rewrite Hsort. intros [= <- <-]. exists reqs. by rewrite Hpage.
Qed.

(** X23: without a sort order, what [fetchAllFalModels] returns is the
    concatenation, in request order, of the models of the pages it fetched:
    no model of a fetched page is dropped, duplicated or reordered. *)
Theorem fetchAll_concatenates_pages (apiKey : option string)
    (filters : FalModelFilters) (maxPages : option Z)
    (models : list FalModel) (requests : list FalRequest) :
  sort filters = None ->
  fetchAllFalModels fetch sortModels exponent_toString apiKey filters maxPages
  = Some (Return models, requests) ->
  models = flat_map (page_items fetch) requests.
Proof.
  intros Hsort Hall. unfold fetchAllFalModels in Hall.
  apply (loop_collects_pages _ _ _ _ Hsort) in Hall as (fetched & -> & ->).
  reflexivity.
Qed.

Lemma stdlib_filter_stdpp {A} (b : A -> bool) (P : A -> Prop)
    `{!forall x, Decision (P x)} (l : list A) :
  (forall x, b x = true <-> P x) -> List.filter b l = filter P l.
Proof.
  intros Hb. induction l as [| x l IH]; [reflexivity |].
  cbn [List.filter]. rewrite filter_cons, IH.
  destruct (b x) eqn:Hx, (decide (P x)) as [HP | HP]; try reflexivity.
  - exfalso. by apply HP, Hb.
  - apply Hb in HP. congruence.
Qed.

Lemma slice0_sublist {A} (l : list A) (n : Z) : slice0 l n `sublist_of` l.
Proof. unfold slice0. destruct (n <? 0)%Z; apply sublist_take. Qed.

Lemma slice0_prefix {A} (l : list A) (n : Z) : slice0 l n `prefix_of` l.
Proof.
  unfold slice0.
  destruct (n <? 0)%Z; eexists; symmetry; apply take_drop.
Qed.

Lemma slice0_length {A} (l : list A) (n : Z) :
  ((0 <= n)%Z -> Z.of_nat (length (slice0 l n)) = Z.min n (Z.of_nat (length l)))
  /\ ((n < 0)%Z ->
      Z.of_nat (length (slice0 l n)) = Z.max 0 (Z.of_nat (length l) + n)).
Proof.
  unfold slice0.
  destruct (n <? 0)%Z eqn:E; [apply Z.ltb_lt in E | apply Z.ltb_ge in E];
    rewrite length_take; lia.
Qed.

(** The one request of a category listing. *)
Lemma listing_request keep apiKey options :
  snd (listing fetch sortModels exponent_toString keep apiKey options)
  = [ {| search_params := [("deprecated", "false"); ("limit", "100")];
         authorization := headers_for apiKey |} ].
Proof.
  unfold listing, fetchFalModels.
  cbn [query filter_category status limit cursor sort truthy_setting app Z.eqb].
  change (number_toString exponent_toString 100) with "100".
  destruct (fetch _) as [response | e]; [| reflexivity].
  destruct (ok response); cbn [negb]; [| reflexivity].
  destruct (json_models response) as [data | e]; [| reflexivity].
  destruct (0 <? length (items data))%nat; reflexivity.
Qed.

(** What the three category listings have in common. *)
Lemma listing_spec keep (wanted : FalModel -> Prop) `{!forall m, Decision (wanted m)}
    apiKey options models :
  (forall m, keep m = true <-> wanted m) ->
  fst (listing fetch sortModels exponent_toString keep apiKey options) = Return models ->
  exists response,
    fst (fetchFalModels fetch sortModels exponent_toString apiKey
           {| query := None; filter_category := None; status := Some active;
              sort := Some (default newest (opt_sort options));
              limit := Some 100%Z; cursor := None |}) = Return response
    /\ models = slice0 (filter wanted (items response)) (limit_or (opt_limit options) 50).
Proof.
  intros Hkeep. unfold listing.
  destruct (fetchFalModels _ _ _ _ _) as [[response | e] reqs]; cbn [fst]; [| discriminate].
  intros [= <-]. exists response. split; [reflexivity |].
  by rewrite (stdlib_filter_stdpp keep wanted).
Qed.

(** What a slice of the wanted models of a page looks like. *)
Lemma sliced_page (wanted : FalModel -> Prop) `{!forall m, Decision (wanted m)}
    (page : list FalModel) (asked : Z) :
  Forall wanted (slice0 (filter wanted page) asked)
  /\ slice0 (filter wanted page) asked `sublist_of` page
  /\ slice0 (filter wanted page) asked `prefix_of` filter wanted page
  /\ ((0 <= asked)%Z ->
      Z.of_nat (length (slice0 (filter wanted page) asked))
      = Z.min asked (Z.of_nat (length (filter wanted page))))
  /\ ((asked < 0)%Z ->
      Z.of_nat (length (slice0 (filter wanted page) asked))
      = Z.max 0 (Z.of_nat (length (filter wanted page)) + asked)).
Proof.
  pose proof (slice0_prefix (filter wanted page) asked) as Hprefix.
  split; [| split; [| split; [exact Hprefix | apply slice0_length]]].
  - apply Forall_forall. intros m Hm.
    eapply elem_of_sublist in Hm; [| apply slice0_sublist].
    by apply list_elem_of_filter in Hm as [Hm _].
  - etrans; [apply slice0_sublist | apply sublist_filter].
Qed.

(** X24: each of the three category listings asks the endpoint once, for
    active models, a hundred at a time, and returns models of its
    categories only, in the order of the page: the first of them, up to the
    limit asked for when that limit is not negative (fifty when no limit,
    or a limit of zero, is given); a negative limit does not bound the
    answer, it leaves out that many of the last models of the categories
    instead. *)
Theorem category_listings_filter_and_limit (apiKey : option string)
    (options : ListingOptions) :
  let request :=
    {| search_params := [("deprecated", "false"); ("limit", "100")];
       authorization := headers_for apiKey |} in
  let asked := limit_or (opt_limit options) 50 in
  let listed (categories : list string)
      (run : Completion Thrown (list FalModel) * list FalRequest) :=
    snd run = [request]
    /\ forall models,
         fst run = Return models ->
         exists response,
           fst (fetchFalModels fetch sortModels exponent_toString apiKey
                  {| query := None; filter_category := None; status := Some active;
                     sort := Some (default newest (opt_sort options));
                     limit := Some 100%Z; cursor := None |}) = Return response
           /\ Forall (fun m => category m ∈ categories) models
           /\ models `sublist_of` items response
           /\ models `prefix_of` filter (fun m => category m ∈ categories) (items response)
           /\ ((0 <= asked)%Z ->
               Z.of_nat (length models)
               = Z.min asked
                   (Z.of_nat (length (filter (fun m => category m ∈ categories)
                                        (items response)))))
           /\ ((asked < 0)%Z ->
               Z.of_nat (length models)
               = Z.max 0
                   (Z.of_nat (length (filter (fun m => category m ∈ categories)
                                        (items response))) + asked)) in
  listed ["text-to-image"] (getImageModels fetch sortModels exponent_toString apiKey options)
  /\ listed ["text-to-video"; "image-to-video"]
       (getVideoModels fetch sortModels exponent_toString apiKey options)
  /\ listed ["image-to-3d"; "text-to-3d"]
       (get3DModels fetch sortModels exponent_toString apiKey options).
Proof.
  intros request asked listed.
  assert (Hlisting : forall keep categories,
            (forall m, keep m = true <-> category m ∈ categories) ->
            listed categories
              (listing fetch sortModels exponent_toString keep apiKey options)).
  { intros keep categories Hkeep. split; [apply listing_request |].
    intros models Hrun.
    apply (listing_spec keep (fun m => category m ∈ categories)) in Hrun
      as (response & Hpage & ->); [| exact Hkeep].
    exists response. split; [exact Hpage |]. apply sliced_page. }
  split; [| split]; apply Hlisting; intros m.
  - rewrite String.eqb_eq, !elem_of_cons, elem_of_nil. tauto.
  - rewrite orb_true_iff, !String.eqb_eq, !elem_of_cons, elem_of_nil. tauto.
  - rewrite orb_true_iff, !String.eqb_eq, !elem_of_cons, elem_of_nil. tauto.
Qed.


End WithApi.

Lemma category_listings_filter_and_limit_witness :
  fst (getImageModels Samples.fetch_catalogue Samples.unsorted Samples.no_exponent
         (Some "fal-key") {| opt_sort := None; opt_limit := Some (-1)%Z |})
  = Return [Samples.model_of "fal-ai/flux/dev" "text-to-image"]
  /\ exists response,
       fst (fetchFalModels Samples.fetch_catalogue Samples.unsorted Samples.no_exponent
              (Some "fal-key")
              {| query := None; filter_category := None; status := Some active;
                 sort := Some newest; limit := Some 100%Z; cursor := None |})
       = Return response
       /\ [Samples.model_of "fal-ai/flux/dev" "text-to-image"] `sublist_of` items response.
Proof.
  split; [reflexivity |].
  destruct (proj2 (proj1 (category_listings_filter_and_limit Samples.fetch_catalogue
                            Samples.unsorted Samples.no_exponent (Some "fal-key")
                            {| opt_sort := None; opt_limit := Some (-1)%Z |}))
              [Samples.model_of "fal-ai/flux/dev" "text-to-image"] eq_refl)
    as (response & Hpage & _ & Hsub & _).
  exists response. split; [exact Hpage | exact Hsub].
Defined.

Lemma fetchAll_concatenates_pages_witness :
  Samples.catalogue
  = flat_map (page_items Samples.fetch_catalogue)
      [ {| search_params := [("deprecated", "false")]; authorization := None |} ].
Proof.
  apply (fetchAll_concatenates_pages Samples.fetch_catalogue Samples.unsorted Samples.no_exponent None
           {| query := None; filter_category := None; status := Some active;
              sort := None; limit := None; cursor := None |} (Some 3%Z)).
  - reflexivity.
  - reflexivity.
Defined.


End FalModelsExtras.

(** ** Transcription *)

Module TranscriptionExtras.
Import ErrorHandler Config Js Transcription.

Section WithNetwork.
Variable fetch : Request -> Completion Thrown Response.

Lemma upload_log config audio log :
  snd (upload fetch config audio log)
  = (log ++ [Upload (AI_GATEWAY_BASE_URL config +:+ "/audio/transcriptions")
                    ("Bearer " +:+ AI_GATEWAY_API_KEY config)
                    audio "audio.mp3" (AI_GATEWAY_TRANSCRIPTION_MODEL config)])%list.
Proof.
  unfold upload. destruct (fetch _) as [response | e]; [| reflexivity].
  by destruct (ok response).
Qed.

(** X26: the shape of the parameters is settled before any request: for
    parameters that are neither a buffer, a string, nor a record with an
    [audioUrl] key the handler throws its input error and makes no request;
    for all others it makes one or two requests, and every upload among
    them goes to the transcription endpoint of the configured base URL with
    the configured key and model and the file name "audio.mp3". *)
Theorem shape_settled_before_any_request (config : AIGatewayConfig) (params : Params) :
  (~ accepted params ->
   createTranscriptionHandler fetch config params
   = (Throw (ThrownError
               (PlainError "Error"
                  "Invalid transcription params: expected audio URL, Buffer, or TranscriptionParams")),
      []))
  /\ (accepted params ->
      1 <= length (snd (createTranscriptionHandler fetch config params)) <= 2
      /\ Forall
           (fun r =>
              is_upload r = true ->
              exists audio,
                r = Upload (AI_GATEWAY_BASE_URL config +:+ "/audio/transcriptions")
                      ("Bearer " +:+ AI_GATEWAY_API_KEY config)
                      audio "audio.mp3" (AI_GATEWAY_TRANSCRIPTION_MODEL config))
           (snd (createTranscriptionHandler fetch config params))).
Proof.
  assert (Hup : forall audio log,
            Forall (fun r => is_upload r = false) log -> length log <= 1 ->
            1 <= length (snd (upload fetch config audio log)) <= 2
            /\ Forall
                 (fun r =>
                    is_upload r = true ->
                    exists audio,
                      r = Upload (AI_GATEWAY_BASE_URL config +:+ "/audio/transcriptions")
                            ("Bearer " +:+ AI_GATEWAY_API_KEY config)
                            audio "audio.mp3" (AI_GATEWAY_TRANSCRIPTION_MODEL config))
                 (snd (upload fetch config audio log))).
  { intros audio log Hlog Hlen. rewrite upload_log. rewrite length_app. cbn [length].
    split; [lia |]. apply Forall_app. split.
    - eapply Forall_impl; [exact Hlog |]. intros r Hr Habs. congruence.
    - constructor; [| constructor]. intros _. by exists audio. }
  assert (Hdown : forall address,
            1 <= length [Download address] <= 2
            /\ Forall
                 (fun r =>
                    is_upload r = true ->
                    exists audio,
                      r = Upload (AI_GATEWAY_BASE_URL config +:+ "/audio/transcriptions")
                            ("Bearer " +:+ AI_GATEWAY_API_KEY config)
                            audio "audio.mp3" (AI_GATEWAY_TRANSCRIPTION_MODEL config))
                 [Download address]).
  { intros address. split; [cbn; lia |]. constructor; [discriminate | constructor]. }
  split.
  - intros Hno. destruct params as [bytes | v]; [by destruct Hno |].
    destruct v as [| | b | z | t | items | fields]; cbn in Hno |- *; try reflexivity.
    + by destruct Hno.
    + destruct (has_key "audioUrl" fields); [by destruct Hno | reflexivity].
  - intros Hyes. destruct params as [bytes | v]; cbn [createTranscriptionHandler].
    + apply Hup; [constructor | cbn; lia].
    + destruct v as [| | b | z | t | items | fields]; cbn in Hyes; try done.
      * destruct (fetch (Download (JStr t))) as [response | e]; cbn [snd]; [| apply Hdown].
        apply Hup; [by repeat constructor | cbn; lia].
      * rewrite Hyes.
        destruct (fetch (Download _)) as [response | e]; cbn [snd]; [| apply Hdown].
        apply Hup; [by repeat constructor | cbn; lia].
Qed.


End WithNetwork.

Lemma shape_settled_before_any_request_witness :
  createTranscriptionHandler Samples.audio_network Samples.config_key1
    (Other (JObj [("url", JStr (lit "https://example.org/a.mp3"))]))
  = (Throw (ThrownError
              (PlainError "Error"
                 "Invalid transcription params: expected audio URL, Buffer, or TranscriptionParams")),
     [])
  /\ 1 <= length (snd (createTranscriptionHandler Samples.audio_network Samples.config_key1
                         (Buffer [Byte.x00]))) <= 2.
Proof.
  split.
  - apply (proj1 (shape_settled_before_any_request Samples.audio_network Samples.config_key1
                    (Other (JObj [("url", JStr (lit "https://example.org/a.mp3"))])))).
    cbn. discriminate.
  - apply (proj2 (shape_settled_before_any_request Samples.audio_network Samples.config_key1
                    (Buffer [Byte.x00]))).
    exact I.
Defined.


End TranscriptionExtras.

(** ** Image description *)

Module ImageDescriptionExtras.
Import ErrorHandler Config Js ImageDescription.

Section WithModel.
Variable generateText : Gateway.Model -> jsstring -> jsstring -> Completion Thrown jsstring.
Variable titleMatch : jsstring -> option jsstring.
Variable descMatch : jsstring -> option jsstring.

Lemma capture_or_cases m fallback :
  capture_or m fallback = fallback
  \/ exists group, m = Some group /\ capture_or m fallback = trim group /\ trim group <> [].
Proof.
  unfold capture_or. destruct m as [group |]; [| by left].
  destruct (trim group) as [| c rest] eqn:E; [by left |].
  right. exists group. by rewrite E.
Qed.

(** X28: the handler does not depend on the model following the template:
    it throws only what the model call threw, and whenever the model
    answers, whatever the two patterns find in the answer, it returns a
    record whose title is not empty ("Image" when no title is found) and
    whose description is empty only if the whole answer is (the answer
    itself when no description is found). *)
Theorem description_survives_any_answer (config : AIGatewayConfig) (params : Params)
    (st : Gateway.Cache) :
  (forall e,
     fst (createImageDescriptionHandler generateText titleMatch descMatch config params st)
     = Throw e ->
     exists model image text, generateText model image text = Throw e)
  /\ (forall d,
        fst (createImageDescriptionHandler generateText titleMatch descMatch config params st)
        = Return d ->
        title d <> []
        /\ exists model image text answer,
             generateText model image text = Return answer
             /\ (description d = [] -> answer = [])
             /\ (titleMatch answer = None -> title d = lit "Image")
             /\ (descMatch answer = None -> description d = answer)).
Proof.
  unfold createImageDescriptionHandler.
  destruct (match params with
            | BareUrl u => _
            | Described u p => _
            end) as [imageUrl prompt].
  destruct (Gateway.getLanguageModel config (AI_GATEWAY_VISION_MODEL config) st)
    as [model st'].
  destruct (generateText model imageUrl (instruction prompt)) as [answer | e0] eqn:Hcall;
    cbn [fst]; split; try discriminate.
  - intros d [= <-]. cbn [title description]. split.
    + destruct (capture_or_cases (titleMatch answer) (lit "Image"))
        as [-> | (group & _ & -> & Hne)]; [discriminate | exact Hne].
    + exists model, imageUrl, (instruction prompt), answer.
      split; [exact Hcall |]. split; [| split].
      * destruct (capture_or_cases (descMatch answer) answer)
          as [-> | (group & _ & -> & Hne)]; [done | by intros Habs].
      * by intros ->.
      * by intros ->.
  - intros e [= <-]. by exists model, imageUrl, (instruction prompt).
Qed.

End WithModel.

Lemma description_survives_any_answer_witness :
  fst (createImageDescriptionHandler Samples.vision_offtemplate Samples.no_match
         Samples.no_match Samples.config_key1
         (BareUrl (lit "https://example.org/i.png")) Gateway.initial)
  = Return {| title := lit "Image"; description := lit "A red circle." |}
  /\ title {| title := lit "Image"; description := lit "A red circle." |} <> [].
Proof.
  split; [reflexivity |].
  apply (proj2 (description_survives_any_answer Samples.vision_offtemplate Samples.no_match
                  Samples.no_match Samples.config_key1
                  (BareUrl (lit "https://example.org/i.png")) Gateway.initial)
           {| title := lit "Image"; description := lit "A red circle." |} eq_refl).
Defined.

End ImageDescriptionExtras.

(** ** Plugin initialization *)

Module PluginExtras.
Import Config Plugin.




Section WithSchema.
Variable is_url : string -> bool.
Variable resolveFal : gmap string string -> FalSettings.





End WithSchema.


End PluginExtras.
